(** * Admin front end: session gate, token store, API client and cache hooks

    A shallow embedding of the authentication and data layer of the admin
    dashboard, and the properties its specification states of it.

    The model:
    - [Js]          JavaScript values as the code sees them (JSON values,
                    [undefined] as [None], truthiness, [String(x)]);
    - [Eff]         thrown errors and a state-and-exception monad with
                    [try]/[catch]/[finally];
    - [Cookies], [Token]   lib/auth/cookies.ts and lib/auth/token.ts;
    - [Routes], [Gate]     lib/auth/config.ts and middleware.ts;
    - [Client]      lib/api/client.ts;
    - [AuthApi], [AuthContext]   lib/api/auth.ts and lib/auth/context.tsx;
    - [Swr]         the stale-while-revalidate cache the hooks call into;
    - [Hooks], [News], [Pdf]   lib/api/news.ts, lib/api/pdfs.ts,
                    hooks/use-news.ts and hooks/use-pdfs.ts;
    - [Example], [Samples]   a JSON reader for the examples, and sample
                    requests, responses and states.

    The properties: [Checks] (the definitions on small inputs),
    [TokenProps], [GateProps], [ClientProps], [AuthProps], [SwrProps],
    [HooksProps], and [Worked] (the results applied to the samples).

    Strings are byte strings (UTF-8); a surrogate without a partner,
    which a JavaScript string can hold and UTF-8 cannot, is written as
    the three bytes of its code point ([Token.well_formed]).  JSON numbers
    are restricted to integers: the code looks at numbers only for
    truthiness and inside template literals. *)

From Stdlib Require Import String Ascii ZArith Bool.
From stdpp Require Import gmap strings list fin_maps pretty.

Open Scope string_scope.

(* ================================================================== *)
(** ** JavaScript values *)
(* ================================================================== *)

Module Js.

(** A value produced by [JSON.parse].  [undefined] is not a JSON value: a
    possibly-undefined expression has type [option json]. *)
#[warning="-register-all"]
Inductive json : Type :=
| JNull
| JBool (b : bool)
| JNum (n : Z)
| JStr (s : string)
| JArr (items : list json)
| JObj (fields : list (string * json)).

(** [s.startsWith(p)] *)
Definition startsWith (s p : string) : bool := String.prefix p s.

(** [!!s] for a string *)
Definition nonempty (s : string) : bool := negb (String.eqb s EmptyString).

(** [!!v] *)
Definition truthy (v : json) : bool :=
  match v with
  | JNull => false
  | JBool b => b
  | JNum n => negb (n =? 0)%Z
  | JStr s => nonempty s
  | JArr _ | JObj _ => true
  end.

(** [!!v] where [v] may be undefined *)
Definition truthy_opt (o : option json) : bool :=
  match o with Some v => truthy v | None => false end.

(** [!!s] where [s] is [string | null | undefined] *)
Definition truthy_str (o : option string) : bool :=
  match o with Some s => nonempty s | None => false end.

(** [typeof v === "object"]; true of [null] as well, as in JavaScript. *)
Definition typeof_object (v : json) : bool :=
  match v with JNull | JArr _ | JObj _ => true | _ => false end.

Fixpoint assoc (k : string) (l : list (string * json)) : option json :=
  match l with
  | [] => None
  | (k', v) :: l' => if String.eqb k k' then Some v else assoc k l'
  end.

(** [v.k] on a parsed JSON value: own properties of objects; the property
    names the code reads ([success], [data], [token], [admin], [message])
    are undefined on every other value.  Reading a property of [null]
    throws, so the code guards those reads with [?.] or [&&]. *)
Definition get (k : string) (v : json) : option json :=
  match v with JObj fields => assoc k fields | _ => None end.

(** [o?.k] *)
Definition get_opt (k : string) (o : option json) : option json :=
  match o with
  | Some JNull | None => None
  | Some v => get k v
  end.

(** ["k" in v], for [v] an object (arrays have no such own property). *)
Definition has_key (k : string) (v : json) : bool :=
  match v with JObj fields => bool_decide (is_Some (assoc k fields)) | _ => false end.

Fixpoint join (sep : string) (l : list string) : string :=
  match l with
  | [] => EmptyString
  | [x] => x
  | x :: rest => x +:+ sep +:+ join sep rest
  end.

(** [String(v)], also what a template literal does to [v]. *)
Fixpoint to_string (v : json) : string :=
  match v with
  | JNull => "null"
  | JBool true => "true"
  | JBool false => "false"
  | JNum n => pretty n
  | JStr s => s
  | JArr items =>
      join "," ((fix elems (l : list json) : list string :=
                   match l with
                   | [] => []
                   | JNull :: l' => EmptyString :: elems l'
                   | x :: l' => to_string x :: elems l'
                   end) items)
  | JObj _ => "[object Object]"
  end.

(** [String(o)] where [o] may be undefined *)
Definition to_string_opt (o : option json) : string :=
  match o with Some v => to_string v | None => "undefined" end.

(** What the JavaScript host provides: the JSON built-ins and the
    environment variable the API client reads.  [JSON_parse] returns [None]
    where [JSON.parse] throws a [SyntaxError]; the empty text is not JSON. *)
Class JsonRuntime := {
  JSON_parse : string -> option json;
  JSON_stringify : json -> string;
  JSON_parse_empty : JSON_parse EmptyString = None;
  NEXT_PUBLIC_API_BASE_URL : option string
}.

End Js.
Export Js.

(* ================================================================== *)
(** ** Thrown values and asynchronous code *)
(* ================================================================== *)

Module Eff.

(** What a [throw] (or a rejected promise) carries.  [ApiError] is the class
    of lib/api/client.ts: [message], [status], [data]. *)
Inductive exn : Type :=
| ApiError (message : string) (status : Z) (data : option json)
| JsError (message : string)
| NonError (v : json).

(** [e instanceof Error]; [ApiError extends Error]. *)
Definition instanceof_Error (e : exn) : bool :=
  match e with NonError _ => false | _ => true end.

Definition instanceof_ApiError (e : exn) : bool :=
  match e with ApiError _ _ _ => true | _ => false end.

Inductive outcome (A : Type) : Type :=
| Returned (a : A)
| Threw (e : exn).
Arguments Returned {A} a.
Arguments Threw {A} e.

(** A computation over a state [S] that returns or throws. *)
Definition M (S A : Type) : Type := S -> outcome A * S.

Definition ret {S A} (a : A) : M S A := fun s => (Returned a, s).
Definition throw {S A} (e : exn) : M S A := fun s => (Threw e, s).

Definition bind {S A B} (m : M S A) (k : A -> M S B) : M S B :=
  fun s => match m s with
           | (Returned a, s') => k a s'
           | (Threw e, s') => (Threw e, s')
           end.

Definition modify {S} (f : S -> S) : M S unit := fun s => (Returned tt, f s).
Definition gets {S A} (f : S -> A) : M S A := fun s => (Returned (f s), s).

(** [try { m } catch (e) { h e }] *)
Definition try_catch {S A} (m : M S A) (h : exn -> M S A) : M S A :=
  fun s => match m s with
           | (Returned a, s') => (Returned a, s')
           | (Threw e, s') => h e s'
           end.

(** [try { m } finally { f }]: [f] always runs; when it returns, the
    outcome of [m] stands. *)
Definition try_finally {S A} (m : M S A) (f : M S unit) : M S A :=
  fun s => match m s with
           | (r, s') => match f s' with
                        | (Returned _, s'') => (r, s'')
                        | (Threw e, s'') => (Threw e, s'')
                        end
           end.

(** [if (c) { m }] *)
Definition when {S} (c : bool) (m : M S unit) : M S unit :=
  if c then m else ret tt.

End Eff.
Export Eff.

Declare Scope eff_scope.
Delimit Scope eff_scope with eff.
Notation "'let!' x := m 'in' k" := (bind m (fun x => k))
  (at level 10, x name, m at level 100, k at level 200) : eff_scope.
Notation "m ;; k" := (bind m (fun _ => k))
  (at level 100, k at level 200, right associativity) : eff_scope.

(* ================================================================== *)
(** ** lib/auth/cookies.ts *)
(* ================================================================== *)

Module Cookies.

Definition AUTH_COOKIE_NAME : string := "admin_auth_token".

(** "remember me" sessions: 7 days in seconds *)
Definition AUTH_COOKIE_MAX_AGE : Z := 60 * 60 * 24 * 7.

(** session-only tokens: 24 hours in seconds *)
Definition SESSION_COOKIE_MAX_AGE : Z := 60 * 60 * 24.

Definition REFRESH_COOKIE_NAME : string := "admin_refresh_token".
Definition REFRESH_COOKIE_MAX_AGE : Z := 60 * 60 * 24 * 30.

End Cookies.

(* ================================================================== *)
(** ** lib/auth/token.ts *)
(* ================================================================== *)

Module Token.
Import Cookies.

Definition TOKEN_KEY : string := "admin_auth_token".
Definition USER_KEY : string := "admin_user".

(** One cookie of the jar, with the attributes [setCookie] writes. *)
Record cookie : Type := {
  cookie_value : string;
  cookie_path : string;
  cookie_max_age : Z;
  cookie_same_site : string
}.

(** What the token store touches in a browser: [localStorage] and the
    cookie jar behind [document.cookie]. *)
Record storage : Type := {
  localStorage : gmap string string;
  jar : gmap string cookie
}.

(** Where the module runs: [typeof window] is ["undefined"] on the server. *)
Inductive env : Type :=
| Server
| Browser (st : storage).

Definition isBrowser (e : env) : bool :=
  match e with Browser _ => true | Server => false end.

Definition hex_digit (n : N) : ascii :=
  ascii_of_N (if (n <? 10)%N then 48 + n else 55 + n).

(** The characters [encodeURIComponent] leaves alone:
    letters, digits and [- _ . ! ~ * ' ( )]. *)
Definition uri_unreserved (c : ascii) : bool :=
  let n := N_of_ascii c in
  ((48 <=? n) && (n <=? 57) || (65 <=? n) && (n <=? 90) ||
   (97 <=? n) && (n <=? 122) ||
   existsb (N.eqb n) [45; 95; 46; 33; 126; 42; 39; 40; 41])%N.

(** What [encodeURIComponent(s)] returns for a string it accepts: the
    UTF-8 bytes of [s], the unreserved ones as they are and the others
    percent-encoded. *)
Fixpoint encodeURIComponent (s : string) : string :=
  match s with
  | EmptyString => EmptyString
  | String c rest =>
      if uri_unreserved c then String c (encodeURIComponent rest)
      else
        let n := N_of_ascii c in
        String "%" (String (hex_digit (n / 16)) (String (hex_digit (n mod 16))
          (encodeURIComponent rest)))
  end.

(** A string that holds no lone surrogate.  A surrogate (U+D800 to
    U+DFFF) that is not half of a pair has no UTF-8 encoding; in a byte
    string it is written as the three bytes of its code point, [ED], then
    [A0] to [BF], then [80] to [BF].  UTF-8 itself never has [ED] followed
    by [A0] to [BF]. *)
Fixpoint well_formed (s : string) : bool :=
  match s with
  | EmptyString => true
  | String c rest =>
      match rest with
      | String d _ =>
          negb ((N_of_ascii c =? 237) && (160 <=? N_of_ascii d)
                && (N_of_ascii d <=? 191))%N
      | EmptyString => true
      end
      && well_formed rest
  end.

(** The [URIError] of [encodeURIComponent]; it is an [Error]. *)
Definition URIError : exn := JsError "URI malformed".

(** [encodeURIComponent(s)]: it throws a [URIError] on a string with a
    lone surrogate. *)
Definition encodeURIComponent_or_throw {S} (s : string) : M S string :=
  if well_formed s then ret (encodeURIComponent s) else throw URIError.

(** Assigning [name=value; path=..; max-age=n; SameSite=..] to
    [document.cookie]: the browser stores the cookie under its name, and
    drops it when the max-age is not positive. *)
Definition document_cookie_assign (name : string) (c : cookie)
    (j : gmap string cookie) : gmap string cookie :=
  if (cookie_max_age c <=? 0)%Z then delete name j else <[name := c]> j.

(** [document.cookie = ..] in the browser. *)
Definition document_cookie_set (name : string) (c : cookie) (e : env) : env :=
  match e with
  | Server => Server
  | Browser st =>
      Browser {| localStorage := localStorage st;
                 jar := document_cookie_assign name c (jar st) |}
  end.

(** [setCookie(name, value, maxAgeSeconds)]: the template literal calls
    [encodeURIComponent(value)] before anything is assigned. *)
Definition setCookie (name value : string) (maxAgeSeconds : Z) : M env unit :=
  (let! browser := gets isBrowser in
   if negb browser then ret tt
   else
     let! encoded := encodeURIComponent_or_throw value in
     modify (document_cookie_set name
               {| cookie_value := encoded; cookie_path := "/";
                  cookie_max_age := maxAgeSeconds;
                  cookie_same_site := "Lax" |}))%eff.

Definition clearCookie (name : string) (e : env) : env :=
  match e with
  | Server => Server
  | Browser st =>
      Browser {| localStorage := localStorage st;
                 jar := document_cookie_assign name
                          {| cookie_value := EmptyString;
                             cookie_path := "/";
                             cookie_max_age := 0;
                             cookie_same_site := "Lax" |} (jar st) |}
  end.

(** [localStorage.setItem] and [localStorage.removeItem] *)
Definition setItem (k v : string) (st : storage) : storage :=
  {| localStorage := <[k := v]> (localStorage st); jar := jar st |}.

Definition removeItem (k : string) (st : storage) : storage :=
  {| localStorage := delete k (localStorage st); jar := jar st |}.

(** [getToken(): string | null] *)
Definition getToken (e : env) : option string :=
  match e with
  | Server => None
  | Browser st => localStorage st !! TOKEN_KEY
  end.

(** [localStorage.setItem(k, v)] in the browser. *)
Definition localStorage_setItem (k v : string) (e : env) : env :=
  match e with
  | Server => Server
  | Browser st => Browser (setItem k v st)
  end.

(** [setToken(token, remember?)]: [localStorage] is written first, the
    cookie after it; when [setCookie] throws, the token stays in
    [localStorage] and the cookie jar is as it was. *)
Definition setToken (token : string) (remember : option bool) : M env unit :=
  (let! browser := gets isBrowser in
   if negb browser then ret tt
   else
     modify (localStorage_setItem TOKEN_KEY token) ;;
     let maxAge := if default false remember
                   then AUTH_COOKIE_MAX_AGE else SESSION_COOKIE_MAX_AGE in
     setCookie AUTH_COOKIE_NAME token maxAge)%eff.

Arguments setCookie : simpl never.
Arguments setToken : simpl never.

(** [removeToken()] *)
Definition removeToken (e : env) : env :=
  match e with
  | Server => Server
  | Browser st => clearCookie AUTH_COOKIE_NAME (Browser (removeItem TOKEN_KEY st))
  end.

(** [hasToken()] *)
Definition hasToken (e : env) : bool :=
  bool_decide (getToken e <> None).

(** The cookie the route gate will be sent, if any. *)
Definition authCookie (e : env) : option cookie :=
  match e with
  | Server => None
  | Browser st => jar st !! AUTH_COOKIE_NAME
  end.

Section WithJson.
Context {rt : JsonRuntime}.

(** [JSON.parse(raw)], which throws on malformed text. *)
Definition JSON_parse_or_throw {S} (raw : string) : M S json :=
  match JSON_parse raw with
  | Some v => ret v
  | None => throw (JsError "SyntaxError")
  end.

(** [getStoredUser(): Admin | null] *)
Definition getStoredUser : M env json :=
  fun e =>
    match e with
    | Server => ret JNull e
    | Browser st =>
        try_catch
          (let raw := localStorage st !! USER_KEY in
           if negb (truthy_str raw) then ret JNull
           else JSON_parse_or_throw (default EmptyString raw))
          (fun _ => ret JNull) e
    end.

(** [setStoredUser(user)]; [JNull] is [null]. *)
Definition setStoredUser (user : json) (e : env) : env :=
  match e with
  | Server => Server
  | Browser st =>
      match user with
      | JNull => Browser (removeItem USER_KEY st)
      | _ => Browser (setItem USER_KEY (JSON_stringify user) st)
      end
  end.

(** [clearAuthStorage()] *)
Definition clearAuthStorage (e : env) : env :=
  setStoredUser JNull (removeToken e).

End WithJson.

End Token.

(* ================================================================== *)
(** ** lib/auth/config.ts *)
(* ================================================================== *)

Module Routes.

Definition LOGIN_PATH : string := "/login".
Definition DEFAULT_REDIRECT_AFTER_LOGIN : string := "/".
Definition CALLBACK_URL_PARAM : string := "callbackUrl".

(** Routes that do not require authentication. *)
Definition PUBLIC_PATHS : list string := [LOGIN_PATH].

(** Path prefixes that are always allowed. *)
Definition UNPROTECTED_PREFIXES : list string :=
  ["/_next"; "/api/"; "/favicon"; "/icon"; "/apple-icon"; "/placeholder"].

(** [isPublicPath(pathname)] *)
Definition isPublicPath (pathname : string) : bool :=
  if existsb (String.eqb pathname) PUBLIC_PATHS then true
  else existsb (fun prefix => startsWith pathname prefix) UNPROTECTED_PREFIXES.

(** [isLoginPath(pathname)] *)
Definition isLoginPath (pathname : string) : bool :=
  String.eqb pathname LOGIN_PATH.

(** [v && v.startsWith("/") ? v : DEFAULT_REDIRECT_AFTER_LOGIN], the
    expression both middleware.ts and context.tsx use on the callback
    value ([null] or [undefined] is [None]). *)
Definition redirectTarget (v : option string) : string :=
  match v with
  | Some s => if nonempty s && startsWith s "/" then s
              else DEFAULT_REDIRECT_AFTER_LOGIN
  | None => DEFAULT_REDIRECT_AFTER_LOGIN
  end.

(** A reference that starts with two slashes is scheme-relative: resolved
    against the URL of a page it keeps the scheme of the page and names a
    host of its own ([//evil.example/x] names [evil.example]). *)
Definition scheme_relative (href : string) : bool := startsWith href "//".

End Routes.

(* ================================================================== *)
(** ** middleware.ts *)
(* ================================================================== *)

Module Gate.
Import Cookies Routes.

(** A URL as the gate uses it.  [pathname] holds the string assigned to
    it.  What the URL shows afterwards is that string as the [pathname]
    setter parses it, with [?], [#], spaces and the like percent-encoded
    and dot segments resolved ([/news?page=2] becomes [/news%3Fpage=2]).
    The setter keeps the leading [/], leaves a pathname that the URL
    parser produced (that of a request) as it is, and changes neither the
    origin nor the query. *)
Record URL : Type := {
  origin : string;
  pathname : string;
  searchParams : list (string * string)
}.

(** [searchParams.get(name)]: the first value, or [null]. *)
Fixpoint searchParams_get (name : string) (q : list (string * string))
    : option string :=
  match q with
  | [] => None
  | (k, v) :: q' => if String.eqb k name then Some v else searchParams_get name q'
  end.

(** [searchParams.delete(name)]: every pair of that name goes. *)
Definition searchParams_delete (name : string) (q : list (string * string))
    : list (string * string) :=
  List.filter (fun kv => negb (String.eqb (fst kv) name)) q.

(** [searchParams.set(name, value)]: the first pair of that name takes the
    value and the others go; a new name is appended. *)
Fixpoint searchParams_set (name value : string) (q : list (string * string))
    : list (string * string) :=
  match q with
  | [] => [(name, value)]
  | (k, v) :: q' =>
      if String.eqb k name then (k, value) :: searchParams_delete name q'
      else (k, v) :: searchParams_set name value q'
  end.

(** [new URL(path, base)] for an absolute path: the origin of [base], the
    path, no query. *)
Definition new_URL (path : string) (base : URL) : URL :=
  {| origin := origin base; pathname := path; searchParams := [] |}.

(** A request: its URL and its cookies by name; [cookies.get(n)?.value] is
    the value of the first cookie of that name. *)
Record NextRequest : Type := {
  nextUrl : URL;
  cookies : list (string * string)
}.

Definition cookie_value_of (name : string) (req : NextRequest) : option string :=
  searchParams_get name (cookies req).

Inductive NextResponse : Type :=
| next
| redirect (to : URL).

(** [middleware(request)] *)
Definition middleware (request : NextRequest) : NextResponse :=
  let pathname := pathname (nextUrl request) in
  if isPublicPath pathname then
    let token := cookie_value_of AUTH_COOKIE_NAME request in
    if truthy_str token && isLoginPath pathname then
      let url := nextUrl request in
      let callbackUrl := searchParams_get CALLBACK_URL_PARAM (searchParams url) in
      redirect {| origin := origin url;
                  pathname := redirectTarget callbackUrl;
                  searchParams := searchParams_delete CALLBACK_URL_PARAM
                                    (searchParams url) |}
    else next
  else
    let token := cookie_value_of AUTH_COOKIE_NAME request in
    if negb (truthy_str token) then
      let loginUrl := new_URL LOGIN_PATH (nextUrl request) in
      redirect {| origin := origin loginUrl;
                  pathname := Gate.pathname loginUrl;
                  searchParams := searchParams_set CALLBACK_URL_PARAM pathname
                                    (searchParams loginUrl) |}
    else next.

(** Whether a response lets the request through. *)
Definition allows (r : NextResponse) : bool :=
  match r with next => true | redirect _ => false end.

End Gate.

(* ================================================================== *)
(** ** lib/api/client.ts *)
(* ================================================================== *)

Module Client.
Import Token.

(** What the client reads of a [Response]: [res.status] and the text of
    the body. *)
Record Response : Type := {
  status : Z;
  body : string
}.

(** [res.ok] *)
Definition ok (res : Response) : bool :=
  ((200 <=? status res) && (status res <=? 299))%Z.

Inductive BodyInit : Type :=
| TextBody (text : string)
| FormDataBody (form : json).

Record RequestInit : Type := {
  init_method : string;
  init_headers : gmap string string;
  init_credentials : string;
  init_body : option BodyInit
}.

(** The settled promise of [fetch(url, init)]. *)
Inductive fetched : Type :=
| Resolved (res : Response)
| Rejected (e : exn).

(** The transport and the backend behind it. *)
Definition network : Type := string -> RequestInit -> fetched.

Record RequestOptions : Type := {
  method : option string;
  headers : option (gmap string string);
  payload : option json;
  anonymous : bool;
  isFormData : bool
}.

Definition GET : RequestOptions :=
  {| method := Some "GET"; headers := None; payload := None;
     anonymous := false; isFormData := false |}.

(** A network that settles every request the same way. *)
Definition answers (net : network) (f : fetched) : Prop :=
  forall url init, net url init = f.

(** A backend that accepts what it is sent: it answers with a response
    whose status is 2xx. *)
Definition accepts (net : network) : Prop :=
  exists res, answers net (Resolved res) /\ ok res = true.

(** [`Request failed with status ${res.status}`] *)
Definition generic_message (res : Response) : string :=
  "Request failed with status " +:+ pretty (status res).

(** [s.replace(/\/+$/, "")] *)
Fixpoint strip_trailing_slashes (s : string) : string :=
  match s with
  | EmptyString => EmptyString
  | String c rest =>
      let rest' := strip_trailing_slashes rest in
      if Ascii.eqb c "/" && negb (nonempty rest') then EmptyString
      else String c rest'
  end.

Section WithJson.
Context {rt : JsonRuntime}.

Definition API_BASE_URL : string :=
  match NEXT_PUBLIC_API_BASE_URL with
  | Some v => strip_trailing_slashes v
  | None => "http://192.168.76.132:3001/api"
  end.

(** [parseJsonSafe(response)]: undefined for an empty or malformed body. *)
Definition parseJsonSafe {S} (response : Response) : M S (option json) :=
  let text := body response in
  if negb (nonempty text) then ret None
  else try_catch (let! v := JSON_parse_or_throw text in ret (Some v))%eff
                 (fun _ => ret None).

(** [await fetch(url, init)] *)
Definition fetch {S} (net : network) (url : string) (init : RequestInit)
    : M S Response :=
  match net url init with
  | Resolved res => ret res
  | Rejected e => throw e
  end.

(** The message of the [ApiError] for a failed response:
    [(data && typeof data === "object" && "message" in data && data.message)
     || `Request failed with status ${res.status}`]. *)
Definition error_message (data : option json) (res : Response) : string :=
  let picked :=
    match data with
    | Some d =>
        if truthy d && typeof_object d && has_key "message" d
        then get "message" d else None
    | None => None
    end in
  if truthy_opt picked then to_string_opt picked
  else generic_message res.

(** [apiFetch(path, options)] *)
Definition apiFetch (net : network) (path : string) (o : RequestOptions)
    : M env json :=
  (let url := if startsWith path "http" then path else API_BASE_URL +:+ path in
   let! token := gets (fun e => if anonymous o then None else getToken e) in
   let requestHeaders : gmap string string :=
     default ∅ (headers o)
     ∪ (if truthy_str token
        then {[ "Authorization" := "Bearer " +:+ default EmptyString token ]}
        else ∅)
     ∪ (if isFormData o then ∅
        else {[ "Content-Type" := "application/json" ]}) in
   let init :=
     {| init_method := default "GET" (method o);
        init_headers := requestHeaders;
        init_credentials := if anonymous o then "omit" else "include";
        init_body :=
          match payload o with
          | Some b => Some (if isFormData o then FormDataBody b
                            else TextBody (JSON_stringify b))
          | None => None
          end |} in
   let! res := fetch net url init in
   let! data := parseJsonSafe res in
   if negb (ok res) then
     throw (ApiError (error_message data res) (status res) data)
   else
     ret (match data with
          | Some JNull | None => JObj []
          | Some v => v
          end))%eff.

End WithJson.

End Client.

(* ================================================================== *)
(** ** lib/api/auth.ts *)
(* ================================================================== *)

Module AuthApi.
Import Token Client.

Definition AUTH_BASE : string := "/auth".

Section WithJson.
Context {rt : JsonRuntime}.

(** [login(payload, options)]; [remember] is [options?.remember]. *)
Definition login (net : network) (credentials : json) (remember : option bool)
    : M env json :=
  (let! response :=
     apiFetch net (AUTH_BASE +:+ "/login")
       {| method := Some "POST"; headers := None; payload := Some credentials;
          anonymous := true; isFormData := false |} in
   let token := get_opt "token" (get "data" response) in
   when (truthy_opt (get "success" response) && truthy_opt token)
        (setToken (to_string_opt token) remember) ;;
   ret response)%eff.

(** [logout()] *)
Definition logout (net : network) : M env unit :=
  try_finally
    (try_catch
       (apiFetch net (AUTH_BASE +:+ "/logout")
          {| method := Some "POST"; headers := None; payload := None;
             anonymous := false; isFormData := false |} ;; ret tt)%eff
       (fun _ => ret tt))
    (modify removeToken).

End WithJson.

End AuthApi.

(* ================================================================== *)
(** ** lib/auth/context.tsx *)
(* ================================================================== *)

Module AuthContext.
Import Token Client Routes.

(** The provider's state, the storage it works on, and the targets handed
    to [router.replace], most recent first. *)
Record world : Type := {
  w_env : env;
  user : json;
  isLoading : bool;
  navigations : list string
}.

(** The state on mount: [useState(null)], [useState(true)]. *)
Definition initial (e : env) : world :=
  {| w_env := e; user := JNull; isLoading := true; navigations := [] |}.

Definition setUser (u : json) : M world unit :=
  modify (fun w => {| w_env := w_env w; user := u;
                      isLoading := isLoading w; navigations := navigations w |}).

Definition setIsLoading (b : bool) : M world unit :=
  modify (fun w => {| w_env := w_env w; user := user w;
                      isLoading := b; navigations := navigations w |}).

Definition router_replace (href : string) : M world unit :=
  modify (fun w => {| w_env := w_env w; user := user w;
                      isLoading := isLoading w;
                      navigations := href :: navigations w |}).

(** Run a token-store or API computation on the world's storage. *)
Definition onEnv {A} (m : M env A) : M world A :=
  fun w => match m (w_env w) with
           | (r, e') => (r, {| w_env := e'; user := user w;
                               isLoading := isLoading w;
                               navigations := navigations w |})
           end.

(** [isAuthenticated: hasToken()], as the [useMemo] of the provider
    evaluates it.  The provider evaluates it on mount and again after
    every change of [user] or [isLoading] (its other dependencies do not
    change); between two such changes it keeps the value of the last
    evaluation.  So this is what the provider shows in a state it has
    reached by a change of [user] or [isLoading], and what [hasToken()]
    returns in every state. *)
Definition isAuthenticated (w : world) : bool := hasToken (w_env w).

Record LoginOptions : Type := {
  redirectTo : option string;
  remember : option bool
}.

Section WithJson.
Context {rt : JsonRuntime}.

(** [checkAuth()] *)
Definition checkAuth : M world unit :=
  (let! token := onEnv (gets getToken) in
   if negb (truthy_str token) then
     setUser JNull ;; setIsLoading false
   else
     let! storedUser := onEnv getStoredUser in
     setUser storedUser ;; setIsLoading false)%eff.

(** [login(payload, options)] *)
Definition login (net : network) (credentials : json)
    (options : option LoginOptions) : M world unit :=
  (let! response :=
     onEnv (AuthApi.login net credentials (options ≫= remember)) in
   let data := get "data" response in
   if negb (truthy_opt (get "success" response))
      || negb (truthy_opt (get_opt "token" data))
      || negb (truthy_opt (get_opt "admin" data))
   then
     let msg :=
       match data with
       | Some d =>
           if truthy d && typeof_object d && has_key "message" d
           then to_string_opt (get "message" d)
           else "Login failed. Please try again."
       | None => "Login failed. Please try again."
       end in
     throw (ApiError msg 400 (Some response))
   else
     let admin := default JNull (get_opt "admin" data) in
     setUser admin ;;
     onEnv (modify (setStoredUser admin)) ;;
     router_replace (redirectTarget (options ≫= redirectTo)))%eff.

(** [logout()] *)
Definition logout (net : network) : M world unit :=
  try_finally
    (try_catch (onEnv (AuthApi.logout net)) (fun _ => ret tt))
    (onEnv (modify removeToken) ;;
     setUser JNull ;;
     onEnv (modify (setStoredUser JNull)) ;;
     router_replace "/login")%eff.

End WithJson.

End AuthContext.

(* ================================================================== *)
(** ** The cache behind the data hooks *)
(* ================================================================== *)

Module Swr.

(** Modelled from the spec: the stale-while-revalidate cache of the [swr]
    package, of which only the call sites are under src/.  An entry holds
    the last known value and a freshness flag; invalidation marks entries
    stale, and the refetch happens when a component next reads the key.
    (The in-flight marker of an entry is left out: no operation below
    reads it.) *)
Record entry : Type := {
  value : option json;
  stale : bool
}.

(** The first argument of [mutate]: one key, or a filter over the keys
    of the cache. *)
Inductive target : Type :=
| Key (k : string)
| Matching (f : string -> bool).

Record MutatorOptions : Type := { revalidate : bool }.

(** Modelled from the spec: what [mutate(_, data, options)] leaves in an
    entry it touches: the value handed in ([undefined] drops the cached
    one), stale when revalidation is asked for. *)
Definition mutated (data : option json) (o : MutatorOptions) : entry :=
  {| value := data; stale := revalidate o |}.

(** Modelled from the spec: the global [mutate(target, data, options)].  A
    key is written whether cached or not; a filter visits the entries of
    the cache. *)
Definition mutate (t : target) (data : option json) (o : MutatorOptions)
    (c : gmap string entry) : gmap string entry :=
  match t with
  | Key k => <[k := mutated data o]> c
  | Matching f =>
      map_imap (fun k e => Some (if f k then mutated data o else e)) c
  end.

Inductive served : Type :=
| FromCache (v : json)
| Refetch.

(** Modelled from the spec: a read of [key] by a list or single-item hook:
    a fresh value is served from the cache, anything else is fetched. *)
Definition read (key : string) (c : gmap string entry) : served :=
  match c !! key with
  | Some {| value := Some v; stale := false |} => FromCache v
  | _ => Refetch
  end.

(** An entry that can no longer be served from the cache. *)
Definition invalidated (key : string) (c : gmap string entry) : Prop :=
  read key c = Refetch.

(** What a key shows in the cache [c'] once a mutation of the cache [c] has
    invalidated it: reading it refetches, and an entry that [c] held under
    it is stale, with its value dropped. *)
Definition invalidated_from (key : string) (c c' : gmap string entry) : Prop :=
  invalidated key c'
  /\ (is_Some (c !! key) -> c' !! key = Some {| value := None; stale := true |}).

End Swr.

(* ================================================================== *)
(** ** What the news and PDF hooks share *)
(* ================================================================== *)

Module Hooks.
Import Token Client Swr.

(** A record identifier, [number | string]; numeric identifiers are the
    non-negative integers the backend issues. *)
Inductive ident : Type :=
| IdNum (n : N)
| IdStr (s : string).

(** [`${id}`] *)
Definition ident_text (id : ident) : string :=
  match id with IdNum n => pretty n | IdStr s => s end.

(** [page?], [limit?], [search?] of [NewsListParams] and [PDFListParams]. *)
Record ListParams : Type := {
  page : option Z;
  limit : option Z;
  search : option string
}.

Definition truthy_num (o : option Z) : bool :=
  match o with Some n => negb (n =? 0)%Z | None => false end.

(** The list key of a resource: the parts that are set, joined by ["-"]. *)
Definition listKey (base : string) (params : option ListParams) : string :=
  join "-"
    ([base]
     ++ (if truthy_num (params ≫= page)
         then ["page=" +:+ pretty (default 0%Z (params ≫= page))] else [])
     ++ (if truthy_num (params ≫= limit)
         then ["limit=" +:+ pretty (default 0%Z (params ≫= limit))] else [])
     ++ (if truthy_str (params ≫= search)
         then ["search=" +:+ default EmptyString (params ≫= search)] else [])).

(** One mutation hook at work: the storage the API client reads, the
    global cache, and the hook's two [useState] cells
    ([isCreating]/[createError], [isUpdating]/[updateError], ...). *)
Record hook : Type := {
  h_env : env;
  cache : gmap string entry;
  pending : bool;
  failure : option exn
}.

Definition setPending (b : bool) : M hook unit :=
  modify (fun h => {| h_env := h_env h; cache := cache h;
                      pending := b; failure := failure h |}).

Definition setFailure (e : option exn) : M hook unit :=
  modify (fun h => {| h_env := h_env h; cache := cache h;
                      pending := pending h; failure := e |}).

(** [await globalMutate(target, data, options)] *)
Definition globalMutate (t : target) (data : option json) (o : MutatorOptions)
    : M hook unit :=
  modify (fun h => {| h_env := h_env h; cache := mutate t data o (cache h);
                      pending := pending h; failure := failure h |}).

(** Run an API call on the hook's storage. *)
Definition onEnv {A} (m : M env A) : M hook A :=
  fun h => match m (h_env h) with
           | (r, e') => (r, {| h_env := e'; cache := cache h;
                               pending := pending h; failure := failure h |})
           end.

(** The hook once [set(true); setError(null)] have run. *)
Definition started (h : hook) : hook :=
  {| h_env := h_env h; cache := cache h; pending := true; failure := None |}.

(** [err instanceof Error ? err : new Error(fallback)] *)
Definition asError (fallback : string) (err : exn) : exn :=
  if instanceof_Error err then err else JsError fallback.

(** The frame every mutation callback has:
    [set(true); setError(null); try { body } catch (err) { setError(..);
    throw .. } finally { set(false) }]. *)
Definition mutation {A} (fallback : string) (body : M hook A) : M hook A :=
  (setPending true ;;
   setFailure None ;;
   try_finally
     (try_catch body
        (fun err =>
           let error := asError fallback err in
           setFailure (Some error) ;; throw error))
     (setPending false))%eff.

Definition revalidating : MutatorOptions := {| revalidate := true |}.
Definition dropping : MutatorOptions := {| revalidate := false |}.

End Hooks.

(* ================================================================== *)
(** ** lib/api/news.ts and hooks/use-news.ts *)
(* ================================================================== *)

Module News.
Import Token Client Swr Hooks.

(** [NewsPayload]; the file of [featuredImage] is named, not read. *)
Record NewsPayload : Type := {
  title : string;
  description : string;
  featuredImage : option string;
  publishDate : string;
  isFeatured : bool
}.

Definition formData (data : NewsPayload) : json :=
  JObj ([("title", JStr (title data));
         ("description", JStr (description data));
         ("publishDate", JStr (publishDate data));
         ("isFeatured", JStr (to_string (JBool (isFeatured data))))]
        ++ match featuredImage data with
           | Some file => [("featuredImage", JStr file)]
           | None => []
           end).

Section WithJson.
Context {rt : JsonRuntime}.

(** lib/api/news.ts: [createNews(data)] *)
Definition apiCreateNews (net : network) (data : NewsPayload) : M env json :=
  apiFetch net "/news"
    {| method := Some "POST"; headers := None; payload := Some (formData data);
       anonymous := false; isFormData := true |}.

(** lib/api/news.ts: [updateNews(id, data)] *)
Definition apiUpdateNews (net : network) (id : ident) (data : NewsPayload)
    : M env json :=
  apiFetch net ("/news/" +:+ ident_text id)
    {| method := Some "PUT"; headers := None; payload := Some (formData data);
       anonymous := false; isFormData := true |}.

(** lib/api/news.ts: [deleteNews(id)] *)
Definition apiDeleteNews (net : network) (id : ident) : M env json :=
  apiFetch net ("/news/" +:+ ident_text id)
    {| method := Some "DELETE"; headers := None; payload := None;
       anonymous := false; isFormData := false |}.

(** [getNewsListKey(params)] *)
Definition getNewsListKey (params : option ListParams) : string :=
  listKey "news-list" params.

(** The key of [useFetchSingleNews(id)], for an [id] that is set. *)
Definition newsSingleKey (id : ident) : string :=
  "news-single-" +:+ ident_text id.

Definition isNewsListKey (key : string) : bool := startsWith key "news-list".

(** [useCreateNews().createNews] *)
Definition createNews (net : network) (data : NewsPayload)
    : M hook (option json) :=
  mutation "Failed to create news"
    (let! response := onEnv (apiCreateNews net data) in
     globalMutate (Matching isNewsListKey) None revalidating ;;
     ret (get "data" response))%eff.

(** [useUpdateNews().updateNews] *)
Definition updateNews (net : network) (id : ident) (data : NewsPayload)
    : M hook (option json) :=
  mutation "Failed to update news"
    (let! response := onEnv (apiUpdateNews net id data) in
     globalMutate (Key (newsSingleKey id)) None revalidating ;;
     globalMutate (Matching isNewsListKey) None revalidating ;;
     ret (get "data" response))%eff.

(** [useDeleteNews().deleteNews] *)
Definition deleteNews (net : network) (id : ident) : M hook bool :=
  mutation "Failed to delete news"
    (onEnv (apiDeleteNews net id) ;;
     globalMutate (Key (newsSingleKey id)) None dropping ;;
     globalMutate (Matching isNewsListKey) None revalidating ;;
     ret true)%eff.

End WithJson.

End News.

(* ================================================================== *)
(** ** lib/api/pdfs.ts and hooks/use-pdfs.ts *)
(* ================================================================== *)

Module Pdf.
Import Token Client Swr Hooks.

(** [PDFPayload]; the two files are named, not read. *)
Record PDFPayload : Type := {
  author : string;
  documentTitle : string;
  coverImage : option string;
  document : option string
}.

Definition formData (data : PDFPayload) : json :=
  JObj ([("author", JStr (author data));
         ("documentTitle", JStr (documentTitle data))]
        ++ match coverImage data with
           | Some file => [("coverImage", JStr file)]
           | None => []
           end
        ++ match document data with
           | Some file => [("document", JStr file)]
           | None => []
           end).

Section WithJson.
Context {rt : JsonRuntime}.

(** lib/api/pdfs.ts: [createPdf(data)] *)
Definition apiCreatePdf (net : network) (data : PDFPayload) : M env json :=
  apiFetch net "/pdf"
    {| method := Some "POST"; headers := None; payload := Some (formData data);
       anonymous := false; isFormData := true |}.

(** lib/api/pdfs.ts: [updatePdf(id, data)] *)
Definition apiUpdatePdf (net : network) (id : ident) (data : PDFPayload)
    : M env json :=
  apiFetch net ("/pdf/" +:+ ident_text id)
    {| method := Some "PUT"; headers := None; payload := Some (formData data);
       anonymous := false; isFormData := true |}.

(** lib/api/pdfs.ts: [deletePdf(id)] *)
Definition apiDeletePdf (net : network) (id : ident) : M env json :=
  apiFetch net ("/pdf/" +:+ ident_text id)
    {| method := Some "DELETE"; headers := None; payload := None;
       anonymous := false; isFormData := false |}.

(** lib/api/pdfs.ts: [updatePdfStatus(id, status)] *)
Definition apiUpdatePdfStatus (net : network) (id : ident) (status : bool)
    : M env json :=
  apiFetch net ("/pdf/" +:+ ident_text id +:+ "/status")
    {| method := Some "PATCH"; headers := None;
       payload := Some (JObj [("status", JBool status)]);
       anonymous := false; isFormData := false |}.

(** [getPdfListKey(params)] *)
Definition getPdfListKey (params : option ListParams) : string :=
  listKey "pdf-list" params.

(** The key of [useFetchSinglePdf(id)], for an [id] that is set. *)
Definition pdfSingleKey (id : ident) : string :=
  "pdf-single-" +:+ ident_text id.

Definition isPdfListKey (key : string) : bool := startsWith key "pdf-list".

(** [useCreatePdf().createPdf] *)
Definition createPdf (net : network) (data : PDFPayload)
    : M hook (option json) :=
  mutation "Failed to create PDF"
    (let! response := onEnv (apiCreatePdf net data) in
     globalMutate (Matching isPdfListKey) None revalidating ;;
     ret (get "data" response))%eff.

(** [useUpdatePdf().updatePdf] *)
Definition updatePdf (net : network) (id : ident) (data : PDFPayload)
    : M hook (option json) :=
  mutation "Failed to update PDF"
    (let! response := onEnv (apiUpdatePdf net id data) in
     globalMutate (Key (pdfSingleKey id)) None revalidating ;;
     globalMutate (Matching isPdfListKey) None revalidating ;;
     ret (get "data" response))%eff.

(** [useDeletePdf().deletePdf] *)
Definition deletePdf (net : network) (id : ident) : M hook bool :=
  mutation "Failed to delete PDF"
    (onEnv (apiDeletePdf net id) ;;
     globalMutate (Key (pdfSingleKey id)) None dropping ;;
     globalMutate (Matching isPdfListKey) None revalidating ;;
     ret true)%eff.

(** [useUpdatePdfStatus().updateStatus] *)
Definition updateStatus (net : network) (id : ident) (status : bool)
    : M hook bool :=
  mutation "Failed to update PDF status"
    (onEnv (apiUpdatePdfStatus net id status) ;;
     globalMutate (Matching isPdfListKey) None revalidating ;;
     ret true)%eff.

End WithJson.

End Pdf.

(* ================================================================== *)
(** ** A JSON runtime for the worked examples *)
(* ================================================================== *)

(** A reader and a printer for the JSON fragment the examples use:
    literals, integers, strings without escapes, arrays and objects.  The
    general results below hold for every [JsonRuntime]; this one makes the
    examples run. *)
Module Example.

Definition dquote : ascii := "034"%char.

(** ["s"], the JSON text of a string without escapes *)
Definition quoted (s : string) : string :=
  String dquote (s +:+ String dquote EmptyString).

Definition is_ws (c : ascii) : bool :=
  existsb (N.eqb (N_of_ascii c)) [32; 9; 10; 13]%N.

Fixpoint skip_ws (s : string) : string :=
  match s with
  | String c rest => if is_ws c then skip_ws rest else s
  | EmptyString => EmptyString
  end.

(** The characters of a string up to its closing quote. *)
Fixpoint read_chars (s : string) : option (string * string) :=
  match s with
  | EmptyString => None
  | String c rest =>
      if Ascii.eqb c dquote then Some (EmptyString, rest)
      else if Ascii.eqb c "\" || (N_of_ascii c <? 32)%N then None
      else match read_chars rest with
           | Some (t, rest') => Some (String c t, rest')
           | None => None
           end
  end.

Definition digit_of (c : ascii) : option Z :=
  let n := N_of_ascii c in
  if ((48 <=? n) && (n <=? 57))%N then Some (Z.of_N n - 48)%Z else None.

Fixpoint read_digits (acc : Z) (s : string) : Z * string :=
  match s with
  | String c rest =>
      match digit_of c with
      | Some d => read_digits (10 * acc + d)%Z rest
      | None => (acc, s)
      end
  | EmptyString => (acc, s)
  end.

(** An integer: [0], or digits that do not start with [0]; a fraction or
    an exponent is outside the fragment. *)
Definition read_nat (s : string) : option (Z * string) :=
  match s with
  | String c rest =>
      match digit_of c with
      | Some d =>
          let '(n, rest') := if (d =? 0)%Z then (0%Z, rest) else read_digits d rest in
          match rest' with
          | String c' _ =>
              if bool_decide (is_Some (digit_of c')) || existsb (Ascii.eqb c') ["."; "e"; "E"]%char
              then None else Some (n, rest')
          | EmptyString => Some (n, rest')
          end
      | None => None
      end
  | EmptyString => None
  end.

Definition read_literal (word : string) (v : json) (s : string)
    : option (json * string) :=
  if String.prefix word s
  then Some (v, String.substring (String.length word)
                  (String.length s - String.length word) s)
  else None.

Fixpoint read_value (fuel : nat) (s : string) : option (json * string) :=
  match fuel with
  | O => None
  | S fuel' =>
      match skip_ws s with
      | EmptyString => None
      | String c rest as s' =>
          if Ascii.eqb c dquote then
            match read_chars rest with
            | Some (t, rest') => Some (JStr t, rest')
            | None => None
            end
          else if Ascii.eqb c "[" then
            match skip_ws rest with
            | String "]" rest' => Some (JArr [], rest')
            | _ => match read_items fuel' rest with
                   | Some (vs, rest') => Some (JArr vs, rest')
                   | None => None
                   end
            end
          else if Ascii.eqb c "{" then
            match skip_ws rest with
            | String "}" rest' => Some (JObj [], rest')
            | _ => match read_members fuel' rest with
                   | Some (kvs, rest') => Some (JObj kvs, rest')
                   | None => None
                   end
            end
          else if Ascii.eqb c "-" then
            match read_nat rest with
            | Some (n, rest') => Some (JNum (- n), rest')
            | None => None
            end
          else if Ascii.eqb c "n" then read_literal "null" JNull s'
          else if Ascii.eqb c "t" then read_literal "true" (JBool true) s'
          else if Ascii.eqb c "f" then read_literal "false" (JBool false) s'
          else match read_nat s' with
               | Some (n, rest') => Some (JNum n, rest')
               | None => None
               end
      end
  end
with read_items (fuel : nat) (s : string) : option (list json * string) :=
  match fuel with
  | O => None
  | S fuel' =>
      match read_value fuel' s with
      | Some (v, rest) =>
          match skip_ws rest with
          | String "," rest' =>
              match read_items fuel' rest' with
              | Some (vs, rest'') => Some (v :: vs, rest'')
              | None => None
              end
          | String "]" rest' => Some ([v], rest')
          | _ => None
          end
      | None => None
      end
  end
with read_members (fuel : nat) (s : string)
    : option (list (string * json) * string) :=
  match fuel with
  | O => None
  | S fuel' =>
      match skip_ws s with
      | String c rest =>
          if Ascii.eqb c dquote then
            match read_chars rest with
            | Some (k, rest1) =>
                match skip_ws rest1 with
                | String ":" rest2 =>
                    match read_value fuel' rest2 with
                    | Some (v, rest3) =>
                        match skip_ws rest3 with
                        | String "," rest4 =>
                            match read_members fuel' rest4 with
                            | Some (kvs, rest5) => Some ((k, v) :: kvs, rest5)
                            | None => None
                            end
                        | String "}" rest4 => Some ([(k, v)], rest4)
                        | _ => None
                        end
                    | None => None
                    end
                | _ => None
                end
            | None => None
            end
          else None
      | EmptyString => None
      end
  end.

Definition parse (s : string) : option json :=
  match read_value (2 * String.length s + 2) s with
  | Some (v, rest) =>
      match skip_ws rest with
      | EmptyString => Some v
      | _ => None
      end
  | None => None
  end.

Fixpoint print (v : json) : string :=
  match v with
  | JNull => "null"
  | JBool true => "true"
  | JBool false => "false"
  | JNum n => pretty n
  | JStr s => quoted s
  | JArr items =>
      "[" +:+ join "," ((fix each (l : list json) : list string :=
                           match l with
                           | [] => []
                           | x :: l' => print x :: each l'
                           end) items) +:+ "]"
  | JObj fields =>
      "{" +:+ join "," ((fix each (l : list (string * json)) : list string :=
                           match l with
                           | [] => []
                           | (k, x) :: l' => (quoted k +:+ ":" +:+ print x) :: each l'
                           end) fields) +:+ "}"
  end.

Definition runtime : JsonRuntime :=
  {| JSON_parse := parse;
     JSON_stringify := print;
     JSON_parse_empty := eq_refl;
     NEXT_PUBLIC_API_BASE_URL := None |}.

End Example.

(* ================================================================== *)
(** ** Sample requests, responses and states *)
(* ================================================================== *)

Module Samples.
Import Cookies Token Gate Client AuthContext Swr Hooks.

(** A request for [path] carrying the given query and cookies. *)
Definition request (path : string) (query jar : list (string * string))
    : NextRequest :=
  {| nextUrl := {| origin := "https://admin.example"; pathname := path;
                   searchParams := query |};
     cookies := jar |}.

(** A protected path, and an auth cookie that is present with an empty
    value. *)
Definition empty_cookie_request : NextRequest :=
  request "/news" [] [(AUTH_COOKIE_NAME, EmptyString)].

(** A 200 response whose body is the JSON [null]; a 500 response with an
    empty body; a 500 response whose body is [{"message":""}]. *)
Definition null_200 : Response := {| status := 200; body := "null" |}.
Definition empty_500 : Response := {| status := 500; body := EmptyString |}.
Definition blank_message_500 : Response :=
  {| status := 500;
     body := "{" +:+ Example.quoted "message" +:+ ":"
             +:+ Example.quoted EmptyString +:+ "}" |}.

(** The text of [{"success":true,"data":{"token":"abc"}}]: a login
    response with a token and no [admin]. *)
Definition token_only_body : string :=
  "{" +:+ Example.quoted "success" +:+ ":true,"
  +:+ Example.quoted "data" +:+ ":{"
  +:+ Example.quoted "token" +:+ ":" +:+ Example.quoted "abc" +:+ "}}".

Definition token_only_response : json :=
  JObj [("success", JBool true); ("data", JObj [("token", JStr "abc")])].

(** A backend that answers every request with [body] and [status]. *)
Definition backend (status : Z) (body : string) : network :=
  fun _ _ => Resolved {| status := status; body := body |}.

Definition token_only_backend : network := backend 200 token_only_body.

Definition no_storage : storage := {| localStorage := ∅; jar := ∅ |}.

(** A callback parameter that names another host. *)
Definition crafted_callback : string := "//evil.example/x".

(** A token that ends in a lone surrogate: [abc] followed by U+D800,
    the bytes [ED A0 80]. *)
Definition ill_formed_token : string :=
  "abc" +:+ String "237" (String "160" (String "128" EmptyString)).

(** A mounted provider with nobody logged in. *)
Definition logged_out : world :=
  {| w_env := Browser no_storage; user := JNull; isLoading := false;
     navigations := [] |}.

Definition some_credentials : json :=
  JObj [("email", JStr "admin@example.com"); ("password", JStr "secret")].

(** An administrator, a login response that carries them with a token,
    and the storage of a browser they are logged in from. *)
Definition ada : json :=
  JObj [("id", JNum 1); ("firstName", JStr "Ada"); ("lastName", JStr "Byron");
        ("email", JStr "ada@example.com"); ("profilePicture", JNull)].

Definition full_login_response : json :=
  JObj [("success", JBool true);
        ("data", JObj [("admin", ada); ("token", JStr "abc")])].

Definition full_login_backend : network :=
  backend 200 (Example.print full_login_response).

Definition logged_in_storage : storage :=
  {| localStorage := {[ TOKEN_KEY := "abc"; USER_KEY := Example.print ada ]};
     jar := {[ AUTH_COOKIE_NAME :=
                 {| cookie_value := "abc"; cookie_path := "/";
                    cookie_max_age := 86400; cookie_same_site := "Lax" |} ]} |}.

(** A mounted provider in that browser, with the administrator logged
    in. *)
Definition logged_in : world :=
  {| w_env := Browser logged_in_storage; user := ada; isLoading := false;
     navigations := [] |}.

(** A storage whose stored user is damaged. *)
Definition damaged_storage : storage :=
  {| localStorage := {[ TOKEN_KEY := "abc"; USER_KEY := "{oops" ]};
     jar := ∅ |}.

(** A backend that accepts every mutation, a backend that refuses them,
    and a hook over a cache with two news pages, a PDF page and three
    single items. *)
Definition accepting_backend : network :=
  backend 200 (Example.print (JObj [("success", JBool true);
                                    ("data", JObj [("id", JNum 42)])])).

Definition refusing_backend : network :=
  backend 422 (Example.print (JObj [("message", JStr "Title is required")])).

Definition fresh (v : json) : entry := {| value := Some v; stale := false |}.

Definition warm_cache : gmap string entry :=
  {[ "news-list-page=1-limit=10" := fresh (JStr "news page 1");
     "news-list-page=2-limit=10-search=tax" := fresh (JStr "news page 2");
     "pdf-list-page=1-limit=10" := fresh (JStr "pdf page 1");
     "news-single-42" := fresh (JStr "news 42");
     "news-single-7" := fresh (JStr "news 7");
     "pdf-single-42" := fresh (JStr "pdf 42");
     "pdf-single-7" := fresh (JStr "pdf 7") ]}.

Definition idle_hook : hook :=
  {| h_env := Browser logged_in_storage; cache := warm_cache;
     pending := false; failure := None |}.

Definition a_news_item : News.NewsPayload :=
  {| News.title := "Budget"; News.description := "Figures for the year";
     News.featuredImage := None; News.publishDate := "2025-01-30";
     News.isFeatured := false |}.

Definition a_pdf : Pdf.PDFPayload :=
  {| Pdf.author := "Ada"; Pdf.documentTitle := "Report";
     Pdf.coverImage := None; Pdf.document := Some "report.pdf" |}.

End Samples.

(* ================================================================== *)
(** ** Further parts of the code *)
(* ================================================================== *)

(** The rest of the model:
    - [Text], [TokenSync]   predicates on strings and on the token store;
    - [LoginUrl]    [buildLoginUrl] of lib/auth/config.ts;
    - [Navigation]  requests that follow the redirects of the gate;
    - [ModalSave]   [saveWithModalMode] and [buildApiUrl] of
                    lib/api/client.ts, and networks that check what they
                    are sent;
    - [Callbacks]   the mutation callbacks by outcome;
    - [Keys]        the cache keys of all hooks, [getNewsList] and
                    [getPdfList];
    - [Settings]    lib/api/settings.ts and hooks/use-settings.ts;
    - [Images]      the image URL builders;
    - [Activity]    [formatActivityTime] of lib/api/dashboard.ts;
    - [Requests]    requests by what they carry;
    - [LoginPage]   the error text and the redirect target of
                    app/login/page.tsx;
    - [MoreSamples] further sample data.

    Their properties: [TokenLaws], [GateLaws], [ClientLaws], [AuthLaws],
    [CallbackLaws], [CallbackOutcomes], [KeyLaws], [SettingsLaws],
    [ImageLaws], [ActivityLaws], [RequestLaws], [LoginPageLaws], and
    [WorkedMore] (the results applied to the samples). *)
Module Text.

(** Every character of [s] satisfies [P]. *)
Fixpoint every (P : ascii -> bool) (s : string) : bool :=
  match s with
  | EmptyString => true
  | String c rest => P c && every P rest
  end.

(** [s] ends with the character [c]. *)
Fixpoint ends_with (c : ascii) (s : string) : bool :=
  match s with
  | EmptyString => false
  | String a EmptyString => Ascii.eqb a c
  | String _ rest => ends_with c rest
  end.

(** [c] repeated [n] times *)
Fixpoint replicate_char (n : nat) (c : ascii) : string :=
  match n with
  | O => EmptyString
  | S n' => String c (replicate_char n' c)
  end.

End Text.

Module TokenSync.
Import Token.

(** The two places of the token agree: either [localStorage] holds a token
    and the cookie jar holds its encoding, or neither holds anything. *)
Definition dual_write (e : env) : Prop :=
  match getToken e, authCookie e with
  | Some t, Some c => cookie_value c = encodeURIComponent t
  | None, None => True
  | _, _ => False
  end.

(** What [encodeURIComponent] writes: unreserved characters and [%]. *)
Definition cookie_safe (c : ascii) : bool :=
  uri_unreserved c || Ascii.eqb c "%".

(** The characters that end or split a cookie in [document.cookie] and in
    a [Cookie] header: [;], [,], [=], the space, the double quote and the
    backslash. *)
Definition cookie_separator (c : ascii) : bool :=
  existsb (N.eqb (N_of_ascii c)) [59; 44; 61; 32; 34; 92]%N.

End TokenSync.

(* ================================================================== *)
(** ** lib/auth/config.ts, [buildLoginUrl] *)
(* ================================================================== *)

Module LoginUrl.
Import Token Routes.

(** The bytes the serializer of [URLSearchParams] leaves alone: letters,
    digits and [* - . _]. *)
Definition form_safe (c : ascii) : bool :=
  let n := N_of_ascii c in
  ((48 <=? n) && (n <=? 57) || (65 <=? n) && (n <=? 90) ||
   (97 <=? n) && (n <=? 122) || existsb (N.eqb n) [42; 45; 46; 95])%N.

(** A name or a value as [URLSearchParams.toString()] writes it: a space
    becomes [+], the other bytes outside the safe set are percent-encoded. *)
Fixpoint form_urlencode (s : string) : string :=
  match s with
  | EmptyString => EmptyString
  | String c rest =>
      if Ascii.eqb c " " then String "+" (form_urlencode rest)
      else if form_safe c then String c (form_urlencode rest)
      else
        let n := N_of_ascii c in
        String "%" (String (hex_digit (n / 16)) (String (hex_digit (n mod 16))
          (form_urlencode rest)))
  end.

(** [buildLoginUrl(callbackUrl?)]: the URL is built on
    [new URL(LOGIN_PATH, "http://localhost")] and returned as
    [`${url.pathname}${url.search}`]. *)
Definition buildLoginUrl (callbackUrl : option string) : string :=
  if negb (truthy_str callbackUrl)
     || negb (startsWith (default EmptyString callbackUrl) "/")
  then LOGIN_PATH
  else
    LOGIN_PATH +:+ "?" +:+ form_urlencode CALLBACK_URL_PARAM +:+ "="
    +:+ form_urlencode (default EmptyString callbackUrl).

(** What a query value may be made of: safe bytes, [+] and [%]. *)
Definition query_safe (c : ascii) : bool :=
  form_safe c || Ascii.eqb c "+" || Ascii.eqb c "%".

(** The characters that end or split a query: [&], [=], [#] and [?]. *)
Definition query_separator (c : ascii) : bool :=
  existsb (N.eqb (N_of_ascii c)) [38; 61; 35; 63]%N.

End LoginUrl.

(* ================================================================== *)
(** ** Requests that follow the redirects of the gate *)
(* ================================================================== *)

Module Navigation.
Import Cookies Routes Gate.

(** The request a browser makes when it follows a redirect: the new URL
    with the cookies it has. *)
Definition follow (jar : list (string * string)) (to : URL) : NextRequest :=
  {| nextUrl := to; cookies := jar |}.

(** The URL that is rendered in the end when the redirects of the gate are
    followed, if that takes at most [fuel] requests. *)
Fixpoint settle (fuel : nat) (req : NextRequest) : option URL :=
  match fuel with
  | O => None
  | S fuel' =>
      match middleware req with
      | next => Some (nextUrl req)
      | redirect to => settle fuel' (follow (cookies req) to)
      end
  end.

End Navigation.

(* ================================================================== *)
(** ** lib/api/client.ts, [saveWithModalMode] and [buildApiUrl] *)
(* ================================================================== *)

Module ModalSave.
Import Token Client.

(** ["add" | "edit"] *)
Inductive ModalMode : Type :=
| AddMode
| EditMode.

(** [{ add: string; edit: (id) => string }] *)
Record Endpoints : Type := {
  add : string;
  edit : json -> string
}.

(** A network that refuses every request outside [P]; what it lets
    through goes to [net]. *)
Definition expecting (P : string -> RequestInit -> bool) (net : network)
    : network :=
  fun url init =>
    if P url init then net url init
    else Rejected (JsError "unexpected request").

(** A request without the stored token: no [Authorization] header, and
    [credentials: "omit"]. *)
Definition without_credentials (url : string) (init : RequestInit) : bool :=
  bool_decide (init_headers init !! "Authorization" = None)
  && String.eqb (init_credentials init) "omit".

(** A request that carries the token [t]: [Authorization: Bearer t], and
    [credentials: "include"]. *)
Definition with_bearer (t : string) (url : string) (init : RequestInit)
    : bool :=
  bool_decide (init_headers init !! "Authorization" = Some ("Bearer " +:+ t))
  && String.eqb (init_credentials init) "include".

(** A request with the given method, sent to [url], with the JSON text of
    [payload] as body and the JSON content type. *)
Definition json_request {rt : JsonRuntime} (method url : string)
    (payload : json) (url' : string) (init : RequestInit) : bool :=
  String.eqb url' url
  && String.eqb (init_method init) method
  && match init_body init with
     | Some (TextBody text) => String.eqb text (JSON_stringify payload)
     | _ => false
     end
  && bool_decide (init_headers init !! "Content-Type"
                  = Some "application/json").

Section WithJson.
Context {rt : JsonRuntime}.

(** [buildApiUrl(path)] *)
Definition buildApiUrl (path : string) : string :=
  if startsWith path "http" then path else API_BASE_URL +:+ path.

(** [saveWithModalMode(mode, endpoints, payload)] *)
Definition saveWithModalMode (net : network) (mode : ModalMode)
    (endpoints : Endpoints) (payload : json) : M env json :=
  match mode with
  | AddMode =>
      apiFetch net (add endpoints)
        {| method := Some "POST"; headers := None; payload := Some payload;
           anonymous := false; isFormData := false |}
  | EditMode =>
      if negb (truthy_opt (get "id" payload))
      then throw (JsError "Missing id for edit operation.")
      else
        apiFetch net (edit endpoints (default JNull (get "id" payload)))
          {| method := Some "PUT"; headers := None; payload := Some payload;
             anonymous := false; isFormData := false |}
  end.

End WithJson.

End ModalSave.

(* ================================================================== *)
(** ** The mutation callbacks, by outcome *)
(* ================================================================== *)

Module Callbacks.
Import Token Client Swr Hooks.

(** The hook a callback that threw [err] leaves behind, when it changed
    nothing but its own two state cells. *)
Definition failed (err : exn) (h : hook) : hook :=
  {| h_env := h_env h; cache := cache h; pending := false;
     failure := Some err |}.

(** The two state cells of the hook after a call: the pending flag is
    off; the error cell is [null] when the call returned and holds the
    thrown value, an [Error], when it threw; a call that threw left the
    cache as it was. *)
Definition settles_flags {A} (m : M hook A) : Prop :=
  forall h,
    pending (m h).2 = false
    /\ match (m h).1 with
       | Returned _ => failure (m h).2 = None
       | Threw err =>
           failure (m h).2 = Some err
           /\ instanceof_Error err = true
           /\ cache (m h).2 = cache h
       end.

(** What a callback throws, by what the network did: a rejection that is
    an [Error] as it is, any other rejection as [new Error(fallback)], a
    response outside 2xx as the [ApiError] of the client; each time the
    hook changes in its two state cells only. *)
Definition rethrows {rt : JsonRuntime} {A} (fallback : string)
    (call : network -> M hook A) : Prop :=
  forall net h,
    (forall e, answers net (Rejected e) -> instanceof_Error e = true ->
       call net h = (Threw e, failed e h))
    /\ (forall v, answers net (Rejected (NonError v)) ->
          call net h = (Threw (JsError fallback), failed (JsError fallback) h))
    /\ (forall res, answers net (Resolved res) -> ok res = false ->
          let err := ApiError (error_message (JSON_parse (body res)) res)
                       (status res) (JSON_parse (body res)) in
          call net h = (Threw err, failed err h)).

(** A callback that, whatever its outcome, leaves the storage alone and
    changes no cache entry outside [touched]. *)
Definition confined {A} (touched : string -> bool) (m : M hook A) : Prop :=
  forall h,
    h_env (m h).2 = h_env h
    /\ forall key, touched key = false ->
         cache (m h).2 !! key = cache h !! key.

End Callbacks.

(* ================================================================== *)
(** ** The cache keys of the hooks, and the list requests *)
(* ================================================================== *)

Module Keys.
Import Token Client Swr Hooks LoginUrl.
Import News Pdf.

(** hooks/use-dashboard.ts: the keys of [useDashboardStats] and
    [useDashboardActivities]; hooks/use-settings.ts: [LOGO_SWR_KEY]. *)
Definition DASHBOARD_STATS_KEY : string := "dashboard-stats".
Definition DASHBOARD_ACTIVITIES_KEY : string := "dashboard-activities".
Definition LOGO_SWR_KEY : string := "/settings/logo".

(** The keys a news callback names: the list keys, and the single-item
    key of the record it updates or deletes. *)
Definition news_touched (id : option ident) (key : string) : bool :=
  isNewsListKey key
  || match id with
     | Some i => String.eqb key (newsSingleKey i)
     | None => false
     end.

(** The same for a PDF callback. *)
Definition pdf_touched (id : option ident) (key : string) : bool :=
  isPdfListKey key
  || match id with
     | Some i => String.eqb key (pdfSingleKey i)
     | None => false
     end.

(** [queryParams.toString()]: the pairs in the order they were set, names
    and values form-encoded, joined by [&]. *)
Definition URLSearchParams_toString (q : list (string * string)) : string :=
  join "&" (map (fun kv => form_urlencode kv.1 +:+ "=" +:+ form_urlencode kv.2) q).

(** The [URLSearchParams] of [getNewsList] and [getPdfList]:
    [if (params?.page) queryParams.set("page", params.page.toString())]
    and so on. *)
Definition listQuery (params : option ListParams) : list (string * string) :=
  (if truthy_num (params ≫= page)
   then [("page", pretty (default 0%Z (params ≫= page)))] else [])
  ++ (if truthy_num (params ≫= limit)
      then [("limit", pretty (default 0%Z (params ≫= limit)))] else [])
  ++ (if truthy_str (params ≫= search)
      then [("search", default EmptyString (params ≫= search))] else []).

(** [`${base}${queryString ? `?${queryString}` : ""}`] *)
Definition listPath (base : string) (params : option ListParams) : string :=
  let queryString := URLSearchParams_toString (listQuery params) in
  base +:+ (if nonempty queryString then "?" +:+ queryString else EmptyString).

Section WithJson.
Context {rt : JsonRuntime}.

(** lib/api/news.ts: [getNewsList(params)] *)
Definition getNewsList (net : network) (params : option ListParams)
    : M env json :=
  apiFetch net (listPath "/news/admin" params) GET.

(** lib/api/pdfs.ts: [getPdfList(params)] *)
Definition getPdfList (net : network) (params : option ListParams)
    : M env json :=
  apiFetch net (listPath "/pdf" params) GET.

End WithJson.







End Keys.

(* ================================================================== *)
(** ** lib/api/settings.ts and hooks/use-settings.ts *)
(* ================================================================== *)

Module Settings.
Import Token Client Swr Hooks.

(** [{ method, body: payload }] *)
Definition json_call (method : string) (payload : json) : RequestOptions :=
  {| Client.method := Some method; headers := None; payload := Some payload;
     anonymous := false; isFormData := false |}.

(** The frame of the deprecated hooks:
    [set(true); setError(null); try { body } catch (err) {
     setError(err instanceof Error ? err : new Error(fallback)); throw err }
     finally { set(false) }]. *)
Definition legacy_mutation {A} (fallback : string) (body : M hook A)
    : M hook A :=
  (setPending true ;;
   setFailure None ;;
   try_finally
     (try_catch body
        (fun err => setFailure (Some (asError fallback err)) ;; throw err))
     (setPending false))%eff.

Section WithJson.
Context {rt : JsonRuntime}.

(** lib/api/settings.ts: [changePassword(payload)] *)
Definition apiChangePassword (net : network) (payload : json) : M env json :=
  apiFetch net "/settings/password" (json_call "PATCH" payload).

Definition PROFILE_BASE : string := "/api/profile".

(** lib/api/settings.ts: [updateProfile(payload)] *)
Definition apiUpdateProfile (net : network) (payload : json) : M env json :=
  apiFetch net PROFILE_BASE (json_call "PUT" payload).

(** lib/api/settings.ts: [updateLogoLegacy(payload)] *)
Definition apiUpdateLogoLegacy (net : network) (payload : json)
    : M env json :=
  apiFetch net "/settings/logo" (json_call "POST" payload).

(** lib/api/settings.ts: [updatePassword(payload)] *)
Definition apiUpdatePassword (net : network) (payload : json) : M env json :=
  apiFetch net "/settings/password" (json_call "POST" payload).

(** [useChangePassword().changePassword] *)
Definition changePassword (net : network) (payload : json) : M hook json :=
  mutation "Failed to change password"
    (let! result := onEnv (apiChangePassword net payload) in ret result)%eff.

(** [useProfileUpdate().updateProfile] *)
Definition updateProfile (net : network) (payload : json) : M hook json :=
  legacy_mutation "Failed to update profile"
    (let! result := onEnv (apiUpdateProfile net payload) in ret result)%eff.

(** [useLogoUpdate().updateLogo] *)
Definition updateLogo (net : network) (payload : json) : M hook json :=
  legacy_mutation "Failed to update logo"
    (let! result := onEnv (apiUpdateLogoLegacy net payload) in ret result)%eff.

(** [usePasswordUpdate().updatePassword] *)
Definition updatePassword (net : network) (payload : json) : M hook json :=
  legacy_mutation "Failed to update password"
    (let! result := onEnv (apiUpdatePassword net payload) in ret result)%eff.

End WithJson.

(** What a deprecated callback does with a failed request: it throws what
    the client threw, as it is, and records an [Error] made from it. *)
Definition throws_original {rt : JsonRuntime} {A} (fallback : string)
    (call : network -> M hook A) : Prop :=
  forall net h,
    (forall e, answers net (Rejected e) ->
       call net h = (Threw e, Callbacks.failed (asError fallback e) h))
    /\ (forall res, answers net (Resolved res) -> ok res = false ->
          let err := ApiError (error_message (JSON_parse (body res)) res)
                       (status res) (JSON_parse (body res)) in
          call net h = (Threw err, Callbacks.failed err h)).

End Settings.

(* ================================================================== *)
(** ** The image URLs of lib/api/news.ts, pdfs.ts and settings.ts *)
(* ================================================================== *)

Module Images.
Import Client.

(** lib/api/client.ts:
    [process.env.NEWS_MODULE_IMAGE_BASE_URL?.replace(/\/+$/, "")
     ?? "http://192.168.76.132:3001"], by the value of the variable. *)
Definition IMAGE_BASE_URL (NEWS_MODULE_IMAGE_BASE_URL : option string)
    : string :=
  match NEWS_MODULE_IMAGE_BASE_URL with
  | Some v => strip_trailing_slashes v
  | None => "http://192.168.76.132:3001"
  end.

(** [p.startsWith("http://") || p.startsWith("https://")] *)
Definition is_full_url (p : string) : bool :=
  startsWith p "http://" || startsWith p "https://".

(** [s.slice(1)] *)
Definition slice1 (s : string) : string :=
  match s with
  | EmptyString => EmptyString
  | String _ rest => rest
  end.

(** What [buildNewsImageUrl] and [buildPdfCoverImageUrl] share; they
    differ in the directory. *)
Definition buildImageUrl (base directory imagePath : string) : string :=
  if negb (nonempty imagePath) then EmptyString
  else if is_full_url imagePath then imagePath
  else
    let cleanPath :=
      if startsWith imagePath "/" then slice1 imagePath else imagePath in
    base +:+ directory +:+ cleanPath.

(** lib/api/news.ts: [buildNewsImageUrl(imagePath)] *)
Definition buildNewsImageUrl (base imagePath : string) : string :=
  buildImageUrl base "/uploads/news/" imagePath.

(** lib/api/pdfs.ts: [buildPdfCoverImageUrl(imagePath)] *)
Definition buildPdfCoverImageUrl (base imagePath : string) : string :=
  buildImageUrl base "/uploads/pdfs/cover/" imagePath.

(** lib/api/settings.ts: [buildLogoUrl(filename)] *)
Definition buildLogoUrl (base : string) (filename : option string) : string :=
  match filename with
  | None => EmptyString
  | Some name =>
      if negb (nonempty name) then EmptyString
      else if is_full_url name then name
      else base +:+ "/uploads/settings/logo/" +:+ name
  end.

End Images.

(* ================================================================== *)
(** ** lib/api/dashboard.ts, [formatActivityTime] *)
(* ================================================================== *)

Module Activity.

(** [formatActivityTime(timestamp)].  [now] is [new Date().getTime()],
    [date] is [new Date(timestamp).getTime()], with [None] for the [NaN]
    of a timestamp that is no date, and [localized] is what
    [date.toLocaleDateString(undefined, ..)] returns.  Every comparison
    with [NaN] is false. *)
Definition formatActivityTime (now : Z) (date : option Z)
    (localized : string) : string :=
  match date with
  | None => localized
  | Some t =>
      let diffInMs := (now - t)%Z in
      let diffInMinutes := (diffInMs / (1000 * 60))%Z in
      let diffInHours := (diffInMs / (1000 * 60 * 60))%Z in
      let diffInDays := (diffInMs / (1000 * 60 * 60 * 24))%Z in
      if (diffInMinutes <? 1)%Z then "Just now"
      else if (diffInMinutes <? 60)%Z then pretty diffInMinutes +:+ "m ago"
      else if (diffInHours <? 24)%Z then pretty diffInHours +:+ "h ago"
      else if (diffInDays <? 7)%Z then pretty diffInDays +:+ "d ago"
      else localized
  end.

End Activity.

(* ================================================================== *)
(** ** Requests, by what they carry *)
(* ================================================================== *)

Module Requests.
Import Token Client.

(** A request without an [Authorization] header. *)
Definition no_authorization (url : string) (init : RequestInit) : bool :=
  bool_decide (init_headers init !! "Authorization" = None).

(** A multipart upload with the given method, sent to [url]: the body is
    a [FormData] and no [Content-Type] header is set, so that the browser
    writes the one with the boundary. *)
Definition upload_request (method url : string) (url' : string)
    (init : RequestInit) : bool :=
  String.eqb url' url
  && String.eqb (init_method init) method
  && match init_body init with
     | Some (FormDataBody _) => true
     | _ => false
     end
  && bool_decide (init_headers init !! "Content-Type" = None).

(** A request with the given method, sent to [url], without a body. *)
Definition bare_request (method url : string) (url' : string)
    (init : RequestInit) : bool :=
  String.eqb url' url
  && String.eqb (init_method init) method
  && match init_body init with
     | None => true
     | Some _ => false
     end.

End Requests.

(* ================================================================== *)
(** ** app/login/page.tsx *)
(* ================================================================== *)

Module LoginPage.
Import Client Routes.

(** The text [handleSubmit] puts in [errors.general] and in the toast for
    the [error] it caught:
    [error instanceof ApiError
       ? (error.data && typeof error.data === "object"
            && "message" in error.data
          ? String(error.data.message)
          : error.message || "Login failed. Please check your credentials.")
       : error instanceof Error ? error.message
       : "An unexpected error occurred"]. *)
Definition errorMessage (error : exn) : string :=
  match error with
  | ApiError message _ data =>
      let own := if nonempty message then message
                 else "Login failed. Please check your credentials." in
      match data with
      | Some d =>
          if truthy d && typeof_object d && has_key "message" d
          then to_string_opt (get "message" d)
          else own
      | None => own
      end
  | JsError message => message
  | NonError _ => "An unexpected error occurred"
  end.

(** [callbackUrl && callbackUrl.startsWith("/") ? callbackUrl : "/"], the
    target the page hands to [login] and to [router.replace]. *)
Definition redirectTo (callbackUrl : option string) : string :=
  match callbackUrl with
  | Some s => if nonempty s && startsWith s "/" then s else "/"
  | None => "/"
  end.

End LoginPage.

(* ================================================================== *)
(** ** Further sample data *)
(* ================================================================== *)

Module MoreSamples.
Import Cookies Token Gate Client AuthContext Swr Hooks Samples.

(** The JSON runtime of the examples, with the environment variable of
    the API base set to [v]. *)
Definition runtime_at (v : string) : JsonRuntime :=
  {| JSON_parse := Example.parse;
     JSON_stringify := Example.print;
     JSON_parse_empty := eq_refl;
     NEXT_PUBLIC_API_BASE_URL := Some v |}.

(** A network that is down: every request is rejected, with an [Error]
    or with a value that is none. *)
Definition offline : network := fun _ _ => Rejected (JsError "Failed to fetch").
Definition aborted : network := fun _ _ => Rejected (NonError (JStr "aborted")).

(** The login request as the client sends it. *)
Definition login_request : RequestOptions :=
  {| method := Some "POST"; headers := None; payload := Some some_credentials;
     anonymous := true; isFormData := false |}.

(** A login with a callback and [remember] set. *)
Definition remembered_login : option LoginOptions :=
  Some {| redirectTo := Some "/pdfs"; remember := Some true |}.

(** A provider that is still loading, in a browser that holds a session. *)
Definition mounting : world :=
  {| w_env := Browser logged_in_storage; user := JNull; isLoading := true;
     navigations := [] |}.

(** A provider that is still loading, in a browser whose stored token is
    the empty text. *)
Definition mounting_on_empty_token : world :=
  {| w_env := Browser {| localStorage := {[ TOKEN_KEY := EmptyString ]};
                         jar := ∅ |};
     user := JNull; isLoading := true; navigations := [] |}.

(** A response that refuses a login. *)
Definition refused_login : Response :=
  {| status := 401;
     body := Example.print (JObj [("message", JStr "Invalid credentials")]) |}.


(** A record to save, without and with an [id]; the endpoints of a
    resource. *)
Definition unsaved : json := JObj [("title", JStr "Budget")].
Definition saved : json := JObj [("id", JNum 7); ("title", JStr "Budget")].
Definition news_endpoints : ModalSave.Endpoints :=
  {| ModalSave.add := "/news";
     ModalSave.edit := fun id => "/news/" +:+ to_string id |}.

End MoreSamples.

(* ================================================================== *)
(** * Properties *)
(* ================================================================== *)

(** ** The definitions on small inputs *)

Module Checks.
Import Cookies Token Routes Gate Client Hooks Samples.

Example public_paths :
  map isPublicPath ["/login"; "/_next/static/app.js"; "/api/health";
                    "/favicon.ico"; "/icons/a.svg"; "/placeholder.png"]
  = [true; true; true; true; true; true].
Proof. reflexivity. Qed.

Example protected_paths :
  map isPublicPath ["/"; "/news"; "/pdfs"; "/settings"; "/login/";
                    "/Login"; "/api"; "/loginx"]
  = [false; false; false; false; false; false; false; false].
Proof. reflexivity. Qed.

Example redirect_targets :
  map redirectTarget [None; Some EmptyString; Some "/news"; Some "news";
                      Some "https://evil.example/"; Some "/"]
  = ["/"; "/"; "/news"; "/"; "/"; "/"].
Proof. reflexivity. Qed.

Example max_ages :
  AUTH_COOKIE_MAX_AGE = 604800%Z /\ SESSION_COOKIE_MAX_AGE = 86400%Z.
Proof. done. Qed.

Example encoded_token :
  encodeURIComponent "a b/c=d;e~'" = "a%20b%2Fc%3Dd%3Be~'".
Proof. reflexivity. Qed.

Example list_keys :
  listKey "news-list" None = "news-list"
  /\ listKey "news-list"
       (Some {| page := Some 2%Z; limit := Some 10%Z; search := Some "tax" |})
     = "news-list-page=2-limit=10-search=tax"
  /\ listKey "pdf-list"
       (Some {| page := Some 0%Z; limit := None; search := Some EmptyString |})
     = "pdf-list".
Proof. by vm_compute. Qed.

Example single_keys :
  News.newsSingleKey (IdNum 42) = "news-single-42"
  /\ News.newsSingleKey (IdStr "42") = "news-single-42"
  /\ Pdf.pdfSingleKey (IdNum 7) = "pdf-single-7".
Proof. by vm_compute. Qed.

Example search_params :
  searchParams_set "callbackUrl" "/news" [("a", "1"); ("callbackUrl", "/x")]
  = [("a", "1"); ("callbackUrl", "/news")]
  /\ searchParams_delete "callbackUrl" [("callbackUrl", "/x"); ("a", "1")]
     = [("a", "1")].
Proof. done. Qed.

Example stripped_base_url :
  strip_trailing_slashes "http://api.example/v1//" = "http://api.example/v1".
Proof. reflexivity. Qed.

Example strings_of_values :
  map to_string [JNull; JBool true; JNum (-3); JStr "x";
                 JArr [JNum 1; JNull; JArr [JNum 2; JNum 3]]; JObj []]
  = ["null"; "true"; "-3"; "x"; "1,,2,3"; "[object Object]"].
Proof. by vm_compute. Qed.

Example read_and_print :
  let parse := Example.parse in
  parse (Example.print full_login_response) = Some full_login_response
  /\ parse token_only_body = Some token_only_response
  /\ parse "{oops" = None
  /\ parse EmptyString = None.
Proof. by vm_compute. Qed.

End Checks.

(** ** The token store *)

Module TokenProps.
Import Cookies Token Samples.

Lemma getToken_setItem (t : string) (st : storage) :
  getToken (Browser (setItem TOKEN_KEY t st)) = Some t.
Proof. cbn. apply lookup_insert_eq. Qed.

(** [setToken(t, remember)] in the browser, by whether [t] is well
    formed: the token goes to [localStorage] and the cookie is written, or
    the token goes to [localStorage] and the [URIError] of [setCookie]
    leaves the cookie jar as it was. *)
Lemma setToken_run (t : string) (remember : option bool) (st : storage) :
  setToken t remember (Browser st)
  = if well_formed t
    then (Returned tt,
          Browser
            {| localStorage := <[TOKEN_KEY := t]> (localStorage st);
               jar := <[AUTH_COOKIE_NAME :=
                          {| cookie_value := encodeURIComponent t;
                             cookie_path := "/";
                             cookie_max_age :=
                               if default false remember then 604800
                               else 86400;
                             cookie_same_site := "Lax" |}]> (jar st) |})
    else (Threw URIError, Browser (setItem TOKEN_KEY t st)).
Proof.
  unfold setToken, setCookie, encodeURIComponent_or_throw, bind, gets, modify,
    ret, throw. cbn.
  destruct (well_formed t); [| done]. cbn.
  by destruct remember as [[] |].
Qed.

(** [getToken()] after [setToken(t)], whether it returned or threw. *)
Lemma getToken_setToken (t : string) (remember : option bool) (st : storage) :
  getToken (setToken t remember (Browser st)).2 = Some t.
Proof.
  rewrite setToken_run. destruct (well_formed t); cbn; apply lookup_insert_eq.
Qed.

(** The cookie [setToken] leaves behind and the token it stores, by the
    value of [remember], for a token that is well formed. *)
Lemma setToken_browser (t : string) (remember : option bool) (st : storage) :
  well_formed t = true ->
  let e := (setToken t remember (Browser st)).2 in
  authCookie e
  = Some {| cookie_value := encodeURIComponent t; cookie_path := "/";
            cookie_max_age := if default false remember then 604800 else 86400;
            cookie_same_site := "Lax" |}
  /\ getToken e = Some t.
Proof.
  intros Ht. cbn zeta. rewrite setToken_run, Ht. cbn.
  split; apply lookup_insert_eq.
Qed.

(** In the browser [setToken(t)] returns exactly when [t] is well
    formed. *)
Lemma setToken_returns (t : string) (remember : option bool) (st : storage) :
  (setToken t remember (Browser st)).1 = Returned tt
  <-> well_formed t = true.
Proof. rewrite setToken_run. by destruct (well_formed t). Qed.

(** C5 as stated fails on a token that ends in a lone surrogate:
    [setToken(t, true)] throws the [URIError] of [encodeURIComponent]; by
    then the token is in [localStorage], and no cookie is written. *)
Lemma setToken_lone_surrogate :
  exists e',
    setToken ill_formed_token (Some true) (Browser no_storage)
    = (Threw URIError, e')
    /\ getToken e' = Some ill_formed_token
    /\ authCookie e' = None
    /\ cookie_max_age <$> authCookie e' <> Some 604800%Z.
Proof. eexists. split; [by vm_compute |]. by vm_compute. Qed.

(** C5, amended.  In the browser, for a token [t] that is well formed
    (it holds no lone surrogate), [setToken(t, true)] returns and writes
    the auth cookie with max-age 604800 seconds (7 days), [setToken(t,
    false)] and [setToken(t)] return and write it with max-age 86400
    seconds (24 hours), and in each case [getToken()] then returns [t]
    from [localStorage]. *)
Theorem setToken_max_age_then_getToken (t : string) (st : storage) :
  well_formed t = true ->
  (exists remembered,
     setToken t (Some true) (Browser st) = (Returned tt, remembered)
     /\ cookie_max_age <$> authCookie remembered = Some 604800%Z
     /\ getToken remembered = Some t)
  /\ (exists session,
        setToken t (Some false) (Browser st) = (Returned tt, session)
        /\ cookie_max_age <$> authCookie session = Some 86400%Z
        /\ getToken session = Some t)
  /\ (exists omitted,
        setToken t None (Browser st) = (Returned tt, omitted)
        /\ cookie_max_age <$> authCookie omitted = Some 86400%Z
        /\ getToken omitted = Some t).
Proof.
  intros Ht. rewrite !setToken_run, Ht.
  split; [| split]; eexists; (split; [reflexivity |]); cbn;
    by rewrite !lookup_insert_eq.
Qed.

(** Outside the browser the store does nothing and holds nothing. *)
Lemma token_store_on_server (t : string) (remember : option bool) :
  setToken t remember Server = (Returned tt, Server)
  /\ removeToken Server = Server
  /\ getToken Server = None
  /\ hasToken Server = false.
Proof. done. Qed.

Lemma getToken_removeToken (e : env) : getToken (removeToken e) = None.
Proof. destruct e as [|st]; [done |]. cbn. apply lookup_delete_eq. Qed.

Lemma authCookie_removeToken (e : env) : authCookie (removeToken e) = None.
Proof. destruct e as [|st]; [done |]. cbn. apply lookup_delete_eq. Qed.

Lemma removeToken_absent (e : env) :
  getToken e = None -> authCookie e = None -> removeToken e = e.
Proof.
  destruct e as [|[ls j]]; [done |]. cbn. intros Hls Hj.
  unfold removeItem, document_cookie_assign. cbn.
  by rewrite !delete_id.
Qed.

(** C9.  [removeToken()] is idempotent: twice is the same state as once,
    with no token in [localStorage] and no auth cookie; on a state that has
    neither it changes nothing.  It is a total function: no call fails. *)
Theorem removeToken_idempotent (e : env) :
  removeToken (removeToken e) = removeToken e
  /\ getToken (removeToken e) = None
  /\ authCookie (removeToken e) = None
  /\ (getToken e = None -> authCookie e = None -> removeToken e = e).
Proof.
  split; [| split; [| split]].
  - apply removeToken_absent;
      [apply getToken_removeToken | apply authCookie_removeToken].
  - apply getToken_removeToken.
  - apply authCookie_removeToken.
  - apply removeToken_absent.
Qed.

Section WithJson.
Context {rt : JsonRuntime}.

Lemma getStoredUser_browser (st : storage) :
  getStoredUser (Browser st)
  = (Returned match localStorage st !! USER_KEY with
              | Some raw => default JNull (JSON_parse raw)
              | None => JNull
              end, Browser st).
Proof.
  unfold getStoredUser, try_catch.
  destruct (localStorage st !! USER_KEY) as [raw|] eqn:Hraw; cbn; [| done].
  unfold nonempty. destruct (String.eqb_spec raw EmptyString) as [-> | Hne]; cbn.
  - by rewrite JSON_parse_empty.
  - unfold JSON_parse_or_throw. by destruct (JSON_parse raw).
Qed.

(** [getStoredUser()] by the state of the stored entry: it always
    returns, with the storage as it was. *)
Lemma getStoredUser_cases (e : env) :
  (exists v, getStoredUser e = (Returned v, e))
  /\ (forall st raw v,
        e = Browser st -> localStorage st !! USER_KEY = Some raw ->
        JSON_parse raw = Some v ->
        getStoredUser e = (Returned v, e))
  /\ (forall st,
        e = Browser st -> localStorage st !! USER_KEY = None ->
        getStoredUser e = (Returned JNull, e))
  /\ (forall st raw,
        e = Browser st -> localStorage st !! USER_KEY = Some raw ->
        JSON_parse raw = None ->
        getStoredUser e = (Returned JNull, e)).
Proof.
  split; [| split; [| split]].
  - destruct e as [|st]; [by exists JNull |].
    rewrite getStoredUser_browser. eauto.
  - intros st raw v -> Hraw Hparse.
    by rewrite getStoredUser_browser, Hraw, Hparse.
  - intros st -> Hraw. by rewrite getStoredUser_browser, Hraw.
  - intros st raw -> Hraw Hparse.
    by rewrite getStoredUser_browser, Hraw, Hparse.
Qed.

End WithJson.

End TokenProps.

(** ** The route gate *)

Module GateProps.
Import Cookies Routes Gate Samples.

Lemma truthy_str_false (o : option string) :
  truthy_str o = false <-> o = None \/ o = Some EmptyString.
Proof.
  destruct o as [s|]; cbn; [| by intuition].
  unfold nonempty. destruct (String.eqb_spec s EmptyString) as [-> | Hne]; cbn.
  - by intuition.
  - split; [done |]. intros [? | [= ?]]; done.
Qed.

Lemma truthy_str_true (o : option string) :
  truthy_str o = true <-> exists s, o = Some s /\ s <> EmptyString.
Proof.
  destruct o as [s|]; cbn.
  - unfold nonempty. destruct (String.eqb_spec s EmptyString) as [-> | Hne]; cbn.
    + split; [done |]. by intros (? & [= <-] & ?).
    + split; [eauto | done].
  - split; [done |]. by intros (? & ? & ?).
Qed.

Lemma startsWith_slash_nonempty (s : string) :
  startsWith s "/" = true -> nonempty s = true.
Proof. by destruct s. Qed.

Lemma redirectTarget_relative (s : string) :
  startsWith s "/" = true -> redirectTarget (Some s) = s.
Proof.
  intros Hs. unfold redirectTarget.
  by rewrite (startsWith_slash_nonempty s Hs), Hs.
Qed.

Lemma redirectTarget_other (s : string) :
  startsWith s "/" = false ->
  redirectTarget (Some s) = DEFAULT_REDIRECT_AFTER_LOGIN.
Proof.
  intros Hs. unfold redirectTarget. rewrite Hs. by rewrite andb_false_r.
Qed.

Lemma redirectTarget_starts_with_slash (v : option string) :
  startsWith (redirectTarget v) "/" = true.
Proof.
  destruct v as [s|]; [| done].
  destruct (startsWith s "/") eqn:Hs.
  - by rewrite redirectTarget_relative.
  - by rewrite redirectTarget_other.
Qed.

Lemma middleware_protected_without_token (req : NextRequest) :
  isPublicPath (pathname (nextUrl req)) = false ->
  truthy_str (cookie_value_of AUTH_COOKIE_NAME req) = false ->
  middleware req
  = redirect {| origin := origin (nextUrl req); pathname := LOGIN_PATH;
                searchParams := [(CALLBACK_URL_PARAM, pathname (nextUrl req))] |}.
Proof. intros Hpath Htok. unfold middleware. by rewrite Hpath, Htok. Qed.

Lemma middleware_protected_with_token (req : NextRequest) :
  isPublicPath (pathname (nextUrl req)) = false ->
  truthy_str (cookie_value_of AUTH_COOKIE_NAME req) = true ->
  middleware req = next.
Proof. intros Hpath Htok. unfold middleware. by rewrite Hpath, Htok. Qed.

Lemma middleware_login_with_token (req : NextRequest) :
  pathname (nextUrl req) = LOGIN_PATH ->
  truthy_str (cookie_value_of AUTH_COOKIE_NAME req) = true ->
  middleware req
  = redirect {| origin := origin (nextUrl req);
                pathname := redirectTarget
                              (searchParams_get CALLBACK_URL_PARAM
                                 (searchParams (nextUrl req)));
                searchParams := searchParams_delete CALLBACK_URL_PARAM
                                  (searchParams (nextUrl req)) |}.
Proof. intros Hpath Htok. unfold middleware. by rewrite Hpath, Htok. Qed.

Lemma middleware_login_without_token (req : NextRequest) :
  pathname (nextUrl req) = LOGIN_PATH ->
  truthy_str (cookie_value_of AUTH_COOKIE_NAME req) = false ->
  middleware req = next.
Proof. intros Hpath Htok. unfold middleware. by rewrite Hpath, Htok. Qed.

(** Public paths other than the login page pass whatever the cookie. *)
Lemma middleware_public_asset (req : NextRequest) :
  isPublicPath (pathname (nextUrl req)) = true ->
  pathname (nextUrl req) <> LOGIN_PATH ->
  middleware req = next.
Proof.
  intros Hpath Hlogin. unfold middleware. rewrite Hpath.
  unfold isLoginPath. apply String.eqb_neq in Hlogin. rewrite Hlogin.
  by rewrite andb_false_r.
Qed.

(** Whether a request is let through depends on the path and on the
    truthiness of the cookie alone. *)
Lemma middleware_allows (req : NextRequest) :
  allows (middleware req)
  = let p := pathname (nextUrl req) in
    let token := truthy_str (cookie_value_of AUTH_COOKIE_NAME req) in
    if isPublicPath p then negb (token && isLoginPath p) else token.
Proof.
  unfold middleware. cbn zeta.
  destruct (isPublicPath (pathname (nextUrl req)));
    destruct (truthy_str (cookie_value_of AUTH_COOKIE_NAME req));
    destruct (isLoginPath (pathname (nextUrl req))); reflexivity.
Qed.

(** The redirect away from the login page goes where the callback says:
    with the callback [/login] it leads back to the login page, now
    without the parameter, and the next request is sent to [/]. *)
Lemma middleware_login_callback_login :
  middleware (request "/login" [("callbackUrl", "/login")]
                [(AUTH_COOKIE_NAME, "abc")])
  = redirect (nextUrl (request "/login" [] []))
  /\ middleware (request "/login" [] [(AUTH_COOKIE_NAME, "abc")])
     = redirect (nextUrl (request "/" [] [])).
Proof. done. Qed.

(** C1 as stated fails: the path is protected and the auth cookie is
    present, yet the gate does not allow the request; it redirects to the
    login page. *)
Lemma middleware_redirects_empty_cookie :
  isPublicPath (pathname (nextUrl empty_cookie_request)) = false
  /\ cookie_value_of AUTH_COOKIE_NAME empty_cookie_request = Some EmptyString
  /\ middleware empty_cookie_request <> next
  /\ middleware empty_cookie_request
     = redirect {| origin := "https://admin.example"; pathname := "/login";
                   searchParams := [("callbackUrl", "/news")] |}.
Proof. by vm_compute. Qed.

Lemma searchParams_get_delete (name : string) (q : list (string * string)) :
  searchParams_get name (searchParams_delete name q) = None.
Proof.
  induction q as [| [k v] q IH]; [done |]. cbn.
  destruct (String.eqb_spec k name) as [-> | Hne]; cbn; [done |].
  apply String.eqb_neq in Hne. by rewrite Hne.
Qed.

(** C1, amended.  The gate decides from the path and the auth cookie,
    where a cookie with an empty value counts as absent.  On a protected
    path, an absent or empty cookie gives a redirect to the login path
    with the original path as the callback parameter, and a non-empty
    cookie lets the request through.  On the login path, a non-empty
    cookie gives a redirect, on the origin of the request and without the
    callback parameter, which leads to the default landing path when the
    callback is missing or does not start with [/]; an absent or empty
    cookie lets login render.  Whether a request is let through is the
    same for two requests with the same path and the same cookie. *)
Theorem middleware_decision (req : NextRequest) :
  let p := pathname (nextUrl req) in
  let cookie := cookie_value_of AUTH_COOKIE_NAME req in
  let callback := searchParams_get CALLBACK_URL_PARAM
                    (searchParams (nextUrl req)) in
  (isPublicPath p = false -> cookie = None \/ cookie = Some EmptyString ->
   middleware req
   = redirect {| origin := origin (nextUrl req); pathname := LOGIN_PATH;
                 searchParams := [(CALLBACK_URL_PARAM, p)] |})
  /\ (isPublicPath p = false ->
      (exists v, cookie = Some v /\ v <> EmptyString) ->
      middleware req = next)
  /\ (p = LOGIN_PATH ->
      (exists v, cookie = Some v /\ v <> EmptyString) ->
      exists to,
        middleware req = redirect to
        /\ origin to = origin (nextUrl req)
        /\ searchParams_get CALLBACK_URL_PARAM (searchParams to) = None
        /\ (callback = None
            \/ (exists s, callback = Some s /\ startsWith s "/" = false) ->
            pathname to = DEFAULT_REDIRECT_AFTER_LOGIN))
  /\ (p = LOGIN_PATH -> cookie = None \/ cookie = Some EmptyString ->
      middleware req = next)
  /\ (forall req' : NextRequest,
        pathname (nextUrl req') = p ->
        cookie_value_of AUTH_COOKIE_NAME req' = cookie ->
        allows (middleware req') = allows (middleware req)).
Proof.
  cbn zeta. split_and!.
  - intros Hp Hc. apply middleware_protected_without_token; [done |].
    by apply truthy_str_false.
  - intros Hp Hc. apply middleware_protected_with_token; [done |].
    by apply truthy_str_true.
  - intros Hp Hc. eexists.
    split; [apply middleware_login_with_token; [done |];
            by apply truthy_str_true |].
    cbn [origin searchParams pathname]. split; [done |].
    split; [apply searchParams_get_delete |].
    intros [-> | (s & -> & Hs)]; [done | by apply redirectTarget_other].
  - intros Hp Hc. apply middleware_login_without_token; [done |].
    by apply truthy_str_false.
  - intros req' Hp Hc. rewrite !middleware_allows. cbn zeta.
    by rewrite Hp, Hc.
Qed.

End GateProps.

(** ** The API client *)

Module ClientProps.
Import Token Client Samples.

Section WithJson.
Context {rt : JsonRuntime}.

Lemma parseJsonSafe_returns {S} (res : Response) (s : S) :
  parseJsonSafe res s = (Returned (JSON_parse (body res)), s).
Proof.
  unfold parseJsonSafe, nonempty.
  destruct (String.eqb_spec (body res) EmptyString) as [-> | Hne]; cbn.
  - by rewrite JSON_parse_empty.
  - unfold try_catch, bind, JSON_parse_or_throw.
    by destruct (JSON_parse (body res)).
Qed.

(** The message field the error message is taken from, if any. *)
Lemma error_message_field (data : option json) (res : Response) :
  error_message data res
  = match data ≫= get "message" with
    | Some m => if truthy m then to_string m else generic_message res
    | None => generic_message res
    end.
Proof.
  unfold error_message, generic_message.
  destruct data as [[| b | n | s | items | fields]|]; cbn; try done.
  - by destruct b.
  - by destruct (negb (n =? 0)%Z).
  - by destruct (nonempty s).
  - destruct (assoc "message" fields) as [m|] eqn:Hm; cbn.
    + reflexivity.
    + reflexivity.
Qed.

(** What [apiFetch] does with a response. *)
Lemma apiFetch_resolved (net : network) (path : string) (o : RequestOptions)
    (res : Response) (e : env) :
  answers net (Resolved res) ->
  apiFetch net path o e
  = if ok res
    then (Returned match JSON_parse (body res) with
                   | Some JNull | None => JObj []
                   | Some v => v
                   end, e)
    else (Threw (ApiError (error_message (JSON_parse (body res)) res)
                   (status res) (JSON_parse (body res))), e).
Proof.
  intros Hnet. unfold apiFetch, bind, gets, fetch. rewrite Hnet. cbn.
  rewrite parseJsonSafe_returns. by destruct (ok res).
Qed.

(** A rejected [fetch] passes through. *)
Lemma apiFetch_rejected (net : network) (path : string) (o : RequestOptions)
    (err : exn) (e : env) :
  answers net (Rejected err) ->
  apiFetch net path o e = (Threw err, e).
Proof.
  intros Hnet. unfold apiFetch, bind, gets, fetch. by rewrite Hnet.
Qed.

(** [apiFetch] never writes to the storage. *)
Lemma apiFetch_env (net : network) (path : string) (o : RequestOptions)
    (e : env) :
  (apiFetch net path o e).2 = e.
Proof.
  unfold apiFetch, bind, gets, fetch. cbn.
  destruct (net _ _) as [res | err]; cbn; [| done].
  rewrite parseJsonSafe_returns. by destruct (ok res).
Qed.

(** C7, amended.  On a 2xx status [apiFetch] returns the parsed JSON
    body, or an empty object when the body is empty, is not JSON, or is
    the JSON [null].  On every other status it throws an [ApiError] with
    the HTTP status and the parsed body, which is undefined (not an empty
    object) when the body is empty or not JSON; its message is the
    [message] field of the parsed body when that field is truthy, and
    [Request failed with status N] otherwise.  Parsing the body never
    throws, and the storage is left as it is. *)
Theorem apiFetch_response (net : network) (path : string) (o : RequestOptions)
    (res : Response) (e : env) :
  answers net (Resolved res) ->
  let parsed := JSON_parse (body res) in
  (ok res = true ->
   (forall v, parsed = Some v -> v <> JNull ->
              apiFetch net path o e = (Returned v, e))
   /\ (parsed = None \/ parsed = Some JNull ->
       apiFetch net path o e = (Returned (JObj []), e)))
  /\ (ok res = false ->
      exists message,
        apiFetch net path o e = (Threw (ApiError message (status res) parsed), e)
        /\ (forall m, parsed ≫= get "message" = Some m -> truthy m = true ->
                      message = to_string m)
        /\ ((forall m, parsed ≫= get "message" = Some m -> truthy m = false) ->
            message = generic_message res)).
Proof.
  intros Hnet parsed. rewrite (apiFetch_resolved net path o res e Hnet).
  fold parsed. split.
  - intros ->. split.
    + intros v -> Hv. by destruct v.
    + by intros [-> | ->].
  - intros ->. exists (error_message parsed res). split; [done |].
    rewrite error_message_field. split.
    + intros m -> ->. done.
    + intros Hfalsy. destruct (parsed ≫= get "message") as [m|]; [| done].
      by rewrite (Hfalsy m eq_refl).
Qed.

End WithJson.

(** C7 as stated fails.  A 200 response whose body is the JSON [null] is
    answered with an empty object, not with the parsed body.  A 500
    response with an empty body throws an [ApiError] whose data is
    undefined, not an empty object.  A 500 response whose body has the
    message field [""] throws with the generic text, not with the
    message of the body. *)
Lemma apiFetch_not_as_stated :
  let rt := Example.runtime in
  let answer res := apiFetch (fun _ _ => Resolved res) "/news" GET Server in
  (JSON_parse (body null_200) = Some JNull
   /\ answer null_200 = (Returned (JObj []), Server))
  /\ answer empty_500
     = (Threw (ApiError "Request failed with status 500" 500 None), Server)
  /\ (JSON_parse (body blank_message_500)
      = Some (JObj [("message", JStr EmptyString)])
      /\ answer blank_message_500
         = (Threw (ApiError "Request failed with status 500" 500
                     (Some (JObj [("message", JStr EmptyString)]))), Server)).
Proof. by vm_compute. Qed.

End ClientProps.

(** ** Login, logout and session restore *)

Module AuthProps.
Import Cookies Token Client Routes Gate AuthContext Samples.
Import TokenProps GateProps ClientProps.

Section WithJson.
Context {rt : JsonRuntime}.

Lemma apiFetch_settles (net : network) (path : string) (o : RequestOptions)
    (e : env) :
  exists r, apiFetch net path o e = (r, e).
Proof.
  pose proof (apiFetch_env net path o e) as He.
  destruct (apiFetch net path o e) as [r e']. cbn in He. subst e'. eauto.
Qed.

(** [logout()] of lib/api/auth.ts returns whatever the call did, and the
    token is gone. *)
Lemma api_logout_returns (net : network) (e : env) :
  AuthApi.logout net e = (Returned tt, removeToken e).
Proof.
  unfold AuthApi.logout, try_finally, try_catch, bind, modify.
  destruct (apiFetch_settles net (AuthApi.AUTH_BASE +:+ "/logout")
              {| method := Some "POST"; headers := None; payload := None;
                 anonymous := false; isFormData := false |} e) as [r ->].
  by destruct r.
Qed.

(** What [login(payload, options)] of lib/api/auth.ts leaves in the
    storage.  When it returns a response with a truthy [success] and
    [token], [setToken] has returned; when it throws, the storage is as
    before, or it is what a [setToken] that threw has left. *)
Lemma api_login_env (net : network) (credentials : json)
    (remember : option bool) (e : env) :
  match AuthApi.login net credentials remember e with
  | (Returned response, e') =>
      let token := get_opt "token" (get "data" response) in
      if truthy_opt (get "success" response) && truthy_opt token
      then setToken (to_string_opt token) remember e = (Returned tt, e')
      else e' = e
  | (Threw _, e') =>
      e' = e \/ exists token, e' = (setToken token remember e).2
  end.
Proof.
  unfold AuthApi.login, bind.
  destruct (apiFetch_settles net (AuthApi.AUTH_BASE +:+ "/login")
              {| method := Some "POST"; headers := None;
                 payload := Some credentials;
                 anonymous := true; isFormData := false |} e) as [r ->].
  destruct r as [response | err]; [| by left]. cbn zeta.
  unfold when, ret.
  destruct (truthy_opt (get "success" response)
            && truthy_opt (get_opt "token" (get "data" response))) eqn:Hcond;
    [| by rewrite Hcond].
  destruct (setToken (to_string_opt (get_opt "token" (get "data" response)))
              remember e) as [[[] | err] e'] eqn:Hset.
  - by rewrite Hcond.
  - right. eexists. by rewrite Hset.
Qed.

Lemma getToken_setStoredUser (u : json) (e : env) :
  getToken (setStoredUser u e) = getToken e.
Proof.
  destruct e as [|st]; [done |].
  assert (USER_KEY <> TOKEN_KEY) as Hne by done.
  destruct u; cbn;
    first [by apply lookup_delete_ne | by apply lookup_insert_ne].
Qed.

Lemma authCookie_setStoredUser (u : json) (e : env) :
  authCookie (setStoredUser u e) = authCookie e.
Proof. destruct e as [|st]; [done |]. by destruct u. Qed.

Lemma getStoredUser_cleared (e : env) :
  getStoredUser (setStoredUser JNull e)
  = (Returned JNull, setStoredUser JNull e).
Proof.
  destruct e as [|st]; [done |]. cbn [setStoredUser].
  rewrite getStoredUser_browser. cbn. by rewrite lookup_delete_eq.
Qed.

(** The state [logout()] of the provider ends in. *)
Lemma logout_returns (net : network) (w : world) :
  logout net w
  = (Returned tt,
     {| w_env := setStoredUser JNull (removeToken (removeToken (w_env w)));
        user := JNull; isLoading := isLoading w;
        navigations := "/login" :: navigations w |}).
Proof.
  unfold logout, try_finally, try_catch, onEnv at 1.
  by rewrite api_logout_returns.
Qed.

(** C8.  Whatever the backend does with the logout call (a response of
    any status, or a rejected request), [logout()] returns without
    throwing; afterwards the token is in neither [localStorage] nor the
    cookie jar, the user is [null], the stored user is gone, [hasToken()]
    is false, and the router was sent to [/login].  When somebody was
    logged in, so that the user changes, the provider reports itself
    unauthenticated. *)
Theorem logout_always_clears (net : network) (w : world) :
  exists w',
    logout net w = (Returned tt, w')
    /\ getToken (w_env w') = None
    /\ authCookie (w_env w') = None
    /\ user w' = JNull
    /\ (getStoredUser (w_env w')).1 = Returned JNull
    /\ hasToken (w_env w') = false
    /\ navigations w' = "/login" :: navigations w
    /\ (user w <> JNull -> isAuthenticated w' = false).
Proof.
  eexists. split; [apply logout_returns |]. cbn.
  rewrite getStoredUser_cleared. cbn.
  rewrite getToken_setStoredUser, authCookie_setStoredUser.
  rewrite getToken_removeToken, authCookie_removeToken.
  unfold isAuthenticated, hasToken. cbn.
  rewrite getToken_setStoredUser, getToken_removeToken.
  done.
Qed.

(** [checkAuth()] returns, with loading over and the storage as it was. *)
Lemma checkAuth_returns (w : world) :
  exists u,
    checkAuth w
    = (Returned tt, {| w_env := w_env w; user := u; isLoading := false;
                       navigations := navigations w |}).
Proof.
  unfold checkAuth, bind, onEnv, gets. cbn.
  destruct (truthy_str (getToken (w_env w))); cbn; [| by eauto].
  destruct (w_env w) as [|st] eqn:He; [by eauto |].
  rewrite getStoredUser_browser. cbn. eauto.
Qed.

(** C10.  [getStoredUser()] never throws and leaves the storage as it
    is: it returns the parsed value when the stored entry is valid JSON,
    and [null] when the entry is absent or is not valid JSON; so
    [checkAuth()] always returns, with loading over. *)
Theorem getStoredUser_total (e : env) :
  (exists v, getStoredUser e = (Returned v, e))
  /\ (forall st raw v,
        e = Browser st -> localStorage st !! USER_KEY = Some raw ->
        JSON_parse raw = Some v ->
        getStoredUser e = (Returned v, e))
  /\ (forall st,
        e = Browser st -> localStorage st !! USER_KEY = None ->
        getStoredUser e = (Returned JNull, e))
  /\ (forall st raw,
        e = Browser st -> localStorage st !! USER_KEY = Some raw ->
        JSON_parse raw = None ->
        getStoredUser e = (Returned JNull, e))
  /\ (forall w, w_env w = e ->
        exists w', checkAuth w = (Returned tt, w')
                   /\ isLoading w' = false /\ w_env w' = e).
Proof.
  destruct (getStoredUser_cases e) as (H1 & H2 & H3 & H4).
  repeat split; try done.
  intros w <-. destruct (checkAuth_returns w) as [u ->]. eauto.
Qed.

(** What a call of the provider's [login] can end in.  When it returns,
    the response had a truthy [success], [token] and [admin], [setToken]
    returned, all three were stored and the router was sent to the
    validated target.  When it throws, the user, the loading flag and the
    router are as before, and the storage is as before or is what
    [setToken] left of it. *)
Lemma login_outcome (net : network) (credentials : json)
    (options : option LoginOptions) (w : world) :
  match login net credentials options w with
  | (Returned _, w') =>
      exists response token admin,
        truthy_opt (get "success" response) = true
        /\ get_opt "token" (get "data" response) = Some token
        /\ truthy token = true
        /\ get_opt "admin" (get "data" response) = Some admin
        /\ truthy admin = true
        /\ (setToken (to_string token) (options ≫= remember) (w_env w)).1
           = Returned tt
        /\ w' = {| w_env := setStoredUser admin
                              (setToken (to_string token)
                                 (options ≫= remember) (w_env w)).2;
                   user := admin; isLoading := isLoading w;
                   navigations := redirectTarget (options ≫= redirectTo)
                                  :: navigations w |}
  | (Threw _, w') =>
      user w' = user w /\ isLoading w' = isLoading w
      /\ navigations w' = navigations w
      /\ (w_env w' = w_env w
          \/ exists token,
               w_env w' = (setToken token (options ≫= remember) (w_env w)).2)
  end.
Proof.
  unfold login, bind, onEnv at 1.
  pose proof (api_login_env net credentials (options ≫= remember) (w_env w))
    as Henv.
  destruct (AuthApi.login net credentials (options ≫= remember) (w_env w))
    as [[response | err] e']; cbn zeta in *.
  2: { cbn. by repeat (split; [done |]). }
  destruct (truthy_opt (get "success" response)) eqn:Hsuccess; cbn in *.
  2: { subst e'. cbn. by auto. }
  destruct (get_opt "token" (get "data" response)) as [token|] eqn:Htoken;
    cbn in *.
  2: { subst e'. cbn. by auto. }
  destruct (truthy token) eqn:Htruthy; cbn in *.
  2: { subst e'. cbn. by auto. }
  destruct (get_opt "admin" (get "data" response)) as [admin|] eqn:Hadmin;
    cbn in *.
  2: { repeat (split; [done |]). right. exists (to_string token).
       by rewrite Henv. }
  destruct (truthy admin) eqn:Hadm; cbn in *.
  2: { repeat (split; [done |]). right. exists (to_string token).
       by rewrite Henv. }
  exists response, token, admin. rewrite Htoken, Hadmin, Henv. cbn.
  by repeat (split; [done |]).
Qed.

(** A 2xx login response with a truthy [success] and [token] and no
    truthy [admin]: the login throws, and the storage it leaves behind is
    the one [setToken] left: it holds the token. *)
Lemma login_token_without_admin (net : network) (credentials : json)
    (options : option LoginOptions) (w : world) (res : Response)
    (response token : json) :
  answers net (Resolved res) -> ok res = true ->
  JSON_parse (body res) = Some response -> response <> JNull ->
  truthy_opt (get "success" response) = true ->
  get_opt "token" (get "data" response) = Some token -> truthy token = true ->
  truthy_opt (get_opt "admin" (get "data" response)) = false ->
  exists err,
    login net credentials options w
    = (Threw err,
       {| w_env := (setToken (to_string token) (options ≫= remember)
                      (w_env w)).2;
          user := user w; isLoading := isLoading w;
          navigations := navigations w |})
    /\ ((setToken (to_string token) (options ≫= remember) (w_env w)).1
        = Returned tt ->
        exists message, err = ApiError message 400 (Some response)).
Proof.
  intros Hnet Hok Hparse Hnull Hsuccess Htoken Htruthy Hadmin.
  unfold login, bind, onEnv at 1. unfold AuthApi.login, bind.
  rewrite (apiFetch_resolved net _ _ res (w_env w) Hnet), Hok, Hparse.
  replace (match response with JNull => JObj [] | _ => response end)
    with response by (by destruct response).
  rewrite Hsuccess, Htoken. cbn. rewrite Htruthy. cbn.
  destruct (setToken (to_string token) (options ≫= remember) (w_env w))
    as [[[] | err] e'] eqn:Hset; cbn.
  - rewrite Hsuccess, Htoken. cbn. rewrite Htruthy, Hadmin. cbn.
    eexists. split; [done |]. eauto.
  - eexists. split; [done |]. done.
Qed.

(** The provider's [login] hands the validated target to the router. *)
Lemma login_navigates (net : network) (credentials : json)
    (options : option LoginOptions) (w w' : world) :
  login net credentials options w = (Returned tt, w') ->
  navigations w' = redirectTarget (options ≫= redirectTo) :: navigations w.
Proof.
  intros Hrun. pose proof (login_outcome net credentials options w) as Hout.
  rewrite Hrun in Hout.
  by destruct Hout as (? & ? & ? & _ & _ & _ & _ & _ & _ & ->).
Qed.

End WithJson.

(** C3 fails on a response with a token and no [admin]: HTTP 200 with
    body [{"success":true,"data":{"token":"abc"}}].  The login throws an
    [ApiError] with status 400, as a failure should, and leaves [user] and
    the loading flag as they were, but the token is by then in
    [localStorage] and in the cookie jar: [hasToken()] has turned true.
    A provider mounted on that storage afterwards reports itself
    authenticated with no user. *)
Theorem login_failure_keeps_token :
  let rt := Example.runtime in
  JSON_parse token_only_body = Some token_only_response
  /\ getToken (w_env logged_out) = None
  /\ authCookie (w_env logged_out) = None
  /\ hasToken (w_env logged_out) = false
  /\ exists w',
       login token_only_backend some_credentials None logged_out
       = (Threw (ApiError "Login failed. Please try again." 400
                   (Some token_only_response)), w')
       /\ getToken (w_env w') = Some "abc"
       /\ authCookie (w_env w')
          = Some {| cookie_value := "abc"; cookie_path := "/";
                    cookie_max_age := 86400; cookie_same_site := "Lax" |}
       /\ hasToken (w_env w') = true
       /\ user w' = user logged_out
       /\ isLoading w' = isLoading logged_out
       /\ exists w'',
            checkAuth (initial (w_env w')) = (Returned tt, w'')
            /\ user w'' = JNull
            /\ isAuthenticated w'' = true.
Proof.
  cbn zeta. repeat split; try by vm_compute.
  eexists. split; [by vm_compute |].
  repeat (split; [by vm_compute |]).
  eexists. split; [by vm_compute |]. by vm_compute.
Qed.

(** C4 fails on a callback that starts with two slashes,
    [//evil.example/x].  It starts with [/], so the validation keeps it,
    and a login that succeeds hands it to [router.replace] as it is; a
    reference of that form is scheme-relative and names the host
    [evil.example].  Every callback of that form is kept.  The route gate,
    given the same callback, redirects on the origin of the request. *)
Theorem callback_target_scheme_relative :
  let rt := Example.runtime in
  startsWith crafted_callback "/" = true
  /\ scheme_relative crafted_callback = true
  /\ redirectTarget (Some crafted_callback) = crafted_callback
  /\ (exists w',
        login full_login_backend some_credentials
          (Some {| redirectTo := Some crafted_callback; remember := None |})
          logged_out
        = (Returned tt, w')
        /\ navigations w' = [crafted_callback])
  /\ (forall rest,
        scheme_relative ("//" +:+ rest) = true
        /\ redirectTarget (Some ("//" +:+ rest)) = "//" +:+ rest)
  /\ (exists to,
        middleware (request "/login" [("callbackUrl", crafted_callback)]
                      [(AUTH_COOKIE_NAME, "abc")])
        = redirect to
        /\ origin to = "https://admin.example").
Proof.
  cbn zeta. split_and!; try by vm_compute.
  - eexists. split; by vm_compute.
  - intros rest. split; [by destruct rest |].
    apply redirectTarget_relative. by destruct rest.
  - eexists. split; by vm_compute.
Qed.

End AuthProps.

(** ** The cache and the mutation hooks *)

Module SwrProps.
Import Swr.

Lemma lookup_mutate_key (k : string) (data : option json) (o : MutatorOptions)
    (c : gmap string entry) :
  mutate (Key k) data o c !! k = Some (mutated data o).
Proof. cbn. apply lookup_insert_eq. Qed.

Lemma lookup_mutate_key_ne (k k' : string) (data : option json)
    (o : MutatorOptions) (c : gmap string entry) :
  k <> k' -> mutate (Key k) data o c !! k' = c !! k'.
Proof. intros Hne. cbn. by apply lookup_insert_ne. Qed.

Lemma lookup_mutate_matching (f : string -> bool) (data : option json)
    (o : MutatorOptions) (c : gmap string entry) (k : string) :
  mutate (Matching f) data o c !! k
  = (fun e => if f k then mutated data o else e) <$> c !! k.
Proof. cbn. rewrite map_lookup_imap. by destruct (c !! k). Qed.

Lemma lookup_mutate_matching_hit (f : string -> bool) (data : option json)
    (o : MutatorOptions) (c : gmap string entry) (k : string) :
  f k = true ->
  mutate (Matching f) data o c !! k = (fun _ => mutated data o) <$> c !! k.
Proof. intros Hf. rewrite lookup_mutate_matching. by rewrite Hf. Qed.

Lemma lookup_mutate_matching_miss (f : string -> bool) (data : option json)
    (o : MutatorOptions) (c : gmap string entry) (k : string) :
  f k = false -> mutate (Matching f) data o c !! k = c !! k.
Proof.
  intros Hf. rewrite lookup_mutate_matching. rewrite Hf.
  by destruct (c !! k).
Qed.

(** An entry whose value was dropped is refetched on its next read. *)
Lemma read_dropped (k : string) (o : MutatorOptions) (c : gmap string entry) :
  c !! k = None \/ c !! k = Some (mutated None o) -> invalidated k c.
Proof. unfold invalidated, read. by intros [-> | ->]. Qed.

Lemma invalidated_matching (f : string -> bool) (o : MutatorOptions)
    (c : gmap string entry) (k : string) :
  f k = true -> invalidated k (mutate (Matching f) None o c).
Proof.
  intros Hf. apply (read_dropped k o).
  rewrite lookup_mutate_matching_hit by done.
  destruct (c !! k); cbn; auto.
Qed.

End SwrProps.

Module HooksProps.
Import Token Client Swr Hooks.
Import SwrProps AuthProps.

Lemma prefix_app (s t : string) : String.prefix s (s +:+ t) = true.
Proof.
  induction s as [| c s IH]; [by destruct t |].
  change (String c s +:+ t) with (String c (s +:+ t)). cbn.
  destruct (ascii_dec c c) as [_ | Hne]; [exact IH | by destruct Hne].
Qed.

Lemma prefix_refl (s : string) : String.prefix s s = true.
Proof.
  induction s as [| c s IH]; [done |]. cbn.
  destruct (ascii_dec c c) as [_ | Hne]; [exact IH | by destruct Hne].
Qed.

(** Every list key of a resource starts with the base of the resource. *)
Lemma listKey_prefix (base : string) (params : option ListParams) :
  startsWith (listKey base params) base = true.
Proof.
  unfold startsWith, listKey.
  destruct (truthy_num (params ≫= page)), (truthy_num (params ≫= limit)),
    (truthy_str (params ≫= search)); cbn;
    first [apply prefix_app | apply prefix_refl].
Qed.

(** Numeric identifiers that differ are written differently. *)
Lemma ident_text_num (n m : N) :
  n <> m -> ident_text (IdNum n) <> ident_text (IdNum m).
Proof. cbn. intros Hne Heq. by apply Hne, (inj pretty). Qed.

(** The frame of a mutation callback, by the outcome of its body. *)
Lemma mutation_run {A} (fallback : string) (body : M hook A) (h : hook) :
  mutation fallback body h
  = match body (started h) with
    | (Returned a, h1) =>
        (Returned a, {| h_env := h_env h1; cache := cache h1;
                        pending := false; failure := failure h1 |})
    | (Threw err, h1) =>
        (Threw (asError fallback err),
         {| h_env := h_env h1; cache := cache h1; pending := false;
            failure := Some (asError fallback err) |})
    end.
Proof.
  unfold mutation, bind, try_finally, try_catch, setPending, setFailure,
    modify, throw. cbn. fold (started h).
  by destruct (body (started h)) as [[a | err] h1].
Qed.

(** An API call made from a hook, by what the call settles to. *)
Lemma onEnv_apiFetch {rt : JsonRuntime} (net : network) (path : string)
    (o : RequestOptions) (h : hook) :
  exists r, onEnv (apiFetch net path o) h = (r, h).
Proof.
  unfold onEnv. destruct (apiFetch_settles net path o (h_env h)) as [r ->].
  exists r. by destruct h.
Qed.

(** Settle the API call of a hook and compute the rest of the callback. *)
Ltac settle_call :=
  rewrite mutation_run; unfold bind, globalMutate, modify, ret;
  match goal with
  | |- context [onEnv (apiFetch ?net ?path ?o) ?h] =>
      let r := fresh "r" in
      let Hr := fresh "Hr" in
      destruct (onEnv_apiFetch net path o h) as [r Hr];
      rewrite Hr; destruct r as [? | ?]; cbn; auto
  end.

Section WithJson.
Context {rt : JsonRuntime}.
Import News Pdf.

(** What each callback leaves in the cache: on success the mutations of
    its body, on failure nothing. *)
Lemma createNews_cache (net : network) (data : NewsPayload) (h : hook) :
  match createNews net data h with
  | (Returned _, h') =>
      cache h' = mutate (Matching isNewsListKey) None revalidating (cache h)
  | (Threw err, h') => cache h' = cache h /\ failure h' = Some err
  end.
Proof. unfold createNews, apiCreateNews. settle_call. Qed.

Lemma updateNews_cache (net : network) (id : ident) (data : NewsPayload)
    (h : hook) :
  match updateNews net id data h with
  | (Returned _, h') =>
      cache h' = mutate (Matching isNewsListKey) None revalidating
                   (mutate (Key (newsSingleKey id)) None revalidating (cache h))
  | (Threw err, h') => cache h' = cache h /\ failure h' = Some err
  end.
Proof. unfold updateNews, apiUpdateNews. settle_call. Qed.

Lemma deleteNews_cache (net : network) (id : ident) (h : hook) :
  match deleteNews net id h with
  | (Returned _, h') =>
      cache h' = mutate (Matching isNewsListKey) None revalidating
                   (mutate (Key (newsSingleKey id)) None dropping (cache h))
  | (Threw err, h') => cache h' = cache h /\ failure h' = Some err
  end.
Proof. unfold deleteNews, apiDeleteNews. settle_call. Qed.

Lemma createPdf_cache (net : network) (data : PDFPayload) (h : hook) :
  match createPdf net data h with
  | (Returned _, h') =>
      cache h' = mutate (Matching isPdfListKey) None revalidating (cache h)
  | (Threw err, h') => cache h' = cache h /\ failure h' = Some err
  end.
Proof. unfold createPdf, apiCreatePdf. settle_call. Qed.

Lemma updatePdf_cache (net : network) (id : ident) (data : PDFPayload)
    (h : hook) :
  match updatePdf net id data h with
  | (Returned _, h') =>
      cache h' = mutate (Matching isPdfListKey) None revalidating
                   (mutate (Key (pdfSingleKey id)) None revalidating (cache h))
  | (Threw err, h') => cache h' = cache h /\ failure h' = Some err
  end.
Proof. unfold updatePdf, apiUpdatePdf. settle_call. Qed.

Lemma deletePdf_cache (net : network) (id : ident) (h : hook) :
  match deletePdf net id h with
  | (Returned _, h') =>
      cache h' = mutate (Matching isPdfListKey) None revalidating
                   (mutate (Key (pdfSingleKey id)) None dropping (cache h))
  | (Threw err, h') => cache h' = cache h /\ failure h' = Some err
  end.
Proof. unfold deletePdf, apiDeletePdf. settle_call. Qed.

Lemma updateStatus_cache (net : network) (id : ident) (status : bool)
    (h : hook) :
  match updateStatus net id status h with
  | (Returned _, h') =>
      cache h' = mutate (Matching isPdfListKey) None revalidating (cache h)
  | (Threw err, h') => cache h' = cache h /\ failure h' = Some err
  end.
Proof. unfold updateStatus, apiUpdatePdfStatus. settle_call. Qed.

End WithJson.

(** The cache after a successful callback, from its [_cache] lemma. *)
Ltac cache_after lemma :=
  match goal with
  | Hrun : _ = (Returned _, ?h') |- _ =>
      let Hc := fresh "Hcache" in
      pose proof lemma as Hc; rewrite Hrun in Hc
  end.

Section Invalidation.
Context {rt : JsonRuntime}.
Import News Pdf.

Lemma news_single_not_list (id : ident) :
  isNewsListKey (newsSingleKey id) = false.
Proof. reflexivity. Qed.

Lemma pdf_single_not_list (id : ident) :
  isPdfListKey (pdfSingleKey id) = false.
Proof. reflexivity. Qed.

Lemma newsSingleKey_inj (id id' : ident) :
  newsSingleKey id = newsSingleKey id' -> ident_text id = ident_text id'.
Proof. unfold newsSingleKey. apply String.app_inj. Qed.

Lemma pdfSingleKey_inj (id id' : ident) :
  pdfSingleKey id = pdfSingleKey id' -> ident_text id = ident_text id'.
Proof. unfold pdfSingleKey. apply String.app_inj. Qed.

(** After the list keys were invalidated on top of [c], a list key reads
    as a refetch, and an entry it had is stale with no value. *)
Lemma list_key_after (f : string -> bool) (c0 c : gmap string entry)
    (key : string) :
  f key = true -> c !! key = c0 !! key ->
  invalidated key (mutate (Matching f) None revalidating c)
  /\ (is_Some (c0 !! key) ->
      mutate (Matching f) None revalidating c !! key
      = Some {| value := None; stale := true |}).
Proof.
  intros Hf Hc. split; [by apply invalidated_matching |].
  intros [e He]. rewrite lookup_mutate_matching_hit by done.
  by rewrite Hc, He.
Qed.

(** An API call that the backend accepts returns, on the same storage. *)
Lemma onEnv_apiFetch_accepted (net : network) (path : string)
    (o : RequestOptions) (h : hook) :
  accepts net -> exists v, onEnv (apiFetch net path o) h = (Returned v, h).
Proof.
  intros (res & Hnet & Hok). unfold onEnv.
  rewrite (ClientProps.apiFetch_resolved net path o res _ Hnet), Hok.
  eexists. by destruct h.
Qed.

(** Settle an accepted API call and compute the rest of the callback. *)
Ltac settle_accepted Hnet :=
  rewrite mutation_run; unfold bind, globalMutate, modify, ret;
  match goal with
  | |- context [onEnv (apiFetch ?net ?path ?o) ?h] =>
      let v := fresh "v" in
      let Hv := fresh "Hv" in
      destruct (onEnv_apiFetch_accepted net path o h Hnet) as [v Hv];
      rewrite Hv; cbn; eauto
  end.

(** Each callback returns when the backend accepts its request. *)
Lemma createNews_accepted (net : network) (data : NewsPayload) (h : hook) :
  accepts net -> exists r h', createNews net data h = (Returned r, h').
Proof. intros Hnet. unfold createNews, apiCreateNews. settle_accepted Hnet. Qed.

Lemma updateNews_accepted (net : network) (id : ident) (data : NewsPayload)
    (h : hook) :
  accepts net -> exists r h', updateNews net id data h = (Returned r, h').
Proof. intros Hnet. unfold updateNews, apiUpdateNews. settle_accepted Hnet. Qed.

Lemma deleteNews_accepted (net : network) (id : ident) (h : hook) :
  accepts net -> exists r h', deleteNews net id h = (Returned r, h').
Proof. intros Hnet. unfold deleteNews, apiDeleteNews. settle_accepted Hnet. Qed.

Lemma createPdf_accepted (net : network) (data : PDFPayload) (h : hook) :
  accepts net -> exists r h', createPdf net data h = (Returned r, h').
Proof. intros Hnet. unfold createPdf, apiCreatePdf. settle_accepted Hnet. Qed.

Lemma updatePdf_accepted (net : network) (id : ident) (data : PDFPayload)
    (h : hook) :
  accepts net -> exists r h', updatePdf net id data h = (Returned r, h').
Proof. intros Hnet. unfold updatePdf, apiUpdatePdf. settle_accepted Hnet. Qed.

Lemma deletePdf_accepted (net : network) (id : ident) (h : hook) :
  accepts net -> exists r h', deletePdf net id h = (Returned r, h').
Proof. intros Hnet. unfold deletePdf, apiDeletePdf. settle_accepted Hnet. Qed.

Lemma updateStatus_accepted (net : network) (id : ident) (status : bool)
    (h : hook) :
  accepts net -> exists r h', updateStatus net id status h = (Returned r, h').
Proof.
  intros Hnet. unfold updateStatus, apiUpdatePdfStatus. settle_accepted Hnet.
Qed.

(** The list keys after a news callback that returned. *)
Lemma news_list_after (net : network) (h h' : hook) (key : string) :
  (exists data r, createNews net data h = (Returned r, h'))
  \/ (exists id data r, updateNews net id data h = (Returned r, h'))
  \/ (exists id r, deleteNews net id h = (Returned r, h')) ->
  isNewsListKey key = true ->
  invalidated key (cache h')
  /\ (is_Some (cache h !! key) ->
      cache h' !! key = Some {| value := None; stale := true |}).
Proof.
  intros [(data & r & Hrun) | [(id & data & r & Hrun) | (id & r & Hrun)]] Hkey.
  - cache_after (createNews_cache net data h). rewrite Hcache.
    by apply list_key_after.
  - cache_after (updateNews_cache net id data h). rewrite Hcache.
    apply list_key_after; [done |]. apply lookup_mutate_key_ne.
    intros <-. by rewrite news_single_not_list in Hkey.
  - cache_after (deleteNews_cache net id h). rewrite Hcache.
    apply list_key_after; [done |]. apply lookup_mutate_key_ne.
    intros <-. by rewrite news_single_not_list in Hkey.
Qed.

(** The list keys after a PDF callback that returned. *)
Lemma pdf_list_after (net : network) (h h' : hook) (key : string) :
  (exists data r, createPdf net data h = (Returned r, h'))
  \/ (exists id data r, updatePdf net id data h = (Returned r, h'))
  \/ (exists id r, deletePdf net id h = (Returned r, h'))
  \/ (exists id status r, updateStatus net id status h = (Returned r, h')) ->
  isPdfListKey key = true ->
  invalidated key (cache h')
  /\ (is_Some (cache h !! key) ->
      cache h' !! key = Some {| value := None; stale := true |}).
Proof.
  intros [(data & r & Hrun) | [(id & data & r & Hrun)
    | [(id & r & Hrun) | (id & status & r & Hrun)]]] Hkey.
  - cache_after (createPdf_cache net data h). rewrite Hcache.
    by apply list_key_after.
  - cache_after (updatePdf_cache net id data h). rewrite Hcache.
    apply list_key_after; [done |]. apply lookup_mutate_key_ne.
    intros <-. by rewrite pdf_single_not_list in Hkey.
  - cache_after (deletePdf_cache net id h). rewrite Hcache.
    apply list_key_after; [done |]. apply lookup_mutate_key_ne.
    intros <-. by rewrite pdf_single_not_list in Hkey.
  - cache_after (updateStatus_cache net id status h). rewrite Hcache.
    by apply list_key_after.
Qed.

(** C2.  A mutation that the backend accepts (an answer with a 2xx
    status) makes its callback return with every list key of its resource
    invalidated, for each of the seven callbacks: create, update and
    delete of news and of a PDF, and the PDF status toggle.  More
    generally, whenever one of the callbacks returns, every key that
    starts with the list prefix of its resource ([news-list] or
    [pdf-list]) is invalidated: reading it refetches, and an entry the
    cache held under it is stale with its value dropped.  The list key of
    every choice of page, limit and search starts with that prefix. *)
Theorem list_keys_invalidated (net : network) (h : hook) (key : string) :
  (accepts net -> isNewsListKey key = true ->
   (forall data,
      exists r h', createNews net data h = (Returned r, h')
                   /\ invalidated_from key (cache h) (cache h'))
   /\ (forall id data,
         exists r h', updateNews net id data h = (Returned r, h')
                      /\ invalidated_from key (cache h) (cache h'))
   /\ (forall id,
         exists r h', deleteNews net id h = (Returned r, h')
                      /\ invalidated_from key (cache h) (cache h')))
  /\ (accepts net -> isPdfListKey key = true ->
      (forall data,
         exists r h', createPdf net data h = (Returned r, h')
                      /\ invalidated_from key (cache h) (cache h'))
      /\ (forall id data,
            exists r h', updatePdf net id data h = (Returned r, h')
                         /\ invalidated_from key (cache h) (cache h'))
      /\ (forall id,
            exists r h', deletePdf net id h = (Returned r, h')
                         /\ invalidated_from key (cache h) (cache h'))
      /\ (forall id status,
            exists r h', updateStatus net id status h = (Returned r, h')
                         /\ invalidated_from key (cache h) (cache h')))
  /\ (forall h',
        (exists data r, createNews net data h = (Returned r, h'))
        \/ (exists id data r, updateNews net id data h = (Returned r, h'))
        \/ (exists id r, deleteNews net id h = (Returned r, h')) ->
        isNewsListKey key = true ->
        invalidated_from key (cache h) (cache h'))
  /\ (forall h',
        (exists data r, createPdf net data h = (Returned r, h'))
        \/ (exists id data r, updatePdf net id data h = (Returned r, h'))
        \/ (exists id r, deletePdf net id h = (Returned r, h'))
        \/ (exists id status r,
              updateStatus net id status h = (Returned r, h')) ->
        isPdfListKey key = true ->
        invalidated_from key (cache h) (cache h'))
  /\ (forall params,
        isNewsListKey (getNewsListKey params) = true
        /\ isPdfListKey (getPdfListKey params) = true).
Proof.
  split_and!.
  - intros Hnet Hkey. split_and!.
    + intros data. destruct (createNews_accepted net data h Hnet) as (r & h' & Hrun).
      exists r, h'. split; [done |].
      apply (news_list_after net h h' key); eauto 8.
    + intros id data.
      destruct (updateNews_accepted net id data h Hnet) as (r & h' & Hrun).
      exists r, h'. split; [done |].
      apply (news_list_after net h h' key); eauto 8.
    + intros id. destruct (deleteNews_accepted net id h Hnet) as (r & h' & Hrun).
      exists r, h'. split; [done |].
      apply (news_list_after net h h' key); eauto 8.
  - intros Hnet Hkey. split_and!.
    + intros data. destruct (createPdf_accepted net data h Hnet) as (r & h' & Hrun).
      exists r, h'. split; [done |].
      apply (pdf_list_after net h h' key); eauto 8.
    + intros id data.
      destruct (updatePdf_accepted net id data h Hnet) as (r & h' & Hrun).
      exists r, h'. split; [done |].
      apply (pdf_list_after net h h' key); eauto 8.
    + intros id. destruct (deletePdf_accepted net id h Hnet) as (r & h' & Hrun).
      exists r, h'. split; [done |].
      apply (pdf_list_after net h h' key); eauto 8.
    + intros id status.
      destruct (updateStatus_accepted net id status h Hnet)
        as (r & h' & Hrun).
      exists r, h'. split; [done |].
      apply (pdf_list_after net h h' key); eauto 8.
  - intros h'. apply news_list_after.
  - intros h'. apply pdf_list_after.
  - intros params. split; apply listKey_prefix.
Qed.

(** After [mutate(single, undefined, o)] and then the invalidation of the
    list keys, the single key reads as a refetch and every other key that
    is not a list key is as it was. *)
Lemma single_key_after (f : string -> bool) (o : MutatorOptions)
    (c : gmap string entry) (single : string) :
  f single = false ->
  let c' := mutate (Matching f) None revalidating
              (mutate (Key single) None o c) in
  invalidated single c'
  /\ (forall key, f key = false -> key <> single -> c' !! key = c !! key).
Proof.
  intros Hf. cbn zeta. split.
  - apply (read_dropped single o). right.
    rewrite lookup_mutate_matching_miss by done. apply lookup_mutate_key.
  - intros key Hkey Hne. rewrite lookup_mutate_matching_miss by done.
    by apply lookup_mutate_key_ne.
Qed.

(** The keys after an update or a delete of a news item that returned. *)
Lemma news_single_after (net : network) (h h' : hook) (id : ident) :
  (exists data r, updateNews net id data h = (Returned r, h'))
  \/ (exists r, deleteNews net id h = (Returned r, h')) ->
  invalidated (newsSingleKey id) (cache h')
  /\ (forall key, isNewsListKey key = true -> invalidated key (cache h'))
  /\ (forall id', ident_text id' <> ident_text id ->
        cache h' !! newsSingleKey id' = cache h !! newsSingleKey id').
Proof.
  intros Hrun.
  assert (exists o, cache h'
                    = mutate (Matching isNewsListKey) None revalidating
                        (mutate (Key (newsSingleKey id)) None o (cache h)))
    as [o ->].
  { destruct Hrun as [(data & r & Hrun) | (r & Hrun)].
    - cache_after (updateNews_cache net id data h). eauto.
    - cache_after (deleteNews_cache net id h). eauto. }
  destruct (single_key_after isNewsListKey o (cache h) (newsSingleKey id)
              (news_single_not_list id)) as [Hsingle Hframe].
  split; [done | split].
  - intros key Hkey. by apply invalidated_matching.
  - intros id' Hne. apply Hframe; [apply news_single_not_list |].
    intros Heq. by apply Hne, newsSingleKey_inj.
Qed.

(** The keys after an update or a delete of a PDF that returned. *)
Lemma pdf_single_after (net : network) (h h' : hook) (id : ident) :
  (exists data r, updatePdf net id data h = (Returned r, h'))
  \/ (exists r, deletePdf net id h = (Returned r, h')) ->
  invalidated (pdfSingleKey id) (cache h')
  /\ (forall key, isPdfListKey key = true -> invalidated key (cache h'))
  /\ (forall id', ident_text id' <> ident_text id ->
        cache h' !! pdfSingleKey id' = cache h !! pdfSingleKey id').
Proof.
  intros Hrun.
  assert (exists o, cache h'
                    = mutate (Matching isPdfListKey) None revalidating
                        (mutate (Key (pdfSingleKey id)) None o (cache h)))
    as [o ->].
  { destruct Hrun as [(data & r & Hrun) | (r & Hrun)].
    - cache_after (updatePdf_cache net id data h). eauto.
    - cache_after (deletePdf_cache net id h). eauto. }
  destruct (single_key_after isPdfListKey o (cache h) (pdfSingleKey id)
              (pdf_single_not_list id)) as [Hsingle Hframe].
  split; [done | split].
  - intros key Hkey. by apply invalidated_matching.
  - intros id' Hne. apply Hframe; [apply pdf_single_not_list |].
    intros Heq. by apply Hne, pdfSingleKey_inj.
Qed.

(** C6.  An update or a delete of the record [id] that the backend
    accepts (an answer with a 2xx status) makes its callback return with
    the single-item key of [id] ([news-single-id], [pdf-single-id])
    invalidated, and an accepted create makes its callback return with
    every single-item entry as it was.  More generally, whenever an update
    or a delete of [id] returns, the single-item key of [id] is
    invalidated as well as the list keys, and the single-item entry of
    every identifier that is written differently is as it was; whenever a
    create returns, every single-item entry is as it was.  Numeric
    identifiers that differ are written differently. *)
Theorem single_key_invalidated (net : network) (h : hook) (id : ident) :
  (accepts net ->
   (forall data,
      exists r h', updateNews net id data h = (Returned r, h')
                   /\ invalidated (newsSingleKey id) (cache h'))
   /\ (exists r h', deleteNews net id h = (Returned r, h')
                    /\ invalidated (newsSingleKey id) (cache h'))
   /\ (forall data,
         exists r h', updatePdf net id data h = (Returned r, h')
                      /\ invalidated (pdfSingleKey id) (cache h'))
   /\ (exists r h', deletePdf net id h = (Returned r, h')
                    /\ invalidated (pdfSingleKey id) (cache h'))
   /\ (forall data,
         exists r h', createNews net data h = (Returned r, h')
                      /\ forall id', cache h' !! newsSingleKey id'
                                     = cache h !! newsSingleKey id')
   /\ (forall data,
         exists r h', createPdf net data h = (Returned r, h')
                      /\ forall id', cache h' !! pdfSingleKey id'
                                     = cache h !! pdfSingleKey id'))
  /\ (forall h',
        (exists data r, updateNews net id data h = (Returned r, h'))
        \/ (exists r, deleteNews net id h = (Returned r, h')) ->
        invalidated (newsSingleKey id) (cache h')
        /\ (forall key, isNewsListKey key = true -> invalidated key (cache h'))
        /\ (forall id', ident_text id' <> ident_text id ->
              cache h' !! newsSingleKey id' = cache h !! newsSingleKey id'))
  /\ (forall h',
        (exists data r, updatePdf net id data h = (Returned r, h'))
        \/ (exists r, deletePdf net id h = (Returned r, h')) ->
        invalidated (pdfSingleKey id) (cache h')
        /\ (forall key, isPdfListKey key = true -> invalidated key (cache h'))
        /\ (forall id', ident_text id' <> ident_text id ->
              cache h' !! pdfSingleKey id' = cache h !! pdfSingleKey id'))
  /\ (forall h',
        (exists data r, createNews net data h = (Returned r, h')) ->
        forall id',
          cache h' !! newsSingleKey id' = cache h !! newsSingleKey id')
  /\ (forall h',
        (exists data r, createPdf net data h = (Returned r, h')) ->
        forall id', cache h' !! pdfSingleKey id' = cache h !! pdfSingleKey id')
  /\ (forall n m : N, n <> m -> ident_text (IdNum n) <> ident_text (IdNum m)).
Proof.
  assert (forall h',
            (exists data r, createNews net data h = (Returned r, h')) ->
            forall id',
              cache h' !! newsSingleKey id' = cache h !! newsSingleKey id')
    as Hcreate_news.
  { intros h' (data & r & Hrun) id'.
    cache_after (createNews_cache net data h). rewrite Hcache.
    apply lookup_mutate_matching_miss, news_single_not_list. }
  assert (forall h',
            (exists data r, createPdf net data h = (Returned r, h')) ->
            forall id',
              cache h' !! pdfSingleKey id' = cache h !! pdfSingleKey id')
    as Hcreate_pdf.
  { intros h' (data & r & Hrun) id'.
    cache_after (createPdf_cache net data h). rewrite Hcache.
    apply lookup_mutate_matching_miss, pdf_single_not_list. }
  split_and!.
  - intros Hnet. split_and!.
    + intros data.
      destruct (updateNews_accepted net id data h Hnet) as (r & h' & Hrun).
      exists r, h'. split; [done |].
      by destruct (news_single_after net h h' id) as [? _]; [eauto 8 |].
    + destruct (deleteNews_accepted net id h Hnet) as (r & h' & Hrun).
      exists r, h'. split; [done |].
      by destruct (news_single_after net h h' id) as [? _]; [eauto 8 |].
    + intros data.
      destruct (updatePdf_accepted net id data h Hnet) as (r & h' & Hrun).
      exists r, h'. split; [done |].
      by destruct (pdf_single_after net h h' id) as [? _]; [eauto 8 |].
    + destruct (deletePdf_accepted net id h Hnet) as (r & h' & Hrun).
      exists r, h'. split; [done |].
      by destruct (pdf_single_after net h h' id) as [? _]; [eauto 8 |].
    + intros data. destruct (createNews_accepted net data h Hnet) as (r & h' & Hrun).
      exists r, h'. split; [done |]. apply Hcreate_news; eauto.
    + intros data. destruct (createPdf_accepted net data h Hnet) as (r & h' & Hrun).
      exists r, h'. split; [done |]. apply Hcreate_pdf; eauto.
  - intros h'. apply news_single_after.
  - intros h'. apply pdf_single_after.
  - exact Hcreate_news.
  - exact Hcreate_pdf.
  - apply ident_text_num.
Qed.

End Invalidation.

End HooksProps.

(** ** The results at work on the samples *)

Module Worked.
Import Cookies Token Routes Gate Client AuthContext Swr Hooks Samples.
Import TokenProps GateProps ClientProps AuthProps SwrProps HooksProps.

(** The gate on four requests: a protected path without and with a
    cookie, the login page with a cookie and an absolute callback, and the
    login page without a cookie. *)
Lemma middleware_decision_on_samples :
  middleware (request "/news" [] [])
  = redirect {| origin := "https://admin.example"; pathname := "/login";
                searchParams := [("callbackUrl", "/news")] |}
  /\ middleware (request "/news" [] [(AUTH_COOKIE_NAME, "abc")]) = next
  /\ (exists to,
        middleware (request "/login" [("callbackUrl", "https://evil.example/")]
                      [(AUTH_COOKIE_NAME, "abc")]) = redirect to
        /\ origin to = "https://admin.example"
        /\ searchParams_get "callbackUrl" (searchParams to) = None
        /\ pathname to = "/")
  /\ middleware (request "/login" [("callbackUrl", "/pdfs")] []) = next.
Proof.
  split; [| split; [| split]].
  - apply (proj1 (middleware_decision (request "/news" [] [])));
      [reflexivity | by left].
  - apply (proj1 (proj2 (middleware_decision
                           (request "/news" [] [(AUTH_COOKIE_NAME, "abc")]))));
      [reflexivity | by exists "abc"].
  - pose proof (proj1 (proj2 (proj2 (middleware_decision
                  (request "/login" [("callbackUrl", "https://evil.example/")]
                     [(AUTH_COOKIE_NAME, "abc")]))))) as Hlogin.
    destruct Hlogin as (to & Hgate & Horigin & Hparam & Hdefault);
      [reflexivity | by exists "abc" |].
    exists to. split; [exact Hgate | split; [exact Horigin | split]].
    + exact Hparam.
    + apply Hdefault. right. by exists "https://evil.example/".
  - apply (proj1 (proj2 (proj2 (proj2 (middleware_decision
                                  (request "/login" [("callbackUrl", "/pdfs")]
                                     []))))));
      [reflexivity | by left].
Defined.

(** A logout while the backend refuses every request: the session of the
    sample browser is gone afterwards. *)
Lemma logout_always_clears_on_samples :
  let rt := Example.runtime in
  exists w',
    logout refusing_backend logged_in = (Returned tt, w')
    /\ getToken (w_env w') = None
    /\ authCookie (w_env w') = None
    /\ user w' = JNull
    /\ navigations w' = ["/login"]
    /\ isAuthenticated w' = false.
Proof.
  cbn zeta.
  destruct (logout_always_clears (rt := Example.runtime) refusing_backend
              logged_in)
    as (w' & Hrun & Htoken & Hcookie & Huser & _ & _ & Hnav & Hmemo).
  exists w'. split; [exact Hrun |]. split; [exact Htoken |].
  split; [exact Hcookie |]. split; [exact Huser |]. split; [exact Hnav |].
  apply Hmemo. discriminate.
Defined.

(** A token of plain letters on an empty browser store: the cookie lasts
    seven days when the session is remembered and one day otherwise, and
    the token is read back. *)
Lemma setToken_on_samples :
  (exists remembered,
     setToken "abc" (Some true) (Browser no_storage) = (Returned tt, remembered)
     /\ cookie_max_age <$> authCookie remembered = Some 604800%Z
     /\ getToken remembered = Some "abc")
  /\ (exists session,
        setToken "abc" (Some false) (Browser no_storage)
        = (Returned tt, session)
        /\ cookie_max_age <$> authCookie session = Some 86400%Z
        /\ getToken session = Some "abc")
  /\ (exists omitted,
        setToken "abc" None (Browser no_storage) = (Returned tt, omitted)
        /\ cookie_max_age <$> authCookie omitted = Some 86400%Z
        /\ getToken omitted = Some "abc").
Proof.
  exact (setToken_max_age_then_getToken "abc" no_storage eq_refl).
Defined.

(** The sample backend accepts what it is sent. *)
Lemma accepting_backend_accepts : accepts accepting_backend.
Proof.
  eexists. split; [intros url init; reflexivity | reflexivity].
Defined.

(** A create and a delete of news that the backend accepts return, and
    both cached news pages are stale afterwards.  A status toggle and a
    delete of a PDF that the backend accepts return, and the cached PDF
    page is stale afterwards. *)
Lemma list_keys_invalidated_on_samples :
  let rt := Example.runtime in
  let stale_page (h : hook) (key : string) :=
    invalidated key (cache h)
    /\ cache h !! key = Some {| value := None; stale := true |} in
  (exists r h', News.createNews accepting_backend a_news_item idle_hook
                = (Returned r, h')
                /\ stale_page h' "news-list-page=1-limit=10")
  /\ (exists r h', News.deleteNews accepting_backend (IdNum 42) idle_hook
                   = (Returned r, h')
                   /\ stale_page h' "news-list-page=2-limit=10-search=tax")
  /\ (exists r h', Pdf.updateStatus accepting_backend (IdNum 42) false
                     idle_hook = (Returned r, h')
                   /\ stale_page h' "pdf-list-page=1-limit=10")
  /\ (exists r h', Pdf.deletePdf accepting_backend (IdNum 42) idle_hook
                   = (Returned r, h')
                   /\ stale_page h' "pdf-list-page=1-limit=10").
Proof.
  cbn zeta.
  pose proof (fun key =>
                proj1 (list_keys_invalidated (rt := Example.runtime)
                         accepting_backend idle_hook key)
                  accepting_backend_accepts)
    as Hnews.
  pose proof (fun key =>
                proj1 (proj2 (list_keys_invalidated (rt := Example.runtime)
                                accepting_backend idle_hook key))
                  accepting_backend_accepts)
    as Hpdf.
  split; [| split; [| split]].
  - destruct (proj1 (Hnews "news-list-page=1-limit=10" eq_refl) a_news_item)
      as (r & h' & Hrun & Hread & Hentry).
    exists r, h'. split; [exact Hrun |].
    split; [exact Hread | apply Hentry; eexists; by vm_compute].
  - destruct (proj2 (proj2 (Hnews "news-list-page=2-limit=10-search=tax"
                              eq_refl)) (IdNum 42))
      as (r & h' & Hrun & Hread & Hentry).
    exists r, h'. split; [exact Hrun |].
    split; [exact Hread | apply Hentry; eexists; by vm_compute].
  - destruct (proj2 (proj2 (proj2 (Hpdf "pdf-list-page=1-limit=10" eq_refl)))
                (IdNum 42) false)
      as (r & h' & Hrun & Hread & Hentry).
    exists r, h'. split; [exact Hrun |].
    split; [exact Hread | apply Hentry; eexists; by vm_compute].
  - destruct (proj1 (proj2 (proj2 (Hpdf "pdf-list-page=1-limit=10" eq_refl)))
                (IdNum 42))
      as (r & h' & Hrun & Hread & Hentry).
    exists r, h'. split; [exact Hrun |].
    split; [exact Hread | apply Hentry; eexists; by vm_compute].
Defined.

(** An update and a delete of news 42 that the backend accepts return; the
    entry of 42 then reads as a refetch and the entry of 7 is as it was.
    The same for a delete of PDF 42. *)
Lemma single_key_invalidated_on_samples :
  let rt := Example.runtime in
  (exists r h', News.updateNews accepting_backend (IdNum 42) a_news_item
                  idle_hook = (Returned r, h')
                /\ invalidated "news-single-42" (cache h')
                /\ cache h' !! "news-single-7"
                   = cache idle_hook !! "news-single-7")
  /\ (exists r h', News.deleteNews accepting_backend (IdNum 42) idle_hook
                   = (Returned r, h')
                   /\ invalidated "news-single-42" (cache h')
                   /\ cache h' !! "news-single-7"
                      = cache idle_hook !! "news-single-7")
  /\ (exists r h', Pdf.deletePdf accepting_backend (IdNum 42) idle_hook
                   = (Returned r, h')
                   /\ invalidated "pdf-single-42" (cache h')
                   /\ cache h' !! "pdf-single-7"
                      = cache idle_hook !! "pdf-single-7").
Proof.
  cbn zeta.
  pose proof (single_key_invalidated (rt := Example.runtime)
                accepting_backend idle_hook (IdNum 42))
    as (Hreturns & Hnews & Hpdf & _).
  specialize (Hreturns accepting_backend_accepts).
  split; [| split].
  - destruct (proj1 Hreturns a_news_item) as (r & h' & Hrun & Hsingle).
    exists r, h'. split; [exact Hrun |]. split; [exact Hsingle |].
    destruct (Hnews h' (or_introl (ex_intro _ a_news_item
                                     (ex_intro _ r Hrun))))
      as (_ & _ & Hframe).
    apply (Hframe (IdNum 7)). by vm_compute.
  - destruct (proj1 (proj2 Hreturns)) as (r & h' & Hrun & Hsingle).
    exists r, h'. split; [exact Hrun |]. split; [exact Hsingle |].
    destruct (Hnews h' (or_intror (ex_intro _ r Hrun))) as (_ & _ & Hframe).
    apply (Hframe (IdNum 7)). by vm_compute.
  - destruct (proj1 (proj2 (proj2 (proj2 Hreturns))))
      as (r & h' & Hrun & Hsingle).
    exists r, h'. split; [exact Hrun |]. split; [exact Hsingle |].
    destruct (Hpdf h' (or_intror (ex_intro _ r Hrun))) as (_ & _ & Hframe).
    apply (Hframe (IdNum 7)). by vm_compute.
Defined.

(** The client on an accepted and on a refused request. *)
Lemma apiFetch_response_on_samples :
  let rt := Example.runtime in
  apiFetch accepting_backend "/news" GET (Browser logged_in_storage)
  = (Returned (JObj [("success", JBool true); ("data", JObj [("id", JNum 42)])]),
     Browser logged_in_storage)
  /\ exists message,
       apiFetch refusing_backend "/news" GET (Browser logged_in_storage)
       = (Threw (ApiError message 422
                   (Some (JObj [("message", JStr "Title is required")]))),
          Browser logged_in_storage)
       /\ message = "Title is required".
Proof.
  cbn zeta. split.
  - apply (proj1 (proj1 (apiFetch_response (rt := Example.runtime)
                           accepting_backend "/news" GET
                           {| status := 200;
                              body := Example.print
                                        (JObj [("success", JBool true);
                                               ("data", JObj [("id", JNum 42)])]) |}
                           (Browser logged_in_storage)
                           (fun _ _ => eq_refl)) eq_refl));
      by vm_compute.
  - destruct (proj2 (apiFetch_response (rt := Example.runtime)
                       refusing_backend "/news" GET
                       {| status := 422;
                          body := Example.print
                                    (JObj [("message",
                                            JStr "Title is required")]) |}
                       (Browser logged_in_storage)
                       (fun _ _ => eq_refl)) eq_refl)
      as (message & Hrun & Hfield & _).
    exists message. split; [exact Hrun |].
    apply (Hfield (JStr "Title is required")); by vm_compute.
Defined.

(** Removing the token where there is none changes nothing. *)
Lemma removeToken_on_samples :
  removeToken (Browser no_storage) = Browser no_storage
  /\ removeToken (removeToken (Browser logged_in_storage))
     = removeToken (Browser logged_in_storage).
Proof.
  split.
  - apply (proj2 (proj2 (proj2 (removeToken_idempotent (Browser no_storage)))));
      reflexivity.
  - apply (proj1 (removeToken_idempotent (Browser logged_in_storage))).
Defined.

(** The stored user is restored when it parses, and is [null] when the
    entry is damaged or missing. *)
Lemma getStoredUser_on_samples :
  let rt := Example.runtime in
  getStoredUser (Browser logged_in_storage)
  = (Returned ada, Browser logged_in_storage)
  /\ getStoredUser (Browser damaged_storage)
     = (Returned JNull, Browser damaged_storage)
  /\ getStoredUser (Browser no_storage) = (Returned JNull, Browser no_storage).
Proof.
  cbn zeta. split; [| split].
  - apply (proj1 (proj2 (getStoredUser_total (rt := Example.runtime)
                           (Browser logged_in_storage)))
             logged_in_storage (Example.print ada) ada eq_refl);
      by vm_compute.
  - apply (proj1 (proj2 (proj2 (proj2
             (getStoredUser_total (rt := Example.runtime)
                (Browser damaged_storage)))))
             damaged_storage "{oops" eq_refl); by vm_compute.
  - apply (proj1 (proj2 (proj2 (getStoredUser_total (rt := Example.runtime)
                                  (Browser no_storage))))
             no_storage eq_refl); by vm_compute.
Defined.

End Worked.

(** ** The token store, further *)

Module TokenLaws.
Import Cookies Token Text TokenSync Samples.
Import TokenProps AuthProps.

Lemma setToken_browser_state (t : string) (remember : option bool)
    (st : storage) :
  well_formed t = true ->
  setToken t remember (Browser st)
  = (Returned tt,
     Browser
       {| localStorage := <[TOKEN_KEY := t]> (localStorage st);
          jar := <[AUTH_COOKIE_NAME :=
                     {| cookie_value := encodeURIComponent t;
                        cookie_path := "/";
                        cookie_max_age :=
                          if default false remember then AUTH_COOKIE_MAX_AGE
                          else SESSION_COOKIE_MAX_AGE;
                        cookie_same_site := "Lax" |}]> (jar st) |}).
Proof. intros Ht. by rewrite setToken_run, Ht. Qed.

(** The state [setToken] leaves when [encodeURIComponent] throws: the
    token is in [localStorage] and the cookie jar is as it was. *)
Lemma setToken_threw_state (t : string) (remember : option bool)
    (st : storage) :
  well_formed t = false ->
  setToken t remember (Browser st)
  = (Threw URIError,
     Browser {| localStorage := <[TOKEN_KEY := t]> (localStorage st);
                jar := jar st |}).
Proof. intros Ht. by rewrite setToken_run, Ht. Qed.

Lemma setToken_server (t : string) (remember : option bool) :
  setToken t remember Server = (Returned tt, Server).
Proof. reflexivity. Qed.

Lemma removeToken_browser_state (st : storage) :
  removeToken (Browser st)
  = Browser {| localStorage := delete TOKEN_KEY (localStorage st);
               jar := delete AUTH_COOKIE_NAME (jar st) |}.
Proof. reflexivity. Qed.

(** The state after [setToken], whether it returned or threw. *)
Lemma setToken_state (t : string) (remember : option bool) (st : storage) :
  exists j,
    (setToken t remember (Browser st)).2
    = Browser {| localStorage := <[TOKEN_KEY := t]> (localStorage st);
                 jar := j |}.
Proof.
  destruct (well_formed t) eqn:Ht.
  - rewrite (setToken_browser_state t remember st Ht). by eexists.
  - rewrite (setToken_threw_state t remember st Ht). by eexists.
Qed.

(** X1.  Writes to the token store compose as last write wins.  A
    [setToken] of a well-formed token replaces whatever an earlier
    [setToken] or [removeToken] left, in both places and with the same
    outcome; [removeToken] after [setToken] is [removeToken], whether that
    [setToken] returned or threw; and [getToken()] after two calls of
    [setToken] is what it is after the second alone, for every pair of
    tokens. *)
Theorem token_last_write_wins (t1 t2 : string) (r1 r2 : option bool)
    (e : env) :
  (well_formed t2 = true ->
   setToken t2 r2 (setToken t1 r1 e).2 = setToken t2 r2 e
   /\ setToken t2 r2 (removeToken e) = setToken t2 r2 e)
  /\ removeToken (setToken t1 r1 e).2 = removeToken e
  /\ getToken (setToken t2 r2 (setToken t1 r1 e).2).2
     = getToken (setToken t2 r2 e).2.
Proof.
  destruct e as [|st]; [done |].
  destruct (setToken_state t1 r1 st) as [j1 Hfirst]. rewrite Hfirst.
  split_and!.
  - intros Ht2. rewrite removeToken_browser_state.
    rewrite !(setToken_browser_state t2 r2 _ Ht2). cbn.
    rewrite !insert_insert_eq, !insert_delete_eq. split; [| done].
    destruct (well_formed t1) eqn:Ht1.
    + rewrite (setToken_browser_state t1 r1 st Ht1) in Hfirst.
      injection Hfirst as <-. by rewrite insert_insert_eq.
    + rewrite (setToken_threw_state t1 r1 st Ht1) in Hfirst.
      by injection Hfirst as <-.
  - rewrite !removeToken_browser_state. cbn. rewrite delete_insert_eq.
    destruct (well_formed t1) eqn:Ht1.
    + rewrite (setToken_browser_state t1 r1 st Ht1) in Hfirst.
      injection Hfirst as <-. by rewrite delete_insert_eq.
    + rewrite (setToken_threw_state t1 r1 st Ht1) in Hfirst.
      by injection Hfirst as <-.
  - by rewrite !getToken_setToken.
Qed.

Lemma dual_write_setToken (t : string) (remember : option bool) (e : env) :
  well_formed t = true -> dual_write (setToken t remember e).2.
Proof.
  intros Ht. destruct e as [|st]; [done |]. unfold dual_write.
  by destruct (setToken_browser t remember st Ht) as [-> ->].
Qed.

Lemma dual_write_removeToken (e : env) : dual_write (removeToken e).
Proof.
  unfold dual_write.
  by rewrite getToken_removeToken, authCookie_removeToken.
Qed.

Section WithJson.
Context {rt : JsonRuntime}.

(** X2.  The dual write: after [setToken] of a well-formed token, after
    [removeToken] and after [clearAuthStorage] the two places of the token
    agree (the cookie holds the encoding of the token that [localStorage]
    holds, or neither holds anything), from any state, also one where they
    disagreed; and writing or clearing the stored user keeps them in
    agreement.  A token that is not well formed makes [setToken] throw in
    the browser after the write to [localStorage]: the token is stored and
    the cookie is as it was. *)
Theorem token_places_agree (t : string) (remember : option bool) (u : json)
    (e : env) :
  (well_formed t = true ->
   (setToken t remember e).1 = Returned tt
   /\ dual_write (setToken t remember e).2)
  /\ (well_formed t = false -> isBrowser e = true ->
      (setToken t remember e).1 = Threw URIError
      /\ getToken (setToken t remember e).2 = Some t
      /\ authCookie (setToken t remember e).2 = authCookie e)
  /\ dual_write (removeToken e)
  /\ dual_write (clearAuthStorage e)
  /\ (dual_write e -> dual_write (setStoredUser u e)).
Proof.
  split_and!.
  - intros Ht. split; [| by apply dual_write_setToken].
    destruct e as [|st]; [done |].
    by rewrite (setToken_browser_state t remember st Ht).
  - intros Ht Hbrowser. destruct e as [|st]; [done |].
    rewrite (setToken_threw_state t remember st Ht). cbn.
    split; [done |]. split; [apply lookup_insert_eq | done].
  - apply dual_write_removeToken.
  - unfold clearAuthStorage, dual_write.
    rewrite !getToken_setStoredUser, !authCookie_setStoredUser.
    apply dual_write_removeToken.
  - unfold dual_write.
    by rewrite !getToken_setStoredUser, !authCookie_setStoredUser.
Qed.

(** X3.  The stored user round trip: after [setStoredUser(u)] in the
    browser, [getStoredUser()] returns [u], for every [u] that
    [JSON.parse] reads back from its [JSON.stringify] text; after
    [setStoredUser(null)] it returns [null]. *)
Theorem stored_user_round_trip (u : json) (st : storage) :
  JSON_parse (JSON_stringify u) = Some u ->
  (getStoredUser (setStoredUser u (Browser st))).1 = Returned u
  /\ (getStoredUser (setStoredUser JNull (Browser st))).1 = Returned JNull.
Proof.
  intros Hround. split.
  - destruct u; cbn [setStoredUser]; rewrite getStoredUser_browser; cbn;
      rewrite ?lookup_delete_eq, ?lookup_insert_eq; cbn; by rewrite ?Hround.
  - by rewrite getStoredUser_cleared.
Qed.

Lemma stored_entry_setToken (t : string) (remember : option bool)
    (st : storage) :
  exists st', (setToken t remember (Browser st)).2 = Browser st'
              /\ localStorage st' !! USER_KEY = localStorage st !! USER_KEY.
Proof.
  destruct (setToken_state t remember st) as [j ->].
  eexists. split; [done |]. cbn. by apply lookup_insert_ne.
Qed.

Lemma stored_entry_removeToken (st : storage) :
  exists st', removeToken (Browser st) = Browser st'
              /\ localStorage st' !! USER_KEY = localStorage st !! USER_KEY.
Proof.
  rewrite removeToken_browser_state. eexists. split; [done |]. cbn.
  by apply lookup_delete_ne.
Qed.

(** X4.  The token and the stored user do not touch each other:
    [setToken], whether it returns or throws, and [removeToken] leave what
    [getStoredUser()] returns as it was, and [setStoredUser] leaves
    [getToken()], [hasToken()] and the auth cookie as they were. *)
Theorem token_and_user_independent (t : string) (remember : option bool)
    (u : json) (e : env) :
  (getStoredUser (setToken t remember e).2).1 = (getStoredUser e).1
  /\ (getStoredUser (removeToken e)).1 = (getStoredUser e).1
  /\ getToken (setStoredUser u e) = getToken e
  /\ hasToken (setStoredUser u e) = hasToken e
  /\ authCookie (setStoredUser u e) = authCookie e.
Proof.
  split; [| split; [| split; [| split]]].
  - destruct e as [|st]; [done |].
    destruct (stored_entry_setToken t remember st) as (st' & -> & Hentry).
    by rewrite !getStoredUser_browser, Hentry.
  - destruct e as [|st]; [done |].
    destruct (stored_entry_removeToken st) as (st' & -> & Hentry).
    by rewrite !getStoredUser_browser, Hentry.
  - apply getToken_setStoredUser.
  - unfold hasToken. by rewrite getToken_setStoredUser.
  - apply authCookie_setStoredUser.
Qed.

Lemma clearAuthStorage_twice (e : env) :
  clearAuthStorage (clearAuthStorage e) = clearAuthStorage e.
Proof.
  unfold clearAuthStorage.
  destruct e as [|[ls j]]; [done |]. cbn. unfold removeItem. cbn.
  unfold document_cookie_assign. cbn. f_equal. f_equal.
  - apply map_eq. intros k. rewrite !lookup_delete. by repeat case_decide.
  - by rewrite delete_delete_eq.
Qed.

Lemma removeToken_twice (e : env) :
  removeToken (removeToken e) = removeToken e.
Proof.
  apply removeToken_absent;
    [apply getToken_removeToken | apply authCookie_removeToken].
Qed.

(** X5.  [clearAuthStorage()] leaves no token, no auth cookie and no
    stored user, whatever the state before; a second call changes
    nothing, and the order of its two steps does not matter. *)
Theorem clearAuthStorage_clears (e : env) :
  getToken (clearAuthStorage e) = None
  /\ authCookie (clearAuthStorage e) = None
  /\ hasToken (clearAuthStorage e) = false
  /\ (getStoredUser (clearAuthStorage e)).1 = Returned JNull
  /\ clearAuthStorage (clearAuthStorage e) = clearAuthStorage e
  /\ clearAuthStorage e = removeToken (setStoredUser JNull e).
Proof.
  unfold clearAuthStorage, hasToken.
  rewrite getStoredUser_cleared, getToken_setStoredUser,
    authCookie_setStoredUser, getToken_removeToken, authCookie_removeToken.
  repeat split; try done.
  - destruct e as [|[ls j]]; [done |]. cbn. unfold removeItem. cbn.
    unfold document_cookie_assign. cbn. f_equal. f_equal.
    + apply map_eq. intros k. rewrite !lookup_delete.
      by repeat case_decide.
    + by rewrite delete_delete_eq.
  - destruct e as [|[ls j]]; [done |]. cbn. unfold removeItem. cbn.
    f_equal. f_equal. apply map_eq. intros k. rewrite !lookup_delete.
    by repeat case_decide.
Qed.

End WithJson.

Lemma every_impl (P Q : ascii -> bool) (s : string) :
  (forall c, P c = true -> Q c = true) ->
  every P s = true -> every Q s = true.
Proof.
  intros HPQ. induction s as [| c s IH]; [done |]. cbn.
  intros [Hc Hs]%andb_true_iff. by rewrite (HPQ c Hc), IH.
Qed.

Lemma hex_digit_code (n : N) :
  (n < 16)%N ->
  N_of_ascii (hex_digit n) = (if (n <? 10)%N then 48 + n else 55 + n)%N.
Proof.
  intros Hn. unfold hex_digit. apply N_ascii_embedding.
  destruct (N.ltb_spec n 10); lia.
Qed.

Lemma hex_digit_unreserved (n : N) :
  (n < 16)%N -> uri_unreserved (hex_digit n) = true.
Proof.
  intros Hn. unfold uri_unreserved. rewrite (hex_digit_code n Hn). cbn zeta.
  destruct (N.ltb_spec n 10) as [Hlt | Hge].
  - replace (48 <=? 48 + n)%N with true by (symmetry; apply N.leb_le; lia).
    by replace (48 + n <=? 57)%N with true by (symmetry; apply N.leb_le; lia).
  - replace (65 <=? 55 + n)%N with true by (symmetry; apply N.leb_le; lia).
    replace (55 + n <=? 90)%N with true by (symmetry; apply N.leb_le; lia).
    by rewrite orb_true_r.
Qed.

Lemma hex_digit_inj (n m : N) :
  (n < 16)%N -> (m < 16)%N -> hex_digit n = hex_digit m -> n = m.
Proof.
  intros Hn Hm Heq. apply (f_equal N_of_ascii) in Heq.
  rewrite (hex_digit_code n Hn), (hex_digit_code m Hm) in Heq.
  destruct (N.ltb_spec n 10), (N.ltb_spec m 10); lia.
Qed.

Lemma code_nibbles (c : ascii) :
  (N_of_ascii c / 16 < 16)%N /\ (N_of_ascii c mod 16 < 16)%N.
Proof.
  pose proof (N_ascii_bounded c) as Hc. split.
  - apply N.Div0.div_lt_upper_bound. lia.
  - apply N.mod_lt. lia.
Qed.

Lemma percent_not_unreserved : uri_unreserved "%" = false.
Proof. reflexivity. Qed.

Lemma cookie_safe_not_separator (c : ascii) :
  cookie_safe c = true -> negb (cookie_separator c) = true.
Proof. destruct c as [[] [] [] [] [] [] [] []]; by vm_compute. Qed.

Lemma encodeURIComponent_safe (s : string) :
  every cookie_safe (encodeURIComponent s) = true.
Proof.
  induction s as [| c s IH]; [done |]. cbn [encodeURIComponent].
  destruct (uri_unreserved c) eqn:Hc; cbn [every].
  - unfold cookie_safe at 1. by rewrite Hc, IH.
  - destruct (code_nibbles c) as [Hhi Hlo].
    unfold cookie_safe at 2 3.
    by rewrite (hex_digit_unreserved _ Hhi), (hex_digit_unreserved _ Hlo), IH.
Qed.

(** X6.  The cookie value [setCookie] writes is made of unreserved
    characters and [%] only, so it never contains a character that ends
    or splits a cookie ([;], [,], [=], space, double quote, backslash);
    and a token made of unreserved characters only, such as a JWT, is
    written to the cookie as it is. *)
Theorem encodeURIComponent_cookie_safe (s : string) :
  every cookie_safe (encodeURIComponent s) = true
  /\ every (fun c => negb (cookie_separator c)) (encodeURIComponent s) = true
  /\ (every uri_unreserved s = true -> encodeURIComponent s = s).
Proof.
  split; [apply encodeURIComponent_safe |]. split.
  - apply (every_impl cookie_safe); [apply cookie_safe_not_separator |].
    apply encodeURIComponent_safe.
  - induction s as [| c s IH]; [done |]. cbn.
    intros [Hc Hs]%andb_true_iff. by rewrite Hc, (IH Hs).
Qed.

(** X7.  [encodeURIComponent] is injective: two tokens with the same
    cookie value are the same token. *)
Theorem encodeURIComponent_inj (s1 s2 : string) :
  encodeURIComponent s1 = encodeURIComponent s2 -> s1 = s2.
Proof.
  revert s2. induction s1 as [| c1 s1 IH]; intros [| c2 s2];
    cbn [encodeURIComponent].
  - done.
  - by destruct (uri_unreserved c2).
  - by destruct (uri_unreserved c1).
  - destruct (uri_unreserved c1) eqn:H1, (uri_unreserved c2) eqn:H2.
    + intros [= -> Hrest]. by rewrite (IH s2 Hrest).
    + intros [= -> _]. by rewrite percent_not_unreserved in H1.
    + intros [= <- _]. by rewrite percent_not_unreserved in H2.
    + intros [= Hhi Hlo Hrest].
      destruct (code_nibbles c1) as [Hhi1 Hlo1].
      destruct (code_nibbles c2) as [Hhi2 Hlo2].
      apply hex_digit_inj in Hhi; [| done | done].
      apply hex_digit_inj in Hlo; [| done | done].
      assert (N_of_ascii c1 = N_of_ascii c2) as Hcode.
      { rewrite (N.div_mod' (N_of_ascii c1) 16), (N.div_mod' (N_of_ascii c2) 16).
        by rewrite Hhi, Hlo. }
      apply (f_equal ascii_of_N) in Hcode.
      rewrite !ascii_N_embedding in Hcode. subst c2.
      by rewrite (IH s2 Hrest).
Qed.

End TokenLaws.

(** ** The route gate, further *)

Module GateLaws.
Import Cookies Token Text Routes Gate LoginUrl Navigation TokenSync Samples.
Import GateProps TokenLaws.

Lemma login_is_public : isPublicPath LOGIN_PATH = true.
Proof. reflexivity. Qed.

Lemma isLoginPath_eq (p : string) : isLoginPath p = true <-> p = LOGIN_PATH.
Proof. apply String.eqb_eq. Qed.

(** X8.  Every redirect of the gate stays on the origin of the request
    and leads to a path that starts with [/].  There are two kinds: from
    a protected path, without a token, to the login path with the
    original path as the only parameter; and from the login path, with a
    token, to a URL that no longer carries the callback parameter.  A
    public path other than the login path is never redirected. *)
Theorem middleware_redirects (req : NextRequest) (to : URL) :
  middleware req = redirect to ->
  let p := pathname (nextUrl req) in
  let token := cookie_value_of AUTH_COOKIE_NAME req in
  origin to = origin (nextUrl req)
  /\ startsWith (pathname to) "/" = true
  /\ ((isPublicPath p = false /\ truthy_str token = false
       /\ pathname to = LOGIN_PATH
       /\ searchParams to = [(CALLBACK_URL_PARAM, p)])
      \/ (p = LOGIN_PATH /\ truthy_str token = true
          /\ searchParams_get CALLBACK_URL_PARAM (searchParams to) = None)).
Proof.
  unfold middleware. cbn zeta.
  destruct (isPublicPath (pathname (nextUrl req))) eqn:Hpublic.
  - destruct (truthy_str (cookie_value_of AUTH_COOKIE_NAME req)) eqn:Htoken;
      [| done].
    destruct (isLoginPath (pathname (nextUrl req))) eqn:Hlogin; [| done].
    intros [= <-]. cbn. split; [done |].
    split; [apply redirectTarget_starts_with_slash |]. right.
    split; [by apply isLoginPath_eq |]. split; [done |].
    apply searchParams_get_delete.
  - destruct (truthy_str (cookie_value_of AUTH_COOKIE_NAME req)) eqn:Htoken;
      [done |].
    intros [= <-]. cbn. split; [done |]. split; [done |]. by left.
Qed.

Lemma settle_1 (req : NextRequest) :
  middleware req = next -> forall n, settle (S n) req = Some (nextUrl req).
Proof. intros Hnext n. cbn. by rewrite Hnext. Qed.

Lemma settle_step (req : NextRequest) (to : URL) (n : nat) :
  middleware req = redirect to ->
  settle (S n) req = settle n (follow (cookies req) to).
Proof. intros Hred. cbn. by rewrite Hred. Qed.

(** X9.  The gate never loops: following its redirects with the same
    cookies ends in a rendered page within three requests, on the origin
    of the first request.  Without a token a protected path ends on the
    login page; with a token no request ends on the login page. *)
Theorem gate_settles (req : NextRequest) :
  let p := pathname (nextUrl req) in
  let token := truthy_str (cookie_value_of AUTH_COOKIE_NAME req) in
  exists final,
    settle 3 req = Some final
    /\ origin final = origin (nextUrl req)
    /\ (token = false -> isPublicPath p = false -> pathname final = LOGIN_PATH)
    /\ (token = true -> pathname final <> LOGIN_PATH).
Proof.
  cbn zeta.
  destruct (truthy_str (cookie_value_of AUTH_COOKIE_NAME req)) eqn:Htoken.
  - (* with a token *)
    destruct (String.eqb_spec (pathname (nextUrl req)) LOGIN_PATH)
      as [Hlogin | Hother].
    + rewrite (settle_step req _ 2 (middleware_login_with_token req Hlogin Htoken)).
      set (to := {| origin := _; pathname := _; searchParams := _ |}).
      assert (truthy_str (cookie_value_of AUTH_COOKIE_NAME
                            (follow (cookies req) to)) = true) as Htoken'
        by exact Htoken.
      destruct (String.eqb_spec (pathname to) LOGIN_PATH) as [Hagain | Hleft].
      * rewrite (settle_step _ _ 1
                   (middleware_login_with_token (follow (cookies req) to)
                      Hagain Htoken')).
        cbn [follow nextUrl searchParams]. subst to. cbn [searchParams].
        rewrite searchParams_get_delete. cbn.
        unfold cookie_value_of in Htoken. cbn. unfold cookie_value_of. cbn.
        rewrite Htoken. cbn. eexists. split; [done |]. by cbn.
      * destruct (isPublicPath (pathname to)) eqn:Hpublic.
        -- rewrite (settle_1 _ (middleware_public_asset
                                  (follow (cookies req) to) Hpublic Hleft)).
           eexists. split; [done |]. by cbn.
        -- rewrite (settle_1 _ (middleware_protected_with_token
                                  (follow (cookies req) to) Hpublic Htoken')).
           eexists. split; [done |]. by cbn.
    + destruct (isPublicPath (pathname (nextUrl req))) eqn:Hpublic.
      * rewrite (settle_1 _ (middleware_public_asset req Hpublic Hother)).
        eexists. split; [done |]. by cbn.
      * rewrite (settle_1 _ (middleware_protected_with_token req Hpublic Htoken)).
        eexists. split; [done |]. by cbn.
  - (* without a token *)
    destruct (isPublicPath (pathname (nextUrl req))) eqn:Hpublic.
    + assert (middleware req = next) as Hnext.
      { unfold middleware. by rewrite Hpublic, Htoken. }
      rewrite (settle_1 _ Hnext). eexists. split; [done |]. by cbn.
    + rewrite (settle_step req _ 2
                 (middleware_protected_without_token req Hpublic Htoken)).
      rewrite settle_1.
      * eexists. split; [done |]. by cbn.
      * apply middleware_login_without_token; [done | exact Htoken].
Qed.

(** X10.  The way back after login.  A request without a token for a
    protected path [p] is sent to the login page with [p] as callback;
    when that login URL is requested with a token, the gate redirects to
    [p] on the same origin, and the request for [p] passes.  The query of
    the first request is not carried along: the final URL has none. *)
Theorem gate_returns_to_path (req : NextRequest) (jar : list (string * string)) :
  let p := pathname (nextUrl req) in
  isPublicPath p = false ->
  startsWith p "/" = true ->
  truthy_str (cookie_value_of AUTH_COOKIE_NAME req) = false ->
  truthy_str (searchParams_get AUTH_COOKIE_NAME jar) = true ->
  exists login_url,
    middleware req = redirect login_url
    /\ middleware (follow jar login_url)
       = redirect {| origin := origin (nextUrl req); pathname := p;
                     searchParams := [] |}
    /\ middleware (follow jar {| origin := origin (nextUrl req);
                                 pathname := p; searchParams := [] |})
       = next.
Proof.
  cbn zeta. intros Hpublic Hslash Hnone Htoken.
  eexists. split; [by apply middleware_protected_without_token |]. split.
  - rewrite middleware_login_with_token; [| done | exact Htoken]. cbn.
    by rewrite Hslash, (startsWith_slash_nonempty _ Hslash).
  - by apply middleware_protected_with_token.
Qed.

Lemma form_urlencode_safe (s : string) :
  every query_safe (form_urlencode s) = true.
Proof.
  induction s as [| c s IH]; [done |]. cbn [form_urlencode].
  destruct (Ascii.eqb c " "); [by cbn; rewrite IH |].
  destruct (form_safe c) eqn:Hc; cbn [every].
  - unfold query_safe at 1. by rewrite Hc, IH.
  - destruct (code_nibbles c) as [Hhi Hlo].
    assert (forall n, (n < 16)%N -> query_safe (hex_digit n) = true) as Hhex.
    { intros n Hn. unfold query_safe, form_safe.
      rewrite (hex_digit_code n Hn). cbn zeta.
      destruct (N.ltb_spec n 10).
      - replace (48 <=? 48 + n)%N with true by (symmetry; apply N.leb_le; lia).
        by replace (48 + n <=? 57)%N with true
          by (symmetry; apply N.leb_le; lia).
      - replace (65 <=? 55 + n)%N with true by (symmetry; apply N.leb_le; lia).
        replace (55 + n <=? 90)%N with true by (symmetry; apply N.leb_le; lia).
        by rewrite !orb_true_r. }
    by rewrite (Hhex _ Hhi), (Hhex _ Hlo), IH.
Qed.

Lemma query_safe_not_separator (c : ascii) :
  query_safe c = true -> negb (query_separator c) = true.
Proof. destruct c as [[] [] [] [] [] [] [] []]; by vm_compute. Qed.

Lemma buildLoginUrl_relative (s : string) :
  startsWith s "/" = true ->
  buildLoginUrl (Some s) = "/login?callbackUrl=" +:+ form_urlencode s.
Proof.
  intros Hs. unfold buildLoginUrl.
  change (default EmptyString (Some s)) with s. cbn [truthy_str].
  by rewrite Hs, (startsWith_slash_nonempty s Hs).
Qed.

Lemma buildLoginUrl_other (v : option string) :
  v = None \/ (exists s, v = Some s /\ startsWith s "/" = false) ->
  buildLoginUrl v = LOGIN_PATH.
Proof.
  unfold buildLoginUrl. intros [-> | (s & -> & Hs)]; [done |].
  change (default EmptyString (Some s)) with s.
  by rewrite Hs, orb_true_r.
Qed.

(** X11.  [buildLoginUrl] returns the bare login path exactly when the
    callback is missing, empty or does not start with [/]; otherwise it
    returns [/login?callbackUrl=] followed by the encoded callback, in
    which no [&], [=], [#] or [?] occurs, so the URL has that one
    parameter.  The callbacks it keeps are the ones the redirect after
    login keeps. *)
Theorem buildLoginUrl_cases (v : option string) :
  (buildLoginUrl v = LOGIN_PATH
   <-> (v = None \/ exists s, v = Some s /\ startsWith s "/" = false))
  /\ (forall s, v = Some s -> startsWith s "/" = true ->
        buildLoginUrl v = "/login?callbackUrl=" +:+ form_urlencode s
        /\ every (fun c => negb (query_separator c)) (form_urlencode s) = true
        /\ redirectTarget v = s).
Proof.
  split.
  - split; [| apply buildLoginUrl_other].
    destruct v as [s|]; [| by left].
    destruct (startsWith s "/") eqn:Hs; [| by eauto].
    rewrite (buildLoginUrl_relative s Hs). intros Heq.
    apply (String.app_inj "/login" _ EmptyString) in Heq.
    cbv [append] in Heq. discriminate Heq.
  - intros s -> Hs. split; [by apply buildLoginUrl_relative | split].
    + apply (every_impl query_safe); [apply query_safe_not_separator |].
      apply form_urlencode_safe.
    + by apply redirectTarget_relative.
Qed.

End GateLaws.

(** ** The API client, further *)

Module ClientLaws.
Import Token Text Client ModalSave Samples.
Import ClientProps AuthProps.

Lemma strip_trailing_slashes_spec (s : string) :
  ends_with "/" (strip_trailing_slashes s) = false
  /\ exists n, s = strip_trailing_slashes s +:+ replicate_char n "/".
Proof.
  induction s as [| c s [IHend [n IHeq]]]; [split; [done | by exists 0] |].
  cbn [strip_trailing_slashes].
  destruct (Ascii.eqb_spec c "/") as [-> | Hc];
    destruct (strip_trailing_slashes s) as [| c' s'] eqn:Hs; cbn.
  - split; [done |]. exists (S n). by rewrite IHeq.
  - split; [exact IHend |]. exists n. rewrite IHeq at 1. done.
  - split; [by apply Ascii.eqb_neq |]. exists n. rewrite IHeq at 1. done.
  - split; [exact IHend |]. exists n. rewrite IHeq at 1. done.
Qed.

Lemma strip_trailing_slashes_fixed (s : string) :
  ends_with "/" s = false -> strip_trailing_slashes s = s.
Proof.
  induction s as [| c s IH]; [done |]. cbn [strip_trailing_slashes].
  destruct s as [| c' s'].
  - cbn. intros ->. done.
  - intros Hend. change (ends_with "/" (String c' s') = false) in Hend.
    rewrite (IH Hend). cbn. by rewrite andb_false_r.
Qed.

Section WithJson.
Context {rt : JsonRuntime}.

(** X12.  The base URL of the API never ends with a slash, whatever the
    environment variable holds: [replace(/\/+$/, "")] removes a run of
    trailing slashes and nothing else, and a value without a trailing
    slash is kept as it is. *)
Theorem API_BASE_URL_no_trailing_slash :
  ends_with "/" API_BASE_URL = false
  /\ (forall v, NEXT_PUBLIC_API_BASE_URL = Some v ->
        exists n, v = API_BASE_URL +:+ replicate_char n "/")
  /\ (forall v, NEXT_PUBLIC_API_BASE_URL = Some v ->
        ends_with "/" v = false -> API_BASE_URL = v).
Proof.
  unfold API_BASE_URL.
  destruct NEXT_PUBLIC_API_BASE_URL as [v|]; [| done].
  destruct (strip_trailing_slashes_spec v) as [Hend Hrun].
  split; [done |]. split.
  - by intros ? [= <-].
  - intros ? [= <-]. apply strip_trailing_slashes_fixed.
Qed.

Lemma apiFetch_expecting (P : string -> RequestInit -> bool) (net : network)
    (path : string) (o : RequestOptions) (e : env) :
  (forall url init,
     init_headers init
     = default ∅ (headers o)
       ∪ (if truthy_str (if anonymous o then None else getToken e)
          then {[ "Authorization" :=
                    "Bearer " +:+ default EmptyString
                                    (if anonymous o then None else getToken e) ]}
          else ∅)
       ∪ (if isFormData o then ∅
          else {[ "Content-Type" := "application/json" ]}) ->
     init_method init = default "GET" (method o) ->
     init_credentials init = (if anonymous o then "omit" else "include") ->
     init_body init
     = match payload o with
       | Some b => Some (if isFormData o then FormDataBody b
                         else TextBody (JSON_stringify b))
       | None => None
       end ->
     url = buildApiUrl path ->
     P url init = true) ->
  apiFetch (expecting P net) path o e = apiFetch net path o e.
Proof.
  intros HP. unfold apiFetch, bind, gets, fetch, expecting. cbn.
  by rewrite HP.
Qed.

(** X13.  What the client sends.  A request made with [anonymous] and no
    headers of its own never carries an [Authorization] header and omits
    credentials, whatever token is stored; the login request is one of
    these.  A request that is not anonymous, made while a non-empty token
    [t] is stored, carries [Authorization: Bearer t] and includes
    credentials. *)
Theorem apiFetch_credentials (net : network) (path : string)
    (o : RequestOptions) (e : env) :
  (anonymous o = true -> headers o = None ->
   apiFetch (expecting without_credentials net) path o e
   = apiFetch net path o e)
  /\ (forall credentials remember,
        AuthApi.login (expecting without_credentials net) credentials
          remember e
        = AuthApi.login net credentials remember e)
  /\ (forall t, anonymous o = false -> headers o = None ->
        getToken e = Some t -> t <> EmptyString ->
        apiFetch (expecting (with_bearer t) net) path o e
        = apiFetch net path o e).
Proof.
  split; [| split].
  - intros Hanon Hheaders. apply apiFetch_expecting.
    intros url init Hh _ Hc _ _. unfold without_credentials.
    rewrite Hh, Hc, Hanon, Hheaders. cbn.
    rewrite bool_decide_eq_true_2; [done |].
    destruct (isFormData o); by simplify_map_eq.
  - intros credentials remember. unfold AuthApi.login, bind.
    rewrite apiFetch_expecting; [done |].
    intros url init Hh _ Hc _ _. unfold without_credentials.
    rewrite Hh, Hc. cbn. rewrite bool_decide_eq_true_2; [done |].
    by simplify_map_eq.
  - intros t Hanon Hheaders Htoken Hne. apply apiFetch_expecting.
    intros url init Hh _ Hc _ _. unfold with_bearer.
    rewrite Hh, Hc, Hanon, Hheaders, Htoken. cbn.
    assert (nonempty t = true) as ->.
    { unfold nonempty. by apply negb_true_iff, String.eqb_neq. }
    rewrite bool_decide_eq_true_2; [done |].
    destruct (isFormData o); by simplify_map_eq.
Qed.

(** X14.  [saveWithModalMode] in edit mode fails before any request when
    the payload has no [id], or has the [id] [0] or [""]: it throws a
    plain [Error] with [Missing id for edit operation.], whatever the
    network, and leaves the storage as it is.  With an [id] it sends a
    [PUT] with the JSON text of the payload to the edit endpoint of that
    [id]; in add mode it sends a [POST] to the add endpoint and does not
    look at [id]. *)
Theorem saveWithModalMode_routes (net : network) (endpoints : Endpoints)
    (body : json) (e : env) :
  (truthy_opt (get "id" body) = false ->
   saveWithModalMode net EditMode endpoints body e
   = (Threw (JsError "Missing id for edit operation."), e))
  /\ (forall id, get "id" body = Some id -> truthy id = true ->
        saveWithModalMode
          (expecting (json_request "PUT" (buildApiUrl (edit endpoints id)) body)
             net) EditMode endpoints body e
        = saveWithModalMode net EditMode endpoints body e)
  /\ saveWithModalMode
       (expecting (json_request "POST" (buildApiUrl (add endpoints)) body) net)
       AddMode endpoints body e
     = saveWithModalMode net AddMode endpoints body e.
Proof.
  split; [| split].
  - intros Hid. unfold saveWithModalMode. by rewrite Hid.
  - intros id Hid Htruthy. unfold saveWithModalMode. rewrite Hid.
    change (truthy_opt (Some id)) with (truthy id). rewrite Htruthy.
    change (default JNull (Some id)) with id. cbn [negb].
    apply apiFetch_expecting.
    intros url init Hh Hm _ Hb ->. unfold json_request.
    rewrite Hh, Hm, Hb. cbn. rewrite !String.eqb_refl. cbn.
    rewrite bool_decide_eq_true_2; [done |].
    destruct (truthy_str (getToken e)); by simplify_map_eq.
  - unfold saveWithModalMode. apply apiFetch_expecting.
    intros url init Hh Hm _ Hb ->. unfold json_request.
    rewrite Hh, Hm, Hb. cbn. rewrite !String.eqb_refl. cbn.
    rewrite bool_decide_eq_true_2; [done |].
    destruct (truthy_str (getToken e)); by simplify_map_eq.
Qed.

End WithJson.

End ClientLaws.

(** ** Login, logout and session restore, further *)

Module AuthLaws.
Import Cookies Token Text Client Routes AuthContext TokenSync Samples.
Import TokenProps GateProps ClientProps AuthProps TokenLaws.

Section WithJson.
Context {rt : JsonRuntime}.

Lemma getStoredUser_setStoredUser (u : json) (st : storage) :
  JSON_parse (JSON_stringify u) = Some u ->
  (getStoredUser (setStoredUser u (Browser st))).1 = Returned u.
Proof.
  intros Hround.
  destruct u; cbn [setStoredUser]; rewrite getStoredUser_browser; cbn;
    rewrite ?lookup_delete_eq, ?lookup_insert_eq; cbn; by rewrite ?Hround.
Qed.

Lemma checkAuth_run (w : world) :
  checkAuth w
  = (Returned tt,
     {| w_env := w_env w;
        user := if truthy_str (getToken (w_env w))
                then match (getStoredUser (w_env w)).1 with
                     | Returned u => u
                     | Threw _ => JNull
                     end
                else JNull;
        isLoading := false; navigations := navigations w |}).
Proof.
  unfold checkAuth, bind, onEnv, gets. cbn.
  destruct (truthy_str (getToken (w_env w))); cbn; [| done].
  destruct (getStoredUser_cases (w_env w)) as [[v Hv] _]. by rewrite Hv.
Qed.

(** X15.  [checkAuth()] always returns; it ends loading, leaves storage
    and router alone, and sets the user from the storage only: [null]
    without a token (or with an empty one), the stored user otherwise,
    whatever the user was before.  Running it again changes nothing.  With
    an empty stored token the user is [null] while [hasToken()] is true;
    when the provider was loading, as it is on mount, it then reports
    itself authenticated with no user. *)
Theorem checkAuth_restores (w : world) :
  exists w',
    checkAuth w = (Returned tt, w')
    /\ checkAuth w' = (Returned tt, w')
    /\ isLoading w' = false
    /\ w_env w' = w_env w
    /\ navigations w' = navigations w
    /\ (truthy_str (getToken (w_env w)) = false -> user w' = JNull)
    /\ (truthy_str (getToken (w_env w)) = true ->
        (getStoredUser (w_env w)).1 = Returned (user w'))
    /\ (getToken (w_env w) = Some EmptyString ->
        user w' = JNull
        /\ hasToken (w_env w') = true
        /\ (isLoading w = true -> isAuthenticated w' = true)).
Proof.
  eexists. split; [apply checkAuth_run |].
  split; [by rewrite checkAuth_run |]. cbn.
  split; [done |]. split; [done |]. split; [done |].
  split; [by intros -> |]. split.
  - intros ->. destruct (getStoredUser_cases (w_env w)) as [[v Hv] _].
    by rewrite Hv.
  - intros Htoken. unfold isAuthenticated, hasToken. cbn. by rewrite Htoken.
Qed.

Lemma login_outcome_browser (net : network) (credentials : json)
    (options : option LoginOptions) (w w' : world) (st : storage) :
  w_env w = Browser st ->
  login net credentials options w = (Returned tt, w') ->
  exists token,
    truthy token = true /\ truthy (user w') = true
    /\ well_formed (to_string token) = true
    /\ w_env w'
       = setStoredUser (user w')
           (setToken (to_string token) (options ≫= remember) (Browser st)).2
    /\ isLoading w' = isLoading w
    /\ navigations w'
       = redirectTarget (options ≫= redirectTo) :: navigations w.
Proof.
  intros Henv Hrun.
  pose proof (login_outcome net credentials options w) as Hout.
  rewrite Hrun in Hout.
  destruct Hout
    as (response & token & admin & _ & _ & Htoken & _ & Hadmin & Hset & ->).
  cbn [w_env user isLoading navigations]. rewrite Henv in *.
  exists token. split; [done |]. split; [done |].
  split; [by apply (setToken_returns _ (options ≫= remember) st) |].
  by repeat (split; [done |]).
Qed.

(** X16.  A login that returns, in the browser, leaves a complete
    session: the token is in [localStorage] and in the cookie, the two
    agree, the cookie lives 604800 seconds with [remember] set and 86400
    seconds otherwise, the user is set and stored, the provider reports
    itself authenticated, and the router was sent once, to the validated
    target. *)
Theorem login_establishes_session (net : network) (credentials : json)
    (options : option LoginOptions) (w w' : world) (st : storage) :
  w_env w = Browser st ->
  login net credentials options w = (Returned tt, w') ->
  isAuthenticated w' = true
  /\ dual_write (w_env w')
  /\ cookie_max_age <$> authCookie (w_env w')
     = Some (if default false (options ≫= remember)
             then 604800%Z else 86400%Z)
  /\ truthy (user w') = true
  /\ (exists st', w_env w' = Browser st'
                  /\ localStorage st' !! USER_KEY
                     = Some (JSON_stringify (user w')))
  /\ navigations w' = redirectTarget (options ≫= redirectTo) :: navigations w.
Proof.
  intros Henv Hrun.
  destruct (login_outcome_browser net credentials options w w' st Henv Hrun)
    as (token & Htoken & Huser & Hwf & Henv' & _ & Hnav).
  destruct (setToken_browser (to_string token) (options ≫= remember) st Hwf)
    as [Hcookie Hstored].
  cbn zeta in Hcookie, Hstored.
  pose proof (dual_write_setToken (to_string token) (options ≫= remember)
                (Browser st) Hwf) as Hsync.
  split; [| split; [| split; [| split; [| split]]]].
  - unfold isAuthenticated, hasToken.
    by rewrite Henv', getToken_setStoredUser, Hstored.
  - unfold dual_write in *.
    by rewrite Henv', getToken_setStoredUser, authCookie_setStoredUser.
  - rewrite Henv', authCookie_setStoredUser, Hcookie. cbn.
    by destruct (options ≫= remember) as [[]|].
  - done.
  - rewrite Henv', (setToken_browser_state _ _ st Hwf). cbn [snd].
    destruct (user w') eqn:Hu; try done;
      (eexists; split; [reflexivity |]; cbn; apply lookup_insert_eq).
  - done.
Qed.

(** X17.  The session survives a reload.  After a login that returned,
    a provider mounted afresh on the same storage restores the same user
    with [checkAuth()] and reports itself authenticated, when the stored
    token is not empty and [JSON.parse] reads the user back from its
    [JSON.stringify] text. *)
Theorem login_then_reload (net : network) (credentials : json)
    (options : option LoginOptions) (w w' : world) (st : storage) :
  w_env w = Browser st ->
  login net credentials options w = (Returned tt, w') ->
  getToken (w_env w') <> Some EmptyString ->
  JSON_parse (JSON_stringify (user w')) = Some (user w') ->
  exists w'',
    checkAuth (initial (w_env w')) = (Returned tt, w'')
    /\ user w'' = user w'
    /\ isLoading w'' = false
    /\ isAuthenticated w'' = true.
Proof.
  intros Henv Hrun Hnonempty Hround.
  destruct (login_outcome_browser net credentials options w w' st Henv Hrun)
    as (token & Htoken & Huser & Hwf & Henv' & _ & _).
  destruct (setToken_browser (to_string token) (options ≫= remember) st Hwf)
    as [_ Hstored].
  cbn zeta in Hstored.
  assert (getToken (w_env w') = Some (to_string token)) as Hget.
  { by rewrite Henv', getToken_setStoredUser. }
  eexists. split; [apply checkAuth_run |]. cbn.
  assert (truthy_str (getToken (w_env w')) = true) as ->.
  { rewrite Hget. cbn. unfold nonempty. apply negb_true_iff, String.eqb_neq.
    intros Hempty. apply Hnonempty. by rewrite Hget, Hempty. }
  split.
  - rewrite Henv', (setToken_browser_state _ _ st Hwf). cbn [snd].
    by rewrite (getStoredUser_setStoredUser _ _ Hround).
  - split; [done |]. unfold isAuthenticated, hasToken. cbn. by rewrite Hget.
Qed.

(** X18.  A login that fails in transport changes nothing.  When the
    backend answers with a status outside 2xx the login throws the
    [ApiError] of the client, with that status and the parsed body; when
    the request is rejected it throws the rejection; when a 2xx response
    has no truthy [success] or no truthy [token] it throws an [ApiError]
    with status 400.  In all three cases the storage, the user, the
    loading flag and the router are as before. *)
Theorem login_failure_unchanged (net : network) (credentials : json)
    (options : option LoginOptions) (w : world) :
  (forall res, answers net (Resolved res) -> ok res = false ->
     login net credentials options w
     = (Threw (ApiError (error_message (JSON_parse (body res)) res)
                 (status res) (JSON_parse (body res))), w))
  /\ (forall err, answers net (Rejected err) ->
        login net credentials options w = (Threw err, w))
  /\ (forall res response,
        answers net (Resolved res) -> ok res = true ->
        (JSON_parse (body res) = Some response /\ response <> JNull
         \/ (JSON_parse (body res) = None \/ JSON_parse (body res) = Some JNull)
            /\ response = JObj []) ->
        truthy_opt (get "success" response)
        && truthy_opt (get_opt "token" (get "data" response)) = false ->
        exists message,
          login net credentials options w
          = (Threw (ApiError message 400 (Some response)), w)).
Proof.
  split; [| split].
  - intros res Hnet Hok. unfold login, bind, onEnv at 1.
    unfold AuthApi.login, bind.
    rewrite (apiFetch_resolved net _ _ res (w_env w) Hnet), Hok.
    by destruct w.
  - intros err Hnet. unfold login, bind, onEnv at 1.
    unfold AuthApi.login, bind.
    rewrite (apiFetch_rejected net _ _ err (w_env w) Hnet). by destruct w.
  - intros res response Hnet Hok Hbody Hmissing.
    unfold login, bind, onEnv at 1. unfold AuthApi.login, bind.
    rewrite (apiFetch_resolved net _ _ res (w_env w) Hnet), Hok.
    assert (match JSON_parse (body res) with
            | Some JNull | None => JObj []
            | Some v => v
            end = response) as ->.
    { destruct Hbody as [[-> Hnull] | [[-> | ->] ->]]; try done.
      by destruct response. }
    unfold when. rewrite Hmissing. cbn.
    apply andb_false_iff in Hmissing as [-> | ->]; cbn;
      rewrite ?orb_true_r; destruct w; eauto.
Qed.

(** X19.  [logout()] is a local operation: the state it ends in is the
    same for every network, its storage is [clearAuthStorage()] of the
    storage before, and a second [logout()] changes the storage no
    further.  [checkAuth()] after it finds nobody: the user is [null] and
    [hasToken()] is false. *)
Theorem logout_is_local (net net' : network) (w : world) :
  logout net w = logout net' w
  /\ exists w',
       logout net w = (Returned tt, w')
       /\ w_env w' = clearAuthStorage (w_env w)
       /\ w_env (logout net' w').2 = w_env w'
       /\ (exists w'', checkAuth w' = (Returned tt, w'')
                       /\ user w'' = JNull
                       /\ hasToken (w_env w'') = false).
Proof.
  rewrite !logout_returns. split; [done |].
  eexists. split; [done |]. cbn [w_env user isLoading navigations].
  rewrite removeToken_twice. fold (clearAuthStorage (w_env w)).
  split; [done |]. split.
  - rewrite logout_returns. cbn [snd w_env]. rewrite removeToken_twice.
    apply clearAuthStorage_twice.
  - eexists. split; [apply checkAuth_run |]. cbn.
    unfold hasToken, clearAuthStorage. cbn.
    by rewrite getToken_setStoredUser, getToken_removeToken.
Qed.

End WithJson.

End AuthLaws.

(** ** The mutation callbacks, by outcome *)

Module CallbackLaws.
Import Token Client Swr Hooks Callbacks.
Import ClientProps AuthProps SwrProps HooksProps.

Section WithJson.
Context {rt : JsonRuntime}.
Import News Pdf.

(** A callback whose API call threw: the error is wrapped and recorded,
    nothing else changes. *)
Lemma callback_threw {A} (fallback : string) (net : network) (path : string)
    (o : RequestOptions) (k : json -> M hook A) (h : hook) (e : exn) :
  apiFetch net path o (h_env h) = (Threw e, h_env h) ->
  mutation fallback (bind (onEnv (apiFetch net path o)) k) h
  = (Threw (asError fallback e), failed (asError fallback e) h).
Proof.
  intros Hcall. rewrite mutation_run. unfold bind, onEnv, started.
  cbn [h_env cache pending failure]. by rewrite Hcall.
Qed.

Lemma asError_Error (fallback : string) (e : exn) :
  instanceof_Error (asError fallback e) = true.
Proof. by destruct e. Qed.

(** The outcome of a callback whose body is one API call followed by
    cache mutations [after] and a result. *)
Lemma callback_run {A} (fallback : string) (net : network) (path : string)
    (o : RequestOptions) (after : gmap string entry -> gmap string entry)
    (result : json -> A) (k : json -> M hook A) (h : hook) :
  (forall v e c p f,
     k v {| h_env := e; cache := c; pending := p; failure := f |}
     = (Returned (result v),
        {| h_env := e; cache := after c; pending := p; failure := f |})) ->
  mutation fallback (bind (onEnv (apiFetch net path o)) k) h
  = match apiFetch net path o (h_env h) with
    | (Returned v, _) =>
        (Returned (result v),
         {| h_env := h_env h; cache := after (cache h); pending := false;
            failure := None |})
    | (Threw e, _) =>
        (Threw (asError fallback e), failed (asError fallback e) h)
    end.
Proof.
  intros Hk. rewrite mutation_run. unfold bind, onEnv, started.
  cbn [h_env cache pending failure].
  destruct (apiFetch_settles net path o (h_env h)) as [[v | e] ->]; [| done].
  by rewrite Hk.
Qed.

Lemma settles_flags_run {A} (fallback : string) (net : network) (path : string)
    (o : RequestOptions) (after : gmap string entry -> gmap string entry)
    (result : json -> A) (k : json -> M hook A) :
  (forall v e c p f,
     k v {| h_env := e; cache := c; pending := p; failure := f |}
     = (Returned (result v),
        {| h_env := e; cache := after c; pending := p; failure := f |})) ->
  settles_flags (mutation fallback (bind (onEnv (apiFetch net path o)) k)).
Proof.
  intros Hk h. rewrite (callback_run fallback net path o after result k h Hk).
  destruct (apiFetch net path o (h_env h)) as [[v | e] e']; cbn; [done |].
  split; [done |]. split; [done |]. split; [apply asError_Error | done].
Qed.

Lemma rethrows_run {A} (fallback : string) (path : string)
    (o : RequestOptions) (k : network -> json -> M hook A) :
  rethrows fallback
    (fun net => mutation fallback (bind (onEnv (apiFetch net path o)) (k net))).
Proof.
  intros net h. split; [| split].
  - intros e Hnet He.
    rewrite (callback_threw fallback net path o (k net) h e)
      by by apply apiFetch_rejected.
    unfold asError. by rewrite He.
  - intros v Hnet.
    by rewrite (callback_threw fallback net path o (k net) h (NonError v))
      by by apply apiFetch_rejected.
  - intros res Hnet Hok. cbn zeta.
    rewrite (callback_threw fallback net path o (k net) h
               (ApiError (error_message (JSON_parse (body res)) res)
                  (status res) (JSON_parse (body res)))); [done |].
    by rewrite (apiFetch_resolved net path o res _ Hnet), Hok.
Qed.

Lemma confined_run {A} (touched : string -> bool) (fallback : string)
    (net : network) (path : string) (o : RequestOptions)
    (after : gmap string entry -> gmap string entry)
    (result : json -> A) (k : json -> M hook A) :
  (forall v e c p f,
     k v {| h_env := e; cache := c; pending := p; failure := f |}
     = (Returned (result v),
        {| h_env := e; cache := after c; pending := p; failure := f |})) ->
  (forall c key, touched key = false -> after c !! key = c !! key) ->
  confined touched (mutation fallback (bind (onEnv (apiFetch net path o)) k)).
Proof.
  intros Hk Hafter h.
  rewrite (callback_run fallback net path o after result k h Hk).
  destruct (apiFetch net path o (h_env h)) as [[v | e] e']; cbn; [| done].
  split; [done |]. intros key Hkey. by apply Hafter.
Qed.

End WithJson.

End CallbackLaws.

Module CallbackOutcomes.
Import Token Client Swr Hooks Callbacks Keys.
Import ClientProps AuthProps SwrProps HooksProps CallbackLaws.

Section WithJson.
Context {rt : JsonRuntime}.
Import News Pdf.

(** X20.  The two state cells of a mutation hook after a call, for each
    of the seven callbacks and whatever the network does: the pending flag
    is off again; the error cell is [null] when the call returned (an
    error of an earlier call is gone) and holds the thrown value when it
    threw; what is thrown is always an [Error]; a call that threw left
    the cache as it was. *)
Theorem callbacks_settle_flags (net : network) (data : NewsPayload)
    (pdata : PDFPayload) (id : ident) (status : bool) :
  settles_flags (createNews net data)
  /\ settles_flags (updateNews net id data)
  /\ settles_flags (deleteNews net id)
  /\ settles_flags (createPdf net pdata)
  /\ settles_flags (updatePdf net id pdata)
  /\ settles_flags (deletePdf net id)
  /\ settles_flags (updateStatus net id status).
Proof.
  split_and!; eapply settles_flags_run; intros v e c p f;
    unfold bind, globalMutate, modify, ret;
    cbn [h_env cache pending failure]; reflexivity.
Qed.

(** X21.  What a callback throws.  When the request is rejected with an
    [Error] the callback throws that error; when it is rejected with
    anything else it throws [new Error(fallback)] with the message of the
    hook; when the backend answers outside 2xx it throws the [ApiError] of
    the client, with the status and the parsed body.  Each time the hook
    is left with the error recorded, the pending flag off, and storage
    and cache as they were. *)
Theorem callbacks_rethrow (data : NewsPayload) (pdata : PDFPayload)
    (id : ident) (status : bool) :
  rethrows "Failed to create news" (fun net => createNews net data)
  /\ rethrows "Failed to update news" (fun net => updateNews net id data)
  /\ rethrows "Failed to delete news" (fun net => deleteNews net id)
  /\ rethrows "Failed to create PDF" (fun net => createPdf net pdata)
  /\ rethrows "Failed to update PDF" (fun net => updatePdf net id pdata)
  /\ rethrows "Failed to delete PDF" (fun net => deletePdf net id)
  /\ rethrows "Failed to update PDF status"
       (fun net => updateStatus net id status).
Proof. split_and!; apply rethrows_run. Qed.

Lemma mutate_list_frame (f : string -> bool) (c : gmap string entry)
    (key : string) :
  f key = false -> mutate (Matching f) None revalidating c !! key = c !! key.
Proof. apply lookup_mutate_matching_miss. Qed.

Lemma mutate_single_frame (f : string -> bool) (single : string)
    (o : MutatorOptions) (c : gmap string entry) (key : string) :
  f key || String.eqb key single = false ->
  mutate (Matching f) None revalidating (mutate (Key single) None o c) !! key
  = c !! key.
Proof.
  intros [Hf Hne]%orb_false_iff. apply String.eqb_neq in Hne.
  rewrite lookup_mutate_matching_miss by done.
  by apply lookup_mutate_key_ne.
Qed.

Lemma other_keys_untouched (o : option ident) (params : option ListParams)
    (id : ident) :
  news_touched o (getPdfListKey params) = false
  /\ news_touched o (pdfSingleKey id) = false
  /\ pdf_touched o (getNewsListKey params) = false
  /\ pdf_touched o (newsSingleKey id) = false.
Proof.
  unfold news_touched, pdf_touched, getPdfListKey, getNewsListKey, listKey.
  destruct (truthy_num (params ≫= page)), (truthy_num (params ≫= limit)),
    (truthy_str (params ≫= search)), o; split_and!; reflexivity.
Qed.

(** X22.  What a callback never touches.  Whatever its outcome, a
    callback leaves the token storage alone (a failed call, also one
    answered with 401, logs nobody out) and changes no cache entry other
    than the list keys of its resource and the single-item key of the
    record it updates or deletes.  So a news callback changes no PDF
    entry and a PDF callback no news entry, and neither changes the
    entries of the dashboard ([dashboard-stats], [dashboard-activities])
    or of the logo: these are served from the cache as before. *)
Theorem callbacks_confined (net : network) (data : NewsPayload)
    (pdata : PDFPayload) (id : ident) (status : bool) :
  confined (news_touched None) (createNews net data)
  /\ confined (news_touched (Some id)) (updateNews net id data)
  /\ confined (news_touched (Some id)) (deleteNews net id)
  /\ confined (pdf_touched None) (createPdf net pdata)
  /\ confined (pdf_touched (Some id)) (updatePdf net id pdata)
  /\ confined (pdf_touched (Some id)) (deletePdf net id)
  /\ confined (pdf_touched None) (updateStatus net id status)
  /\ (forall o params id',
        news_touched o (getPdfListKey params) = false
        /\ news_touched o (pdfSingleKey id') = false
        /\ pdf_touched o (getNewsListKey params) = false
        /\ pdf_touched o (newsSingleKey id') = false)
  /\ (forall o key,
        key ∈ [DASHBOARD_STATS_KEY; DASHBOARD_ACTIVITIES_KEY; LOGO_SWR_KEY] ->
        news_touched o key = false /\ pdf_touched o key = false).
Proof.
  split_and!.
  1-7: eapply confined_run;
    [ intros v e c p f; unfold bind, globalMutate, modify, ret;
      cbn [h_env cache pending failure]; reflexivity
    | intros c key Hkey; unfold news_touched, pdf_touched in Hkey;
      first [ apply mutate_single_frame; exact Hkey
            | apply mutate_list_frame;
              by rewrite orb_false_r in Hkey ] ].
  - apply other_keys_untouched.
  - intros o key Hkey. rewrite !elem_of_cons, elem_of_nil in Hkey.
    destruct Hkey as [-> | [-> | [-> | []]]]; by destruct o.
Qed.

End WithJson.

End CallbackOutcomes.

(** ** Cache keys and list requests *)

Module KeyLaws.
Import Token Text Client Swr Hooks LoginUrl Keys.
Import News Pdf.
Import HooksProps TokenLaws.













Lemma form_safe_space : form_safe " " = false.
Proof. reflexivity. Qed.











End KeyLaws.

(** ** The settings hooks *)

Module SettingsLaws.
Import Token Client Swr Hooks Callbacks Settings.
Import ClientProps AuthProps HooksProps CallbackLaws.

Section WithJson.
Context {rt : JsonRuntime}.

(** The frame of a deprecated hook, by the outcome of its body. *)
Lemma legacy_mutation_run {A} (fallback : string) (body : M hook A)
    (h : hook) :
  legacy_mutation fallback body h
  = match body (started h) with
    | (Returned a, h1) =>
        (Returned a, {| h_env := h_env h1; cache := cache h1;
                        pending := false; failure := failure h1 |})
    | (Threw err, h1) =>
        (Threw err,
         {| h_env := h_env h1; cache := cache h1; pending := false;
            failure := Some (asError fallback err) |})
    end.
Proof.
  unfold legacy_mutation, bind, try_finally, try_catch, setPending, setFailure,
    modify, throw. cbn. fold (started h).
  by destruct (body (started h)) as [[a | err] h1].
Qed.

Lemma legacy_threw {A} (fallback : string) (net : network) (path : string)
    (o : RequestOptions) (k : json -> M hook A) (h : hook) (e : exn) :
  apiFetch net path o (h_env h) = (Threw e, h_env h) ->
  legacy_mutation fallback (bind (onEnv (apiFetch net path o)) k) h
  = (Threw e, failed (asError fallback e) h).
Proof.
  intros Hcall. rewrite legacy_mutation_run. unfold bind, onEnv, started.
  cbn [h_env cache pending failure]. by rewrite Hcall.
Qed.

Lemma throws_original_run {A} (fallback : string) (path : string)
    (o : RequestOptions) (k : network -> json -> M hook A) :
  throws_original fallback
    (fun net =>
       legacy_mutation fallback (bind (onEnv (apiFetch net path o)) (k net))).
Proof.
  intros net h. split.
  - intros e Hnet.
    by rewrite (legacy_threw fallback net path o (k net) h e)
      by by apply apiFetch_rejected.
  - intros res Hnet Hok. cbn zeta.
    rewrite (legacy_threw fallback net path o (k net) h
               (ApiError (error_message (JSON_parse (body res)) res)
                  (status res) (JSON_parse (body res)))); [done |].
    by rewrite (apiFetch_resolved net path o res _ Hnet), Hok.
Qed.

(** X24.  The settings hooks and what they throw.  [changePassword]
    behaves as the news and PDF callbacks do: what it throws is an
    [Error] (the rejection itself when that is one, [new Error(..)] with
    the message of the hook otherwise, the [ApiError] of the client for a
    response outside 2xx), and the same value is in its error cell.  The
    three deprecated callbacks throw what the client threw as it is: after
    a rejection with a value that is no [Error] the caller catches that
    value while the error cell holds an [Error] with the message of the
    hook.  Every one of them leaves storage and cache alone when it
    throws. *)
Theorem settings_callbacks_throw (payload : json) :
  rethrows "Failed to change password"
    (fun net => changePassword net payload)
  /\ (forall net, settles_flags (changePassword net payload))
  /\ throws_original "Failed to update profile"
       (fun net => updateProfile net payload)
  /\ throws_original "Failed to update logo"
       (fun net => updateLogo net payload)
  /\ throws_original "Failed to update password"
       (fun net => updatePassword net payload)
  /\ (forall net v h,
        answers net (Rejected (NonError v)) ->
        (updateProfile net payload h).1 = Threw (NonError v)
        /\ failure (updateProfile net payload h).2
           = Some (JsError "Failed to update profile")).
Proof.
  split_and!.
  - apply rethrows_run.
  - intros net. eapply settles_flags_run. intros v e c p f.
    unfold ret. instantiate (1 := fun c => c). instantiate (1 := fun v => v).
    reflexivity.
  - apply throws_original_run.
  - apply throws_original_run.
  - apply throws_original_run.
  - intros net v h Hnet. unfold updateProfile, apiUpdateProfile.
    rewrite (legacy_threw "Failed to update profile" net PROFILE_BASE _ _ h
               (NonError v)) by by apply apiFetch_rejected.
    done.
Qed.

End WithJson.

End SettingsLaws.

(** ** Image URLs *)

Module ImageLaws.
Import Client Images.
Import HooksProps KeyLaws.

Lemma prefix_app_l (p s t : string) :
  String.prefix p s = true -> String.prefix p (s +:+ t) = true.
Proof.
  revert s. induction p as [| c p IH]; intros s.
  - intros _. by destruct (s +:+ t).
  - destruct s as [| d s]; [done |].
    change (String d s +:+ t) with (String d (s +:+ t)). cbn.
    destruct (ascii_dec c d); [apply IH | done].
Qed.

Lemma is_full_url_app (s t : string) :
  is_full_url s = true -> is_full_url (s +:+ t) = true.
Proof.
  unfold is_full_url, startsWith.
  intros [H | H]%orb_true_iff; rewrite (prefix_app_l _ s t H); [done |].
  apply orb_true_r.
Qed.

Lemma is_full_url_nonempty (s : string) :
  is_full_url s = true -> nonempty s = true.
Proof. by destruct s. Qed.

Lemma buildImageUrl_full (base directory p : string) :
  is_full_url p = true -> buildImageUrl base directory p = p.
Proof.
  intros Hp. unfold buildImageUrl.
  by rewrite (is_full_url_nonempty p Hp), Hp.
Qed.

Lemma buildImageUrl_relative (base directory p : string) :
  is_full_url base = true -> nonempty p = true ->
  is_full_url (buildImageUrl base directory p) = true.
Proof.
  intros Hbase Hp. unfold buildImageUrl. rewrite Hp. cbn [negb].
  destruct (is_full_url p) eqn:Hfull; [done |].
  by apply is_full_url_app.
Qed.

(** X25.  The image URLs.  Each of the three builders returns the empty
    text for an empty path and a full URL ([http://], [https://]) as it
    is.  When the base URL is itself a full URL, as the built-in one is,
    every other path gives a full URL, so building twice is building
    once.  The news and cover builders drop one leading slash of the
    path; the logo builder keeps it. *)
Theorem image_urls (NEWS_MODULE_IMAGE_BASE_URL : option string) (p : string) :
  let base := IMAGE_BASE_URL NEWS_MODULE_IMAGE_BASE_URL in
  is_full_url (IMAGE_BASE_URL None) = true
  /\ buildNewsImageUrl base EmptyString = EmptyString
  /\ buildPdfCoverImageUrl base EmptyString = EmptyString
  /\ buildLogoUrl base None = EmptyString
  /\ buildLogoUrl base (Some EmptyString) = EmptyString
  /\ (is_full_url p = true ->
      buildNewsImageUrl base p = p /\ buildPdfCoverImageUrl base p = p
      /\ buildLogoUrl base (Some p) = p)
  /\ (is_full_url base = true ->
      buildNewsImageUrl base (buildNewsImageUrl base p)
      = buildNewsImageUrl base p
      /\ buildPdfCoverImageUrl base (buildPdfCoverImageUrl base p)
         = buildPdfCoverImageUrl base p
      /\ buildLogoUrl base (Some (buildLogoUrl base (Some p)))
         = buildLogoUrl base (Some p))
  /\ (nonempty p = true -> is_full_url p = false ->
      startsWith p "/" = false ->
      buildNewsImageUrl base (String "/" p) = buildNewsImageUrl base p
      /\ buildPdfCoverImageUrl base (String "/" p)
         = buildPdfCoverImageUrl base p
      /\ buildLogoUrl base (Some (String "/" p))
         = base +:+ "/uploads/settings/logo//" +:+ p).
Proof.
  intros base. split_and!; try reflexivity.
  - intros Hp. unfold buildNewsImageUrl, buildPdfCoverImageUrl, buildLogoUrl.
    rewrite !buildImageUrl_full by done.
    by rewrite (is_full_url_nonempty p Hp), Hp.
  - intros Hbase.
    assert (forall directory,
              buildImageUrl base directory (buildImageUrl base directory p)
              = buildImageUrl base directory p) as Himage.
    { intros directory. destruct (nonempty p) eqn:Hp.
      - apply buildImageUrl_full. by apply buildImageUrl_relative.
      - unfold buildImageUrl. by rewrite Hp. }
    split_and!; [apply Himage | apply Himage |].
    unfold buildLogoUrl. destruct (nonempty p) eqn:Hp; cbn [negb]; [| done].
    destruct (is_full_url p) eqn:Hfull.
    + by rewrite Hp, Hfull.
    + assert (is_full_url (base +:+ "/uploads/settings/logo/" +:+ p) = true)
        as Hurl by by apply is_full_url_app.
      by rewrite (is_full_url_nonempty _ Hurl), Hurl.
  - intros Hp Hfull Hslash.
    unfold buildNewsImageUrl, buildPdfCoverImageUrl, buildImageUrl,
      buildLogoUrl.
    rewrite Hp, Hfull, Hslash. cbn [negb].
    change (nonempty (String "/" p)) with true.
    change (is_full_url (String "/" p)) with false.
    replace (startsWith (String "/" p) "/") with true by by destruct p.
    cbn [negb slice1]. by split_and!.
Qed.

End ImageLaws.

(** ** Activity times *)

Module ActivityLaws.
Import Activity.

(** X26.  The label of an activity, by the age [now - t] of its
    timestamp in milliseconds.  Less than a minute, or a timestamp in the
    future, reads [Just now]; from one minute on the label counts whole
    minutes, from one hour whole hours, from one day whole days, and the
    count shown is never [0] and never reaches the next unit (1 to 59
    minutes, 1 to 23 hours, 1 to 6 days); from seven days on, and for a
    timestamp that is no date, the label is the localized date. *)
Theorem formatActivityTime_cases (now t : Z) (localized : string) :
  let age := (now - t)%Z in
  let label := formatActivityTime now (Some t) localized in
  ((age < 60000)%Z -> label = "Just now")
  /\ ((60000 <= age < 3600000)%Z ->
      exists m, (1 <= m <= 59)%Z /\ (m * 60000 <= age < (m + 1) * 60000)%Z
                /\ label = pretty m +:+ "m ago")
  /\ ((3600000 <= age < 86400000)%Z ->
      exists h, (1 <= h <= 23)%Z /\ (h * 3600000 <= age < (h + 1) * 3600000)%Z
                /\ label = pretty h +:+ "h ago")
  /\ ((86400000 <= age < 604800000)%Z ->
      exists d, (1 <= d <= 6)%Z /\ (d * 86400000 <= age < (d + 1) * 86400000)%Z
                /\ label = pretty d +:+ "d ago")
  /\ ((604800000 <= age)%Z -> label = localized)
  /\ formatActivityTime now None localized = localized.
Proof.
  cbn zeta. unfold formatActivityTime.
  change (1000 * 60 * 60 * 24)%Z with 86400000%Z.
  change (1000 * 60 * 60)%Z with 3600000%Z.
  change (1000 * 60)%Z with 60000%Z.
  set (age := (now - t)%Z).
  pose proof (Z.div_mod age 60000 ltac:(lia)) as Hm.
  pose proof (Z.mod_pos_bound age 60000 ltac:(lia)) as Hm'.
  pose proof (Z.div_mod age 3600000 ltac:(lia)) as Hh.
  pose proof (Z.mod_pos_bound age 3600000 ltac:(lia)) as Hh'.
  pose proof (Z.div_mod age 86400000 ltac:(lia)) as Hd.
  pose proof (Z.mod_pos_bound age 86400000 ltac:(lia)) as Hd'.
  split_and!.
  - intros Hage. destruct (Z.ltb_spec (age / 60000) 1); [done | lia].
  - intros Hage. exists (age / 60000)%Z.
    destruct (Z.ltb_spec (age / 60000) 1); [lia |].
    destruct (Z.ltb_spec (age / 60000) 60); [| lia].
    split_and!; try done; lia.
  - intros Hage. exists (age / 3600000)%Z.
    destruct (Z.ltb_spec (age / 60000) 1); [lia |].
    destruct (Z.ltb_spec (age / 60000) 60); [lia |].
    destruct (Z.ltb_spec (age / 3600000) 24); [| lia].
    split_and!; try done; lia.
  - intros Hage. exists (age / 86400000)%Z.
    destruct (Z.ltb_spec (age / 60000) 1); [lia |].
    destruct (Z.ltb_spec (age / 60000) 60); [lia |].
    destruct (Z.ltb_spec (age / 3600000) 24); [lia |].
    destruct (Z.ltb_spec (age / 86400000) 7); [| lia].
    split_and!; try done; lia.
  - intros Hage.
    destruct (Z.ltb_spec (age / 60000) 1); [lia |].
    destruct (Z.ltb_spec (age / 60000) 60); [lia |].
    destruct (Z.ltb_spec (age / 3600000) 24); [lia |].
    destruct (Z.ltb_spec (age / 86400000) 7); [lia | done].
  - done.
Qed.

End ActivityLaws.

(** ** Requests of a session, and of the resources *)

Module RequestLaws.
Import Cookies Token Text Client AuthContext ModalSave Requests Hooks Keys.
Import TokenProps ClientProps AuthProps TokenLaws ClientLaws AuthLaws.

Section WithJson.
Context {rt : JsonRuntime}.
Import News Pdf.

(** X27.  The session and the requests.  After a login that returned, in
    the browser, a token is stored, and every request that is not
    anonymous and has no headers of its own carries it as
    [Authorization: Bearer], unless it is the empty text.  After
    [logout()], whatever the network did, no request carries an
    [Authorization] header. *)
Theorem session_requests (net net' : network) (credentials : json)
    (options : option LoginOptions) (w : world) (path : string)
    (o : RequestOptions) :
  headers o = None ->
  (forall w' st,
     w_env w = Browser st ->
     login net credentials options w = (Returned tt, w') ->
     anonymous o = false ->
     exists t,
       getToken (w_env w') = Some t
       /\ (t <> EmptyString ->
           apiFetch (expecting (with_bearer t) net') path o (w_env w')
           = apiFetch net' path o (w_env w')))
  /\ apiFetch (expecting no_authorization net') path o (w_env (logout net w).2)
     = apiFetch net' path o (w_env (logout net w).2).
Proof.
  intros Hheaders. split.
  - intros w' st Henv Hrun Hanon.
    destruct (login_outcome_browser net credentials options w w' st Henv Hrun)
      as (token & _ & _ & _ & -> & _).
    exists (to_string token). split.
    + rewrite getToken_setStoredUser. apply getToken_setToken.
    + intros Hne. apply apiFetch_expecting.
      intros url init Hh _ Hc _ _. unfold with_bearer.
      rewrite Hh, Hc, Hanon, Hheaders.
      rewrite getToken_setStoredUser, getToken_setToken.
      cbn.
      assert (nonempty (to_string token) = true) as ->.
      { unfold nonempty. by apply negb_true_iff, String.eqb_neq. }
      rewrite bool_decide_eq_true_2; [done |].
      destruct (isFormData o); by simplify_map_eq.
  - rewrite logout_returns. cbn [snd w_env].
    apply apiFetch_expecting.
    intros url init Hh _ _ _ _. unfold no_authorization.
    rewrite Hh, Hheaders.
    rewrite getToken_setStoredUser, !getToken_removeToken.
    rewrite bool_decide_eq_true_2; [done |].
    destruct (anonymous o), (isFormData o); by simplify_map_eq.
Qed.

Lemma upload_sent (net : network) (method path : string) (form : json)
    (e : env) :
  let o := {| Client.method := Some method; headers := None;
              payload := Some form; anonymous := false; isFormData := true |} in
  apiFetch (expecting (upload_request method (buildApiUrl path)) net) path o e
  = apiFetch net path o e.
Proof.
  cbn zeta. apply apiFetch_expecting.
  intros url init Hh Hm _ Hb ->. unfold upload_request.
  rewrite Hh, Hm, Hb. cbn. rewrite !String.eqb_refl. cbn.
  rewrite bool_decide_eq_true_2; [done |].
  destruct (truthy_str (getToken e)); by simplify_map_eq.
Qed.

Lemma bare_sent (net : network) (method path : string) (e : env) :
  let o := {| Client.method := Some method; headers := None;
              payload := None; anonymous := false; isFormData := false |} in
  apiFetch (expecting (bare_request method (buildApiUrl path)) net) path o e
  = apiFetch net path o e.
Proof.
  cbn zeta. apply apiFetch_expecting.
  intros url init _ Hm _ Hb ->. unfold bare_request.
  rewrite Hm, Hb. cbn. by rewrite !String.eqb_refl.
Qed.

(** X28.  What the news and PDF calls send.  A create is a [POST] and an
    update a [PUT] with a [FormData] body and no [Content-Type] header of
    the client (the browser writes the multipart one); a delete is a
    [DELETE] without a body; the status toggle is a [PATCH] with the JSON
    text of [{status}] and the JSON content type; a list call is a [GET]
    without a body to the list path.  Every one goes to the path of the
    resource under the base URL of the API. *)
Theorem resource_requests (net : network) (id : ident) (data : NewsPayload)
    (pdata : PDFPayload) (status : bool) (params : option ListParams)
    (e : env) :
  apiCreateNews (expecting (upload_request "POST" (API_BASE_URL +:+ "/news"))
                   net) data e
  = apiCreateNews net data e
  /\ apiUpdateNews
       (expecting (upload_request "PUT"
                     (API_BASE_URL +:+ "/news/" +:+ ident_text id)) net)
       id data e
     = apiUpdateNews net id data e
  /\ apiDeleteNews
       (expecting (bare_request "DELETE"
                     (API_BASE_URL +:+ "/news/" +:+ ident_text id)) net)
       id e
     = apiDeleteNews net id e
  /\ apiCreatePdf (expecting (upload_request "POST" (API_BASE_URL +:+ "/pdf"))
                     net) pdata e
     = apiCreatePdf net pdata e
  /\ apiUpdatePdf
       (expecting (upload_request "PUT"
                     (API_BASE_URL +:+ "/pdf/" +:+ ident_text id)) net)
       id pdata e
     = apiUpdatePdf net id pdata e
  /\ apiDeletePdf
       (expecting (bare_request "DELETE"
                     (API_BASE_URL +:+ "/pdf/" +:+ ident_text id)) net)
       id e
     = apiDeletePdf net id e
  /\ apiUpdatePdfStatus
       (expecting (json_request "PATCH"
                     (API_BASE_URL +:+ "/pdf/" +:+ ident_text id +:+ "/status")
                     (JObj [("status", JBool status)])) net)
       id status e
     = apiUpdatePdfStatus net id status e
  /\ getNewsList
       (expecting (bare_request "GET"
                     (API_BASE_URL +:+ listPath "/news/admin" params)) net)
       params e
     = getNewsList net params e
  /\ getPdfList
       (expecting (bare_request "GET"
                     (API_BASE_URL +:+ listPath "/pdf" params)) net)
       params e
     = getPdfList net params e.
Proof.
  split_and!.
  - apply (upload_sent net "POST" "/news").
  - apply (upload_sent net "PUT" ("/news/" +:+ ident_text id)).
  - apply (bare_sent net "DELETE" ("/news/" +:+ ident_text id)).
  - apply (upload_sent net "POST" "/pdf").
  - apply (upload_sent net "PUT" ("/pdf/" +:+ ident_text id)).
  - apply (bare_sent net "DELETE" ("/pdf/" +:+ ident_text id)).
  - unfold apiUpdatePdfStatus. apply apiFetch_expecting.
    intros url init Hh Hm _ Hb ->. unfold json_request.
    rewrite Hh, Hm, Hb. cbn. rewrite !String.eqb_refl. cbn.
    rewrite bool_decide_eq_true_2; [done |].
    destruct (truthy_str (getToken e)); by simplify_map_eq.
  - apply (bare_sent net "GET" (listPath "/news/admin" params)).
  - apply (bare_sent net "GET" (listPath "/pdf" params)).
Qed.

End WithJson.

End RequestLaws.

(** ** The login page *)

Module LoginPageLaws.
Import Token Client Routes AuthContext LoginPage.
Import TokenProps GateProps ClientProps AuthProps.

Section WithJson.
Context {rt : JsonRuntime}.

Lemma login_refused (net : network) (credentials : json)
    (options : option LoginOptions) (w : world) (res : Response) :
  answers net (Resolved res) -> ok res = false ->
  login net credentials options w
  = (Threw (ApiError (error_message (JSON_parse (body res)) res)
              (status res) (JSON_parse (body res))), w).
Proof.
  intros Hnet Hok. unfold login, bind, onEnv at 1.
  unfold AuthApi.login, bind.
  rewrite (apiFetch_resolved net _ _ res (w_env w) Hnet), Hok.
  by destruct w.
Qed.

Lemma login_rejected (net : network) (credentials : json)
    (options : option LoginOptions) (w : world) (err : exn) :
  answers net (Rejected err) ->
  login net credentials options w = (Threw err, w).
Proof.
  intros Hnet. unfold login, bind, onEnv at 1.
  unfold AuthApi.login, bind.
  rewrite (apiFetch_rejected net _ _ err (w_env w) Hnet). by destruct w.
Qed.

Lemma has_key_assoc (k : string) (fields : list (string * json)) (m : json) :
  assoc k fields = Some m -> has_key k (JObj fields) = true.
Proof. intros Hm. cbn. rewrite Hm. by apply bool_decide_eq_true_2. Qed.

Lemma has_key_none (k : string) (fields : list (string * json)) :
  assoc k fields = None -> has_key k (JObj fields) = false.
Proof.
  intros Hm. cbn. rewrite Hm. apply bool_decide_eq_false_2. by intros [? ?].
Qed.

(** X29.  What the login page shows when a login fails.  For a response
    outside 2xx whose body is an object with a [message], the page shows
    [String(message)] as it is, also when it is empty or [null] (the
    [ApiError] of the client falls back to the generic text there, the
    page does not); for any other body it shows
    [Request failed with status N]; for a rejected request it shows the
    message of the [Error], and [An unexpected error occurred] for a
    rejection that is none.  The target the page computes from
    [callbackUrl] is the one [login] navigates to when handed it:
    validating a second time changes nothing. *)
Theorem login_error_shown (net : network) (credentials : json)
    (options : option LoginOptions) (w : world) :
  (forall res fields m,
     answers net (Resolved res) -> ok res = false ->
     JSON_parse (body res) = Some (JObj fields) ->
     assoc "message" fields = Some m ->
     exists err,
       login net credentials options w = (Threw err, w)
       /\ errorMessage err = to_string m)
  /\ (forall res,
        answers net (Resolved res) -> ok res = false ->
        (forall fields, JSON_parse (body res) = Some (JObj fields) ->
                        assoc "message" fields = None) ->
        exists err,
          login net credentials options w = (Threw err, w)
          /\ errorMessage err = generic_message res)
  /\ (forall m,
        answers net (Rejected (JsError m)) ->
        exists err,
          login net credentials options w = (Threw err, w)
          /\ errorMessage err = m)
  /\ (forall v,
        answers net (Rejected (NonError v)) ->
        exists err,
          login net credentials options w = (Threw err, w)
          /\ errorMessage err = "An unexpected error occurred")
  /\ (forall callbackUrl,
        redirectTo callbackUrl = redirectTarget callbackUrl
        /\ redirectTarget (Some (redirectTo callbackUrl))
           = redirectTo callbackUrl).
Proof.
  split_and!.
  - intros res fields m Hnet Hok Hbody Hm. eexists.
    split; [by apply login_refused |].
    rewrite Hbody. cbn [errorMessage truthy typeof_object andb].
    rewrite (has_key_assoc _ _ _ Hm). cbn [get]. by rewrite Hm.
  - intros res Hnet Hok Hbody. eexists.
    split; [by apply login_refused |].
    rewrite error_message_field.
    assert (JSON_parse (body res) ≫= get "message" = None) as ->.
    { destruct (JSON_parse (body res)) as [[] |]; try done.
      cbn. by apply Hbody. }
    unfold errorMessage.
    change (nonempty (generic_message res)) with true.
    destruct (JSON_parse (body res)) as [[| b | n | s | items | fields] |];
      try done.
    + by destruct b.
    + cbn. by rewrite andb_false_r.
    + cbn. by rewrite andb_false_r.
    + cbn [truthy typeof_object andb].
      by rewrite (has_key_none _ _ (Hbody _ eq_refl)).
  - intros m Hnet. eexists. split; [by apply login_rejected | done].
  - intros v Hnet. eexists. split; [by apply login_rejected | done].
  - intros callbackUrl. split; [done |].
    unfold redirectTo, redirectTarget, DEFAULT_REDIRECT_AFTER_LOGIN.
    destruct callbackUrl as [s |]; [| done].
    by destruct (nonempty s && startsWith s "/") eqn:Hs; [rewrite Hs |].
Qed.

End WithJson.

End LoginPageLaws.

(** ** Worked examples for the further results *)

Module WorkedMore.
Import Cookies Token Text Routes Gate Client AuthContext Swr Hooks.
Import TokenSync LoginUrl Navigation ModalSave Callbacks Keys Settings Images
  Activity Requests LoginPage.
Import Samples MoreSamples.

(** A second token replaces the first, in both places. *)
Lemma token_last_write_wins_on_samples :
  setToken "xyz" None (setToken "abc" (Some true) (Browser no_storage)).2
  = setToken "xyz" None (Browser no_storage)
  /\ setToken "xyz" None (removeToken (Browser logged_in_storage))
     = setToken "xyz" None (Browser logged_in_storage).
Proof.
  split.
  - apply (proj1 (proj1 (TokenLaws.token_last_write_wins "abc" "xyz"
                           (Some true) None (Browser no_storage)) eq_refl)).
  - apply (proj2 (proj1 (TokenLaws.token_last_write_wins "abc" "xyz"
                           (Some true) None (Browser logged_in_storage))
                    eq_refl)).
Defined.

(** A token of plain letters is written to both places; a token that ends
    in a lone surrogate makes [setToken] throw, is stored and leaves the
    cookie of the session; storing the user of a session keeps token and
    cookie in step. *)
Lemma token_places_agree_on_samples :
  let rt := Example.runtime in
  ((setToken "abc" None (Browser no_storage)).1 = Returned tt
   /\ dual_write (setToken "abc" None (Browser no_storage)).2)
  /\ ((setToken ill_formed_token None (Browser logged_in_storage)).1
      = Threw URIError
      /\ getToken (setToken ill_formed_token None
                     (Browser logged_in_storage)).2
         = Some ill_formed_token
      /\ authCookie (setToken ill_formed_token None
                       (Browser logged_in_storage)).2
         = authCookie (Browser logged_in_storage))
  /\ dual_write (setStoredUser ada (Browser logged_in_storage)).
Proof.
  cbn zeta. split; [| split].
  - apply (proj1 (TokenLaws.token_places_agree (rt := Example.runtime) "abc"
                    None ada (Browser no_storage))).
    reflexivity.
  - apply (proj1 (proj2 (TokenLaws.token_places_agree (rt := Example.runtime)
                           ill_formed_token None ada
                           (Browser logged_in_storage))));
      reflexivity.
  - apply (proj2 (proj2 (proj2 (proj2
             (TokenLaws.token_places_agree (rt := Example.runtime) "abc" None
                ada (Browser logged_in_storage)))))).
    reflexivity.
Defined.

(** The stored user comes back as it was written. *)
Lemma stored_user_round_trip_on_samples :
  (getStoredUser (rt := Example.runtime)
     (setStoredUser (rt := Example.runtime) ada (Browser no_storage))).1
  = Returned ada.
Proof.
  apply (proj1 (TokenLaws.stored_user_round_trip (rt := Example.runtime) ada
                  no_storage ltac:(by vm_compute))).
Defined.

(** A token of letters, digits, dots and dashes is its own cookie value. *)
Lemma encodeURIComponent_cookie_safe_on_samples :
  encodeURIComponent "eyJhbGciOi.eyJzdWIi-_9" = "eyJhbGciOi.eyJzdWIi-_9".
Proof.
  apply (proj2 (proj2 (TokenLaws.encodeURIComponent_cookie_safe
                         "eyJhbGciOi.eyJzdWIi-_9"))).
  reflexivity.
Defined.

(** Two tokens that are written the same are the same. *)
Lemma encodeURIComponent_inj_on_samples : "a b;c" = "a b" +:+ ";c".
Proof.
  apply (TokenLaws.encodeURIComponent_inj "a b;c" ("a b" +:+ ";c")).
  reflexivity.
Defined.

(** The redirect of a request for [/news] without a cookie. *)
Lemma middleware_redirects_on_samples :
  let to := {| origin := "https://admin.example"; pathname := "/login";
               searchParams := [("callbackUrl", "/news")] |} in
  origin to = origin (nextUrl (request "/news" [("q", "1")] []))
  /\ startsWith (pathname to) "/" = true.
Proof.
  cbn zeta.
  destruct (GateLaws.middleware_redirects (request "/news" [("q", "1")] [])
              {| origin := "https://admin.example"; pathname := "/login";
                 searchParams := [("callbackUrl", "/news")] |} eq_refl)
    as (Horigin & Hslash & _).
  split; [exact Horigin | exact Hslash].
Defined.

(** Without a cookie a request for [/news] ends on the login page. *)
Lemma gate_settles_on_samples :
  exists final,
    settle 3 (request "/news" [] []) = Some final
    /\ pathname final = LOGIN_PATH.
Proof.
  destruct (GateLaws.gate_settles (request "/news" [] []))
    as (final & Hsettle & _ & Hlogin & _).
  exists final. split; [exact Hsettle |].
  apply Hlogin; reflexivity.
Defined.

(** A request for [/news] before login, and the way back after it. *)
Lemma gate_returns_to_path_on_samples :
  exists login_url,
    middleware (request "/news" [("q", "1")] []) = redirect login_url
    /\ middleware (follow [(AUTH_COOKIE_NAME, "abc")] login_url)
       = redirect {| origin := "https://admin.example"; pathname := "/news";
                     searchParams := [] |}.
Proof.
  destruct (GateLaws.gate_returns_to_path (request "/news" [("q", "1")] [])
              [(AUTH_COOKIE_NAME, "abc")] eq_refl eq_refl eq_refl eq_refl)
    as (login_url & Hfirst & Hback & _).
  exists login_url. split; [exact Hfirst | exact Hback].
Defined.

(** The login URL for a callback with a query, and for a callback that
    is no path. *)
Lemma buildLoginUrl_cases_on_samples :
  buildLoginUrl (Some "/news?page=2") = "/login?callbackUrl=%2Fnews%3Fpage%3D2"
  /\ buildLoginUrl (Some "https://evil.example/") = LOGIN_PATH.
Proof.
  split.
  - destruct (proj2 (GateLaws.buildLoginUrl_cases (Some "/news?page=2"))
                "/news?page=2" eq_refl eq_refl) as (Hurl & _).
    exact Hurl.
  - apply (proj1 (GateLaws.buildLoginUrl_cases (Some "https://evil.example/"))).
    right. exists "https://evil.example/". split; reflexivity.
Defined.

(** A base URL set with trailing slashes loses exactly those; one set
    without is kept. *)
Lemma API_BASE_URL_on_samples :
  (exists n, "https://api.example/v1///"
             = API_BASE_URL (rt := runtime_at "https://api.example/v1///")
               +:+ replicate_char n "/")
  /\ API_BASE_URL (rt := runtime_at "https://api.example/v1")
     = "https://api.example/v1".
Proof.
  split.
  - apply (proj1 (proj2 (ClientLaws.API_BASE_URL_no_trailing_slash
                           (rt := runtime_at "https://api.example/v1///")))
             "https://api.example/v1///" eq_refl).
  - apply (proj2 (proj2 (ClientLaws.API_BASE_URL_no_trailing_slash
                           (rt := runtime_at "https://api.example/v1")))
             "https://api.example/v1" eq_refl).
    reflexivity.
Defined.

(** The login request goes out without the stored token; a request for
    the news goes out with it. *)
Lemma apiFetch_credentials_on_samples :
  let rt := Example.runtime in
  apiFetch (expecting without_credentials accepting_backend) "/auth/login"
    login_request (Browser logged_in_storage)
  = apiFetch accepting_backend "/auth/login" login_request
      (Browser logged_in_storage)
  /\ apiFetch (expecting (with_bearer "abc") accepting_backend) "/news" GET
       (Browser logged_in_storage)
     = apiFetch accepting_backend "/news" GET (Browser logged_in_storage).
Proof.
  cbn zeta. split.
  - apply (proj1 (ClientLaws.apiFetch_credentials (rt := Example.runtime)
                    accepting_backend "/auth/login" login_request
                    (Browser logged_in_storage))); reflexivity.
  - apply (proj2 (proj2 (ClientLaws.apiFetch_credentials
                           (rt := Example.runtime) accepting_backend "/news"
                           GET (Browser logged_in_storage)))
             "abc"); [reflexivity | reflexivity | reflexivity | done].
Defined.

(** Saving a record without an [id] in edit mode fails before any
    request; with an [id] the request is a [PUT] to the record. *)
Lemma saveWithModalMode_on_samples :
  let rt := Example.runtime in
  saveWithModalMode offline EditMode news_endpoints unsaved
    (Browser logged_in_storage)
  = (Threw (JsError "Missing id for edit operation."),
     Browser logged_in_storage)
  /\ saveWithModalMode
       (expecting (json_request "PUT" (buildApiUrl "/news/7") saved)
          accepting_backend) EditMode news_endpoints saved
       (Browser logged_in_storage)
     = saveWithModalMode accepting_backend EditMode news_endpoints saved
         (Browser logged_in_storage).
Proof.
  cbn zeta. split.
  - apply (proj1 (ClientLaws.saveWithModalMode_routes (rt := Example.runtime)
                    offline news_endpoints unsaved
                    (Browser logged_in_storage))).
    reflexivity.
  - apply (proj1 (proj2 (ClientLaws.saveWithModalMode_routes
                           (rt := Example.runtime) accepting_backend
                           news_endpoints saved (Browser logged_in_storage)))
             (JNum 7)); reflexivity.
Defined.

(** A provider mounted in a browser that holds a session restores the
    user of the session; mounted where the stored token is the empty
    text, it has no user and reports itself authenticated. *)
Lemma checkAuth_restores_on_samples :
  (exists w',
     checkAuth (rt := Example.runtime) mounting = (Returned tt, w')
     /\ isLoading w' = false
     /\ user w' = ada)
  /\ (exists w',
        checkAuth (rt := Example.runtime) mounting_on_empty_token
        = (Returned tt, w')
        /\ user w' = JNull
        /\ hasToken (w_env w') = true
        /\ isAuthenticated w' = true).
Proof.
  split.
  - destruct (AuthLaws.checkAuth_restores (rt := Example.runtime) mounting)
      as (w' & Hrun & _ & Hloading & _ & _ & _ & Huser & _).
    exists w'. split; [exact Hrun |]. split; [exact Hloading |].
    pose proof (Huser eq_refl) as Hstored.
    change (Returned ada = Returned (user w')) in Hstored.
    by injection Hstored as <-.
  - destruct (AuthLaws.checkAuth_restores (rt := Example.runtime)
                mounting_on_empty_token)
      as (w' & Hrun & _ & _ & _ & _ & _ & _ & Hempty).
    destruct (Hempty eq_refl) as (Huser & Htoken & Hmemo).
    exists w'. split; [exact Hrun |]. split; [exact Huser |].
    split; [exact Htoken | exact (Hmemo eq_refl)].
Defined.

(** A login that the backend accepts, with [remember] and a callback. *)
Lemma login_establishes_session_on_samples :
  let rt := Example.runtime in
  let w' := (login full_login_backend some_credentials remembered_login
               logged_out).2 in
  isAuthenticated w' = true
  /\ cookie_max_age <$> authCookie (w_env w') = Some 604800%Z
  /\ navigations w' = ["/pdfs"].
Proof.
  cbn zeta.
  destruct (AuthLaws.login_establishes_session (rt := Example.runtime)
              full_login_backend some_credentials remembered_login logged_out
              (login (rt := Example.runtime) full_login_backend
                 some_credentials remembered_login logged_out).2
              no_storage eq_refl ltac:(by vm_compute))
    as (Hauth & _ & Hage & _ & _ & Hnav).
  split; [exact Hauth |]. split; [exact Hage | exact Hnav].
Defined.

(** After that login, a provider mounted afresh finds the same user. *)
Lemma login_then_reload_on_samples :
  let rt := Example.runtime in
  let w' := (login full_login_backend some_credentials remembered_login
               logged_out).2 in
  exists w'',
    checkAuth (initial (w_env w')) = (Returned tt, w'')
    /\ user w'' = user w'
    /\ isAuthenticated w'' = true.
Proof.
  cbn zeta.
  destruct (AuthLaws.login_then_reload (rt := Example.runtime)
              full_login_backend some_credentials remembered_login logged_out
              (login (rt := Example.runtime) full_login_backend
                 some_credentials remembered_login logged_out).2
              no_storage eq_refl ltac:(by vm_compute)
              ltac:(by vm_compute) ltac:(by vm_compute))
    as (w'' & Hrun & Huser & _ & Hauth).
  exists w''. split; [exact Hrun |]. split; [exact Huser | exact Hauth].
Defined.

(** A refused login and a login while the network is down change
    nothing. *)
Lemma login_failure_unchanged_on_samples :
  let rt := Example.runtime in
  login (backend 401 (body refused_login)) some_credentials None logged_out
  = (Threw (ApiError "Invalid credentials" 401
              (Some (JObj [("message", JStr "Invalid credentials")]))),
     logged_out)
  /\ login offline some_credentials None logged_out
     = (Threw (JsError "Failed to fetch"), logged_out).
Proof.
  cbn zeta. split.
  - apply (proj1 (AuthLaws.login_failure_unchanged (rt := Example.runtime)
                    (backend 401 (body refused_login)) some_credentials None
                    logged_out)
             refused_login (fun _ _ => eq_refl) eq_refl).
  - apply (proj1 (proj2 (AuthLaws.login_failure_unchanged
                           (rt := Example.runtime) offline some_credentials
                           None logged_out))
             (JsError "Failed to fetch") (fun _ _ => eq_refl)).
Defined.

(** A create that the backend refuses throws the [ApiError] of the
    client; a create on a request that was aborted with a value that is
    no [Error] throws the message of the hook. *)
Lemma callbacks_rethrow_on_samples :
  let rt := Example.runtime in
  News.createNews refusing_backend a_news_item idle_hook
  = (Threw (ApiError "Title is required" 422
              (Some (JObj [("message", JStr "Title is required")]))),
     failed (ApiError "Title is required" 422
               (Some (JObj [("message", JStr "Title is required")])))
       idle_hook)
  /\ News.createNews aborted a_news_item idle_hook
     = (Threw (JsError "Failed to create news"),
        failed (JsError "Failed to create news") idle_hook)
  /\ Pdf.deletePdf offline (IdNum 42) idle_hook
     = (Threw (JsError "Failed to fetch"),
        failed (JsError "Failed to fetch") idle_hook).
Proof.
  cbn zeta. split; [| split].
  - apply (proj2 (proj2 (proj1 (CallbackOutcomes.callbacks_rethrow
                                  (rt := Example.runtime) a_news_item a_pdf
                                  (IdNum 42) true)
                           refusing_backend idle_hook))
             {| status := 422;
                body := Example.print
                          (JObj [("message", JStr "Title is required")]) |}
             (fun _ _ => eq_refl) eq_refl).
  - apply (proj1 (proj2 (proj1 (CallbackOutcomes.callbacks_rethrow
                                  (rt := Example.runtime) a_news_item a_pdf
                                  (IdNum 42) true)
                           aborted idle_hook))
             (JStr "aborted") (fun _ _ => eq_refl)).
  - apply (proj1 (proj1 (proj2 (proj2 (proj2 (proj2 (proj2
             (CallbackOutcomes.callbacks_rethrow (rt := Example.runtime)
                a_news_item a_pdf (IdNum 42) true))))))
             offline idle_hook)
             (JsError "Failed to fetch") (fun _ _ => eq_refl) eq_refl).
Defined.

(** An update of news 42 that the backend accepts leaves the PDF of the
    same number and the statistics of the dashboard as they were. *)
Lemma callbacks_confined_on_samples :
  let rt := Example.runtime in
  let h' := (News.updateNews accepting_backend (IdNum 42) a_news_item
               idle_hook).2 in
  cache h' !! "pdf-single-42" = cache idle_hook !! "pdf-single-42"
  /\ cache h' !! DASHBOARD_STATS_KEY = cache idle_hook !! DASHBOARD_STATS_KEY
  /\ h_env h' = h_env idle_hook.
Proof.
  cbn zeta.
  destruct (CallbackOutcomes.callbacks_confined (rt := Example.runtime)
              accepting_backend a_news_item a_pdf (IdNum 42) true)
    as (_ & Hupdate & _ & _ & _ & _ & _ & Hother & Hshared).
  destruct (Hupdate idle_hook) as [Henv Hframe].
  split; [| split; [| exact Henv]].
  - apply Hframe.
    apply (proj1 (proj2 (Hother (Some (IdNum 42)) None (IdNum 42)))).
  - apply Hframe.
    apply (Hshared (Some (IdNum 42)) DASHBOARD_STATS_KEY).
    constructor.
Defined.


(** A profile update on an aborted request: the caller catches the value
    of the rejection, the hook shows the message of the hook. *)
Lemma settings_callbacks_on_samples :
  let rt := Example.runtime in
  (updateProfile aborted unsaved idle_hook).1 = Threw (NonError (JStr "aborted"))
  /\ failure (updateProfile aborted unsaved idle_hook).2
     = Some (JsError "Failed to update profile").
Proof.
  cbn zeta.
  apply (proj2 (proj2 (proj2 (proj2 (proj2
           (SettingsLaws.settings_callbacks_throw (rt := Example.runtime)
              unsaved)))))
           aborted (JStr "aborted") idle_hook (fun _ _ => eq_refl)).
Defined.

(** The URL of a news image given by its path, with and without a
    leading slash, and of one given by its URL. *)
Lemma image_urls_on_samples :
  let base := IMAGE_BASE_URL None in
  buildNewsImageUrl base "https://cdn.example/a.png"
  = "https://cdn.example/a.png"
  /\ buildNewsImageUrl base (buildNewsImageUrl base "a.png")
     = buildNewsImageUrl base "a.png"
  /\ buildNewsImageUrl base "/a.png" = buildNewsImageUrl base "a.png".
Proof.
  cbn zeta. split; [| split].
  - apply (proj1 (proj2 (proj2 (proj2 (proj2 (proj2
             (ImageLaws.image_urls None "https://cdn.example/a.png"))))))).
    reflexivity.
  - apply (proj1 (proj2 (proj2 (proj2 (proj2 (proj2 (proj2
             (ImageLaws.image_urls None "a.png")))))))).
    reflexivity.
  - apply (proj2 (proj2 (proj2 (proj2 (proj2 (proj2 (proj2
             (ImageLaws.image_urls None "a.png")))))))); reflexivity.
Defined.

(** An activity of ninety minutes ago, and one dated a minute ahead. *)
Lemma formatActivityTime_on_samples :
  (exists h, (1 <= h <= 23)%Z
             /\ formatActivityTime 1700005400000%Z (Some 1700000000000%Z) "Nov 14"
                = pretty h +:+ "h ago")
  /\ formatActivityTime 1700000000000%Z (Some 1700000060000%Z) "Nov 14"
     = "Just now".
Proof.
  split.
  - destruct (proj1 (proj2 (proj2 (ActivityLaws.formatActivityTime_cases
                                     1700005400000%Z 1700000000000%Z "Nov 14")))
                ltac:(lia)) as (h & Hh & _ & Hlabel).
    exists h. split; [exact Hh | exact Hlabel].
  - apply (proj1 (ActivityLaws.formatActivityTime_cases
                    1700000000000%Z 1700000060000%Z "Nov 14")).
    lia.
Defined.

(** After a login the request for the news carries the token of the
    response; after a logout it carries none. *)
Lemma session_requests_on_samples :
  let rt := Example.runtime in
  let w' := (login full_login_backend some_credentials remembered_login
               logged_out).2 in
  apiFetch (expecting (with_bearer "abc") accepting_backend) "/news" GET
    (w_env w')
  = apiFetch accepting_backend "/news" GET (w_env w')
  /\ apiFetch (expecting no_authorization accepting_backend) "/news" GET
       (w_env (logout offline mounting).2)
     = apiFetch accepting_backend "/news" GET
         (w_env (logout offline mounting).2).
Proof.
  cbn zeta. split.
  - destruct (proj1 (RequestLaws.session_requests (rt := Example.runtime)
                       full_login_backend accepting_backend some_credentials
                       remembered_login logged_out "/news" GET eq_refl)
                (login (rt := Example.runtime) full_login_backend
                   some_credentials remembered_login logged_out).2
                no_storage eq_refl ltac:(by vm_compute) eq_refl)
      as (t & Ht & Hsend).
    change (Some "abc" = Some t) in Ht. injection Ht as <-.
    by apply Hsend.
  - apply (proj2 (RequestLaws.session_requests (rt := Example.runtime)
                    offline accepting_backend some_credentials None mounting
                    "/news" GET eq_refl)).
Defined.

(** A refused login: the page shows the message of the backend. *)
Lemma login_error_shown_on_samples :
  let rt := Example.runtime in
  exists err,
    login (backend 401 (body refused_login)) some_credentials None logged_out
    = (Threw err, logged_out)
    /\ errorMessage err = "Invalid credentials".
Proof.
  cbn zeta.
  apply (proj1 (LoginPageLaws.login_error_shown (rt := Example.runtime)
                  (backend 401 (body refused_login)) some_credentials None
                  logged_out)
           refused_login [("message", JStr "Invalid credentials")]
           (JStr "Invalid credentials") (fun _ _ => eq_refl) eq_refl
           ltac:(by vm_compute) eq_refl).
Defined.

End WorkedMore.
